(** * Restaurant recommender: content, collaborative, hybrid and RL re-ranking

    A shallow embedding of the scoring core of the [recommender] Django app
    ([content_based.py], [collaborative.py], [hybrid.py],
    [reinforcement_learning.py], [views.record_feedback]) together with the
    properties its specification states about it, and of the restaurant
    search ([get_restaurants.py], [constants.py]) and the debug logs with
    further properties of the code.

    Conventions of the embedding.
    - A Python [dict] with string keys is a [gmap string value]; [d.get(k)]
      is [d !! k], [d[k] = v] is [<[k:=v]> d], [del d[k]] is [delete k d].
    - A Python [float] is a [pyfloat]: an exact rational, or one of the three
      IEEE special values.  Rounding of finite results is not modelled.
    - Code that may raise returns a [result]; the exception classes are the
      ones the source names in its [except] clauses plus the ones that reach
      its callers.
    - Dict objects that the code mutates in place live in a heap addressed by
      natural numbers; see [Module Hybrid].
    - pandas, scikit-learn, Keras, Firestore and the interpreter's own
      [float(str)] are outside the repository; what the code needs of them
      is an interface ([Sklearn], [Keras], [Runtime], [Builtins]) or an
      argument ([users_stream], [rl_models]).  The same holds for the
      random draws ([Random]), the [str] methods ([Strings]), fuzzywuzzy
      ([Fuzzy]) and the Places API ([GoogleMaps]).

    The file has the model first (one module per source file), then the
    vocabulary of the properties ([Spec]) and example data ([Examples]),
    then the properties themselves: first those of the specification,
    then further ones read off the code. *)

From Stdlib Require Import QArith ZArith Lia Lqa Ascii.
From stdpp Require Import gmap strings list sorting pretty.

Local Open Scope string_scope.
Local Open Scope list_scope.

(** ** Python values *)

Module Py.

Inductive pyfloat : Type :=
| Fin (q : Q)
| PInf
| NInf
| NaN.

Inductive exn : Type :=
| KeyError
| TypeError
| ValueError
| OverflowError
| IndexError.

Inductive result (A : Type) : Type :=
| Ok (a : A)
| Raise (e : exn).
Arguments Ok {A} a.
Arguments Raise {A} e.

Definition bind {A B} (m : result A) (f : A -> result B) : result B :=
  match m with
  | Ok a => f a
  | Raise e => Raise e
  end.

(** Whether the code returned rather than raised. *)
Definition is_ok {A} (r : result A) : bool :=
  match r with Ok _ => true | Raise _ => false end.

(** JSON-shaped values, as [json.loads] and pandas hand them to the code. *)
#[local] Set Warnings "-register-all".
Inductive value : Type :=
| VNone
| VBool (b : bool)
| VInt (z : Z)
| VFloat (f : pyfloat)
| VStr (s : string)
| VList (l : list value).

Abbreviation pydict := (gmap string value).

Definition is_finite (f : pyfloat) : bool :=
  match f with Fin _ => true | _ => false end.

Definition Qsign (q : Q) : comparison := (0 ?= q)%Q.

Definition Qltb (a b : Q) : bool :=
  match (a ?= b)%Q with Lt => true | _ => false end.

(** [x + y] on floats. *)
Definition fadd (x y : pyfloat) : pyfloat :=
  match x, y with
  | NaN, _ | _, NaN => NaN
  | Fin a, Fin b => Fin (a + b)
  | PInf, NInf | NInf, PInf => NaN
  | PInf, _ | _, PInf => PInf
  | NInf, _ | _, NInf => NInf
  end.

Definition fneg (x : pyfloat) : pyfloat :=
  match x with
  | Fin a => Fin (- a)
  | PInf => NInf
  | NInf => PInf
  | NaN => NaN
  end.

(** An infinity times a finite factor [q]. *)
Definition inf_times (pos : bool) (q : Q) : pyfloat :=
  match Qsign q with
  | Eq => NaN
  | Lt => if pos then PInf else NInf
  | Gt => if pos then NInf else PInf
  end.

(** [x * y] on floats. *)
Definition fmul (x y : pyfloat) : pyfloat :=
  match x, y with
  | NaN, _ | _, NaN => NaN
  | Fin a, Fin b => Fin (a * b)
  | PInf, Fin b => inf_times true b
  | NInf, Fin b => inf_times false b
  | Fin a, PInf => inf_times true a
  | Fin a, NInf => inf_times false a
  | PInf, PInf | NInf, NInf => PInf
  | PInf, NInf | NInf, PInf => NInf
  end.

(** [x / c] for a float literal [c > 0] (the code only divides by [5.0],
    [4.0] and by sums it has checked to be positive). *)
Definition fdiv_pos (x : pyfloat) (c : Q) : pyfloat :=
  match x with
  | Fin a => Fin (a / c)
  | other => other
  end.

(** [x < y]; every comparison with [nan] is false. *)
Definition flt (x y : pyfloat) : bool :=
  match x, y with
  | NaN, _ | _, NaN => false
  | Fin a, Fin b => Qltb a b
  | NInf, NInf => false
  | NInf, _ => true
  | _, NInf => false
  | PInf, _ => false
  | _, PInf => true
  end.

(** Truth value of an object ([if x:], [if not x:]). *)
Definition py_truthy (v : value) : bool :=
  match v with
  | VNone => false
  | VBool b => b
  | VInt z => negb (z =? 0)%Z
  | VFloat (Fin q) => negb (Qeq_bool q 0)
  | VFloat _ => true
  | VStr s => negb (String.eqb s "")
  | VList l => match l with [] => false | _ => true end
  end.

(** [d.get(k)] seen as a truth value: a missing key gives [None]. *)
Definition get_truthy (d : pydict) (k : string) : bool :=
  match d !! k with
  | Some v => py_truthy v
  | None => false
  end.

(** The float a number stands for in mixed arithmetic ([int * float],
    [bool * float]); other operands make the operator raise [TypeError]. *)
Definition as_number (v : value) : result pyfloat :=
  match v with
  | VFloat f => Ok f
  | VInt z => Ok (Fin (inject_Z z))
  | VBool b => Ok (Fin (if b then 1 else 0))
  | _ => Raise TypeError
  end.

(** Hashable values can be dict keys and set members; lists cannot. *)
Definition hashable (v : value) : bool :=
  match v with VList _ => false | _ => true end.

(** [k1 == k2] for two hashable values.  Numbers compare by value across
    [bool], [int] and [float]; a [nan] equals nothing. *)
Definition key_eqb (k1 k2 : value) : bool :=
  match k1, k2 with
  | VStr a, VStr b => String.eqb a b
  | VNone, VNone => true
  | VFloat PInf, VFloat PInf | VFloat NInf, VFloat NInf => true
  | VList _, _ | _, VList _ => false
  | _, _ =>
      match as_number k1, as_number k2 with
      | Ok (Fin a), Ok (Fin b) => Qeq_bool a b
      | _, _ => false
      end
  end.

(** [sorted(xs, key=..., reverse=True)]: a stable sort, largest key first.
    An element moves in front of the ones that come before it only when its
    key is strictly larger, so equal keys keep their input order.  (With
    [nan] keys CPython's result depends on its merge strategy; the model is
    exact when no key is [nan].) *)
Section Sorted.
Context {A : Type} (key : A -> pyfloat).

Fixpoint insert_desc (x : A) (l : list A) : list A :=
  match l with
  | [] => [x]
  | y :: l' =>
      if flt (key x) (key y) then y :: insert_desc x l' else x :: y :: l'
  end.

Fixpoint sorted_desc (l : list A) : list A :=
  match l with
  | [] => []
  | x :: l' => insert_desc x (sorted_desc l')
  end.
End Sorted.

(** An insertion-ordered Python [dict] with string keys, where the order of
    the items matters to the code: [d[k] = v] keeps the position of a key
    that is already there and appends a new one. *)
Section OrderedDict.
Context {V : Type}.

Fixpoint dict_set (k : string) (v : V) (d : list (string * V)) : list (string * V) :=
  match d with
  | [] => [(k, v)]
  | (k', v') :: d' =>
      if String.eqb k k' then (k, v) :: d' else (k', v') :: dict_set k v d'
  end.

Fixpoint dict_get (k : string) (d : list (string * V)) : option V :=
  match d with
  | [] => None
  | (k', v') :: d' => if String.eqb k k' then Some v' else dict_get k d'
  end.

(** [dict(pairs)] *)
Definition dict_of_pairs (pairs : list (string * V)) : list (string * V) :=
  fold_left (fun d kv => dict_set kv.1 kv.2 d) pairs [].
End OrderedDict.

End Py.
Export Py.

#[global] Instance result_ret : MRet result := fun A a => Ok a.
#[global] Instance result_bind : MBind result := fun A B f m => Py.bind m f.

(** ** Data model *)

(** The user profile the client sends.  [uid] is [None] when the key is
    missing; an entry of [favourites] is [Some place_id] when it is a dict
    with a [place_id] key and [None] otherwise. *)
Record user_profile : Type := {
  uid : option string;
  preferences : list string;
  restrictions : list string;
  favourites : list (option string)
}.

(** [{fav['place_id'] for fav in favourites_list
      if isinstance(fav, dict) and 'place_id' in fav}] *)
Definition favourite_place_ids (favourites_list : list (option string)) : gset string :=
  list_to_set (omap id favourites_list).

(** ** content_based.py *)

Module ContentBased.

(** The two scikit-learn calls.  [fit_transform docs] is
    [TfidfVectorizer(stop_words='english').fit_transform(docs)], which raises
    [ValueError] when the documents leave the vocabulary empty.
    [cosine_to_mean m rows idx] is entry [idx] of
    [cosine_similarity(m[rows].mean(axis=0), m).flatten()]. *)
Class Sklearn : Type := {
  tfidf_matrix : Type;
  fit_transform : list string -> result tfidf_matrix;
  cosine_to_mean : tfidf_matrix -> list nat -> nat -> Q
}.

(** *** The data frame *)

(** A cell of the frame built by [pd.DataFrame(restaurants_data)]: the
    record's value, or [nan] where the record lacks the column. *)
Definition cell (r : pydict) (column : string) : value :=
  default (VFloat NaN) (r !! column).

(** [df[column]] raises [KeyError] unless some record has the key. *)
Definition has_column (rows : list pydict) (column : string) : bool :=
  existsb (fun r => bool_decide (is_Some (r !! column))) rows.

Definition require_column (rows : list pydict) (column : string) : result unit :=
  if has_column rows column then Ok tt else Raise KeyError.

(** What [fillna] replaces. *)
Definition isna (v : value) : bool :=
  match v with
  | VNone | VFloat NaN => true
  | _ => false
  end.

(** A text cell after [fillna("N/A")], as the concatenation that builds
    [Processed_Content] reads it: anything that is not a string makes [+]
    raise [TypeError]. *)
Definition text_cell (v : value) : result string :=
  if isna v then Ok "N/A"
  else match v with
       | VStr s => Ok s
       | _ => Raise TypeError
       end.

(** A cell of the numeric [rating] column; missing entries are [nan].  The
    column is taken to hold JSON numbers or nulls, anything else is reported
    as [TypeError]. *)
Definition rating_cell (v : value) : result pyfloat :=
  if isna v then Ok NaN
  else match v with
       | VInt z => Ok (Fin (inject_Z z))
       | VFloat f => Ok f
       | _ => Raise TypeError
       end.

(** [x if isinstance(x, list) else []], then the items as [' '.join(cats)]
    needs them: a non-string item raises [TypeError]. *)
Fixpoint str_items (items : list value) : result (list string) :=
  match items with
  | [] => Ok []
  | VStr s :: rest => l ← str_items rest; Ok (s :: l)
  | _ :: _ => Raise TypeError
  end.

Definition categories_cell (v : value) : result (list string) :=
  match v with
  | VList items => str_items items
  | _ => Ok []
  end.

(** [Series.median()]: the median of the entries that are not [nan], and
    [nan] when there is none. *)
Fixpoint insert_asc (x : pyfloat) (l : list pyfloat) : list pyfloat :=
  match l with
  | [] => [x]
  | y :: l' => if flt y x then y :: insert_asc x l' else x :: y :: l'
  end.

Definition sort_asc (l : list pyfloat) : list pyfloat := foldr insert_asc [] l.

Definition not_nan (f : pyfloat) : bool :=
  match f with NaN => false | _ => true end.

Definition median (xs : list pyfloat) : pyfloat :=
  let s := sort_asc (List.filter not_nan xs) in
  let n := length s in
  if (n =? 0)%nat then NaN
  else if Nat.odd n then nth (n / 2) s NaN
  else fdiv_pos (fadd (nth (n / 2 - 1) s NaN) (nth (n / 2) s NaN)) 2.

Definition fillna_float (fallback x : pyfloat) : pyfloat :=
  match x with NaN => fallback | _ => x end.

(** [' '.join(cats)] *)
Fixpoint join_space (cats : list string) : string :=
  match cats with
  | [] => ""
  | [c] => c
  | c :: rest => c +:+ " " +:+ join_space rest
  end.

(** One row of the preprocessed frame. *)
Record row : Type := {
  source : pydict;
  r_editorial_summary : string;
  r_rating : pyfloat;
  r_categories : list string;
  r_content : string
}.

Definition preprocess_row (median_rating : pyfloat) (r : pydict) : result row :=
  summary ← text_cell (cell r "editorial_summary");
  rating ← rating_cell (cell r "rating");
  cats ← categories_cell (cell r "categories");
  name ← text_cell (cell r "name");
  Ok {| source := r;
        r_editorial_summary := summary;
        r_rating := fillna_float median_rating rating;
        r_categories := cats;
        r_content := name +:+ " " +:+ join_space cats +:+ " " +:+ summary |}.

(** [rec.to_dict()]: every column of the frame, with the preprocessed
    columns in place of the raw ones. *)
Definition to_dict (columns : gset string) (rw : row) : pydict :=
  <["Processed_Content" := VStr (r_content rw)]>
  (<["categories" := VList (VStr <$> r_categories rw)]>
  (<["rating" := VFloat (r_rating rw)]>
  (<["editorial_summary" := VStr (r_editorial_summary rw)]>
  (source rw ∪ gset_to_gmap (VFloat NaN) columns)))).

(** *** The scoring loop *)

Definition preference_score (user_preferences rec_categories : gset string) : Q :=
  if decide (user_preferences = ∅) then 0
  else inject_Z (Z.of_nat (size (user_preferences ∩ rec_categories)))
       / inject_Z (Z.of_nat (size user_preferences)).

(** The body of the loop for one row: its [final_score]. *)
Definition score_row (user_preferences user_restrictions : gset string)
    (tfidf_score : Q) (rw : row) : pyfloat :=
  let rec_categories : gset string := list_to_set (r_categories rw) in
  if decide (user_restrictions ⊆ rec_categories) then
    let preference_score := preference_score user_preferences rec_categories in
    let rating_score := fdiv_pos (r_rating rw) 5.0 in
    let has_tfidf_score := Qltb 0 tfidf_score in
    let w_tfidf := (if has_tfidf_score then 0.4 else 0.0)%Q in
    let w_preference := (if has_tfidf_score then 0.4 else 0.8)%Q in
    let w_rating := 0.2%Q in
    fadd (fadd (Fin (w_tfidf * tfidf_score)) (Fin (w_preference * preference_score)))
         (fmul (Fin w_rating) rating_score)
  else Fin 0.0.

(** The key of [sorted(..., key=lambda x: x[k], reverse=True)] for a dict
    whose entry [k] is a number. *)
Definition float_key (k : string) (d : pydict) : pyfloat :=
  match as_number (default VNone (d !! k)) with
  | Ok f => f
  | Raise _ => NaN
  end.

(** [isin(user_favourite_restaurants)] on the [place_id] cell. *)
Definition is_favourite (user_favourite_restaurants : gset string) (r : pydict) : bool :=
  match cell r "place_id" with
  | VStr s => bool_decide (s ∈ user_favourite_restaurants)
  | _ => false
  end.

(** The positions of the elements that satisfy [p], counted from [i]. *)
Fixpoint indices_where {A} (p : A -> bool) (i : nat) (l : list A) : list nat :=
  match l with
  | [] => []
  | x :: l' => if p x then i :: indices_where p (S i) l' else indices_where p (S i) l'
  end.

Fixpoint scoring_loop (columns : gset string) (user_preferences user_restrictions : gset string)
    (tfidf_scores : nat -> Q) (idx : nat) (rows : list row) : list pydict :=
  match rows with
  | [] => []
  | rw :: rest =>
      let final_score :=
        score_row user_preferences user_restrictions (tfidf_scores idx) rw in
      <["score" := VFloat final_score]> (to_dict columns rw)
      :: scoring_loop columns user_preferences user_restrictions tfidf_scores (S idx) rest
  end.

Section Scorer.
Context `{Sklearn}.

(** Everything up to the [return]: the list [all_recommendations]. *)
Definition all_recommendations (profile : user_profile) (restaurants_data : list pydict)
    : result (list pydict) :=
  let user_preferences : gset string := list_to_set (preferences profile) in
  let user_restrictions : gset string := list_to_set (restrictions profile) in
  let user_favourite_restaurants := favourite_place_ids (favourites profile) in
  _ ← require_column restaurants_data "editorial_summary";
  _ ← require_column restaurants_data "rating";
  ratings ← mapM (fun r => rating_cell (cell r "rating")) restaurants_data;
  _ ← require_column restaurants_data "categories";
  _ ← require_column restaurants_data "name";
  rows ← mapM (preprocess_row (median ratings)) restaurants_data;
  content_matrix ← fit_transform (r_content <$> rows);
  _ ← require_column restaurants_data "place_id";
  let favorite_indices :=
    indices_where (is_favourite user_favourite_restaurants) 0 restaurants_data in
  let tfidf_scores :=
    match favorite_indices with
    | [] => fun _ => 0%Q
    | _ => cosine_to_mean content_matrix favorite_indices
    end in
  let columns : gset string := ⋃ (dom <$> restaurants_data) ∪ {["Processed_Content"]} in
  Ok (scoring_loop columns user_preferences user_restrictions tfidf_scores 0 rows).

Definition get_content_based_recommendations (profile : user_profile)
    (restaurants_data : list pydict) : result (list pydict) :=
  match restaurants_data with
  | [] => Ok []
  | _ =>
      recs ← all_recommendations profile restaurants_data;
      Ok (sorted_desc (float_key "score") recs)
  end.

End Scorer.

End ContentBased.

(** ** collaborative.py *)

Module Collaborative.

(** A document of the Firestore [users] collection: its id and the two
    fields of [doc.to_dict()] that the code reads.  [doc_favourites] is
    [None] when the document has no [favourites] key. *)
Record user_doc : Type := {
  doc_id : string;
  doc_uid : option string;
  doc_favourites : option (list (option string))
}.

(** The body of the loop over [users_ref.stream()]. *)
Definition add_user_favorites (all_favorites : list (string * gset string))
    (doc : user_doc) : list (string * gset string) :=
  let user_id_from_doc := default (doc_id doc) (doc_uid doc) in
  match doc_favourites doc with
  | Some (fav :: favs) =>
      let place_ids := favourite_place_ids (fav :: favs) in
      if decide (place_ids = ∅) then all_favorites
      else dict_set user_id_from_doc place_ids all_favorites
  | _ => all_favorites
  end.

Definition _get_all_user_favorites (docs : list user_doc) : list (string * gset string) :=
  fold_left add_user_favorites docs [].

Definition _calculate_jaccard_similarity (set1 set2 : gset string) : Q :=
  let intersection := size (set1 ∩ set2) in
  let union := size (set1 ∪ set2) in
  if decide (union ≠ 0%nat)
  then inject_Z (Z.of_nat intersection) / inject_Z (Z.of_nat union)
  else 0.

(** Step 1 of the scorer: the [similarities] list, in the iteration order of
    [all_user_favorites]. *)
Fixpoint similarities (target_user_id : option string) (target_user_favorites : gset string)
    (all_user_favorites : list (string * gset string)) : list (string * Q) :=
  match all_user_favorites with
  | [] => []
  | (other_user_id, other_user_favorites) :: rest =>
      let tail := similarities target_user_id target_user_favorites rest in
      if decide (target_user_id = Some other_user_id) then tail
      else
        let similarity :=
          _calculate_jaccard_similarity target_user_favorites other_user_favorites in
        if Qltb 0 similarity then (other_user_id, similarity) :: tail else tail
  end.

(** [similarities.sort(key=lambda x: x[1], reverse=True)];
    [top_neighbors = dict(similarities[:50])] *)
Definition top_neighbors (target_user_id : option string) (target_user_favorites : gset string)
    (all_user_favorites : list (string * gset string)) : list (string * Q) :=
  let sims := similarities target_user_id target_user_favorites all_user_favorites in
  dict_of_pairs (take 50 (sorted_desc (fun x => Fin x.2) sims)).

(** Step 2: [neighbor_likes], a [defaultdict(list)] keyed by place id. *)
Definition add_like (target_user_favorites : gset string) (similarity_score : Q)
    (neighbor_likes : gmap string (list Q)) (place_id : string) : gmap string (list Q) :=
  if decide (place_id ∈ target_user_favorites) then neighbor_likes
  else <[place_id := default [] (neighbor_likes !! place_id) ++ [similarity_score]]>
         neighbor_likes.

Definition add_neighbor (target_user_favorites : gset string)
    (all_user_favorites : list (string * gset string))
    (neighbor_likes : gmap string (list Q)) (neighbor : string * Q) : gmap string (list Q) :=
  fold_left (add_like target_user_favorites neighbor.2)
    (elements (default ∅ (dict_get neighbor.1 all_user_favorites)))
    neighbor_likes.

Definition neighbor_likes (target_user_favorites : gset string)
    (all_user_favorites : list (string * gset string))
    (neighbors : list (string * Q)) : gmap string (list Q) :=
  fold_left (add_neighbor target_user_favorites all_user_favorites) neighbors ∅.

Definition Qsum (l : list Q) : Q := fold_left Qplus l 0%Q.

(** The fallback loop of the two early exits: every candidate with a
    [place_id] is copied and scored [0.0]. *)
Fixpoint zero_scores (restaurants_data : list pydict) : list pydict :=
  match restaurants_data with
  | [] => []
  | r :: rest =>
      if get_truthy r "place_id"
      then <["score" := VFloat (Fin 0)]> r :: zero_scores rest
      else zero_scores rest
  end.

(** [neighbor_likes.get(place_id, [])]: the key is hashed first, so a list
    raises; a key that is not a string equals none of the stored ids. *)
Definition likes_get (likes : gmap string (list Q)) (place_id : value) : result (list Q) :=
  match place_id with
  | VList _ => Raise TypeError
  | VStr s => Ok (default [] (likes !! s))
  | _ => Ok []
  end.

(** [raw_score / max_possible_score if max_possible_score > 0 else 0] *)
Definition normalized_score (raw_score max_possible_score : Q) : value :=
  if Qltb 0 max_possible_score
  then VFloat (Fin (raw_score / max_possible_score))
  else VInt 0.

(** Step 3: the scoring loop. *)
Fixpoint score_candidates (likes : gmap string (list Q)) (max_possible_score : Q)
    (restaurants_data : list pydict) : result (list pydict) :=
  match restaurants_data with
  | [] => Ok []
  | r :: rest =>
      if get_truthy r "place_id" then
        likes_r ← likes_get likes (default VNone (r !! "place_id"));
        let raw_score := Qsum likes_r in
        recommendations ← score_candidates likes max_possible_score rest;
        Ok (<["score" := normalized_score raw_score max_possible_score]> r
            :: recommendations)
      else score_candidates likes max_possible_score rest
  end.

Section Scorer.
(** What [db.collection('users').stream()] yields; reaching Firestore may
    fail, and the scorer does not catch that. *)
Variable users_stream : result (list user_doc).

Definition get_collaborative_filtering_recommendations
    (profile : user_profile) (restaurants_data : list pydict) : result (list pydict) :=
  match restaurants_data with
  | [] => Ok []
  | _ =>
      let target_user_id := uid profile in
      let target_user_favorites := favourite_place_ids (favourites profile) in
      if decide (target_user_favorites = ∅) then Ok (zero_scores restaurants_data)
      else
        docs ← users_stream;
        let all_user_favorites := _get_all_user_favorites docs in
        let neighbors :=
          top_neighbors target_user_id target_user_favorites all_user_favorites in
        match neighbors with
        | [] => Ok (zero_scores restaurants_data)
        | _ =>
            let likes := neighbor_likes target_user_favorites all_user_favorites neighbors in
            let max_possible_score := Qsum (snd <$> neighbors) in
            score_candidates likes max_possible_score restaurants_data
        end
  end.
End Scorer.

End Collaborative.

(** ** constants.py *)

Module Constants.

(** The keys of [CATEGORY_DICT], in the order the dict literal lists them. *)
Definition CATEGORY_DICT_keys : list string :=
  ["halal"; "vegetarian"; "vegan"; "beef-free"; "chinese"; "malay"; "indian";
   "korean"; "japanese"; "thai"; "western"; "eastern"; "cafe"; "bar"; "buffet";
   "fast-food"].

(** [sorted(list(CATEGORY_DICT.keys()))] *)
Definition CATEGORY_KEYS : list string :=
  merge_sort (fun a b => Is_true (String.leb a b)) CATEGORY_DICT_keys.

End Constants.

(** ** reinforcement_learning.py *)

Module ReinforcementLearning.

Definition STATE_SIZE : nat := 35.
Definition ACTION_SIZE : nat := 4.

(** *** Built-in conversions used by the sanitisation code *)

(** The largest magnitude an [int] may have for [float(int)] to succeed:
    anything from [2^1024 - 2^970] on rounds out of the double range. *)
Definition float_int_limit : Z := 2 ^ 1024 - 2 ^ 970.

(** [float(s)] for a [str]: the interpreter's parser of float literals
    ([None] stands for its [ValueError]). *)
Class Builtins : Type := {
  float_of_string : string -> option pyfloat
}.

Section Features.
Context `{Builtins}.

(** [float(x)] *)
Definition py_float (x : value) : result pyfloat :=
  match x with
  | VFloat f => Ok f
  | VInt z =>
      if (Z.abs z <? float_int_limit)%Z then Ok (Fin (inject_Z z))
      else Raise OverflowError
  | VBool b => Ok (Fin (if b then 1 else 0))
  | VStr s =>
      match float_of_string s with
      | Some f => Ok f
      | None => Raise ValueError
      end
  | VNone | VList _ => Raise TypeError
  end.

(** [int(f)] for a float: truncation towards zero. *)
Definition py_int_of_float (f : pyfloat) : result Z :=
  match f with
  | Fin q => Ok (Z.quot (Qnum q) (Z.pos (Qden q)))
  | PInf | NInf => Raise OverflowError
  | NaN => Raise ValueError
  end.

(** [try: ... except (ValueError, TypeError): default] *)
Definition except_value_type {A} (body : result A) (fallback : A) : result A :=
  match body with
  | Raise ValueError | Raise TypeError => Ok fallback
  | other => other
  end.

(** [set(x)]: the members of an iterable, which must all be hashable.  A
    string iterates over its characters. *)
Definition py_set (x : value) : result (list value) :=
  match x with
  | VList items =>
      if forallb hashable items then Ok items else Raise TypeError
  | VStr s => Ok ((fun c => VStr (String c EmptyString)) <$> String.list_ascii_of_string s)
  | VNone | VBool _ | VInt _ | VFloat _ => Raise TypeError
  end.

(** [cat in rec_cats] *)
Definition set_mem (cat : string) (rec_cats : list value) : bool :=
  existsb (key_eqb (VStr cat)) rec_cats.

Definition extract_rl_features (restaurant : pydict) (all_categories : list string)
    : result (list pyfloat) :=
  rating ← except_value_type
    (f ← py_float (default (VFloat (Fin 3.0)) (restaurant !! "rating"));
     Ok (fdiv_pos f 5.0))
    (Fin (3.0 / 5.0));
  price_level ← except_value_type
    (f ← py_float (default (VInt 2) (restaurant !! "price_level"));
     z ← py_int_of_float f;
     Ok (Fin (inject_Z z / 4.0)))
    (Fin (2 / 4.0));
  hybrid_score ← except_value_type
    (py_float (default (VFloat (Fin 0.0)) (restaurant !! "final_score")))
    (Fin 0.0);
  rec_cats ← py_set (default (VList []) (restaurant !! "categories"));
  let cat_vector :=
    (fun cat => if set_mem cat rec_cats then Fin 1 else Fin 0) <$> all_categories in
  let features := [rating; price_level; hybrid_score] ++ cat_vector in
  let features := features ++ replicate (STATE_SIZE - length features) (Fin 0) in
  Ok (take STATE_SIZE features).

End Features.

(** *** The agent *)

Record experience : Type := {
  state : list pyfloat;
  action : nat;
  reward : Q;
  next_state : list pyfloat;
  done : bool
}.

(** The Keras network is outside the repository.  [network] stands for its
    weights, [_build_model] for a newly initialised network (35-64-32-4),
    [predict] for [model.predict(state)[0]] and [fit] for one call of
    [model.fit(state, target_f, epochs=1)]. *)
Class Keras : Type := {
  network : Type;
  _build_model : network;
  predict : network -> list pyfloat -> list pyfloat;
  fit : network -> list pyfloat -> list pyfloat -> network
}.

(** What else the agent takes from its surroundings.  [random_sample] is
    [random.sample].  [firestore_bound] tells whether the name [firestore]
    is bound in the module: the source file imports only [numpy], [random]
    and [collections.deque], so as written it is [false], and
    [firestore.client()] raises [NameError], which the [try] blocks of
    [load_model_from_firestore] and [save_model_to_firestore] catch and
    print. *)
Class Runtime : Type := {
  random_sample : list experience -> nat -> list experience;
  firestore_bound : bool
}.

Section Agent.
Context `{Keras} `{Runtime}.

Record DQNAgent : Type := {
  state_size : nat;
  action_size : nat;
  memory : list experience;
  gamma : Q;
  epsilon : Q;
  epsilon_min : Q;
  epsilon_decay : Q;
  learning_rate : Q;
  user_id : string;
  model : network
}.

Definition set_model (agent : DQNAgent) (m : network) : DQNAgent :=
  {| state_size := state_size agent; action_size := action_size agent;
     memory := memory agent; gamma := gamma agent; epsilon := epsilon agent;
     epsilon_min := epsilon_min agent; epsilon_decay := epsilon_decay agent;
     learning_rate := learning_rate agent; user_id := user_id agent;
     model := m |}.

Definition set_memory (agent : DQNAgent) (mem : list experience) : DQNAgent :=
  {| state_size := state_size agent; action_size := action_size agent;
     memory := mem; gamma := gamma agent; epsilon := epsilon agent;
     epsilon_min := epsilon_min agent; epsilon_decay := epsilon_decay agent;
     learning_rate := learning_rate agent; user_id := user_id agent;
     model := model agent |}.

Definition set_epsilon (agent : DQNAgent) (eps : Q) : DQNAgent :=
  {| state_size := state_size agent; action_size := action_size agent;
     memory := memory agent; gamma := gamma agent; epsilon := eps;
     epsilon_min := epsilon_min agent; epsilon_decay := epsilon_decay agent;
     learning_rate := learning_rate agent; user_id := user_id agent;
     model := model agent |}.

(** The [rl_models] collection: one stored network per user id.  The
    (shape, values) encoding of the weights is taken to round-trip. *)
Abbreviation model_store := (gmap string network).

Definition load_model_from_firestore (rl_models : model_store) (agent : DQNAgent) : DQNAgent :=
  if firestore_bound then
    match rl_models !! user_id agent with
    | Some weights => set_model agent weights
    | None => agent
    end
  else agent.

Definition save_model_to_firestore (rl_models : model_store) (agent : DQNAgent) : model_store :=
  if firestore_bound then <[user_id agent := model agent]> rl_models else rl_models.

(** [DQNAgent.__init__] *)
Definition __init__ (rl_models : model_store) (state_size action_size : nat)
    (user_id : string) : DQNAgent :=
  load_model_from_firestore rl_models
    {| state_size := state_size; action_size := action_size;
       memory := [];
       gamma := 0.95; epsilon := 1.0; epsilon_min := 0.01;
       epsilon_decay := 0.995; learning_rate := 0.001;
       user_id := user_id;
       model := _build_model |}.

(** [self.memory.append(...)] on a [deque(maxlen=2000)] *)
Definition remember (agent : DQNAgent) (e : experience) : DQNAgent :=
  let mem := memory agent ++ [e] in
  set_memory agent (if (2000 <? length mem)%nat then drop 1 mem else mem).

(** [np.amax] of a non-empty vector of action values. *)
Definition amax (l : list pyfloat) : pyfloat :=
  match l with
  | [] => NaN
  | x :: rest =>
      fold_left (fun m y =>
        match m, y with
        | NaN, _ | _, NaN => NaN
        | _, _ => if flt m y then y else m
        end) rest x
  end.

(** One iteration of the loop over the minibatch. *)
Definition train_on (gamma : Q) (m : network) (e : experience) : network :=
  let target :=
    if done e then Fin (reward e)
    else fadd (Fin (reward e)) (fmul (Fin gamma) (amax (predict m (next_state e)))) in
  let target_f := <[action e := target]> (predict m (state e)) in
  fit m (state e) target_f.

Definition replay (agent : DQNAgent) (batch_size : nat) : DQNAgent :=
  if (length (memory agent) <? batch_size)%nat then agent
  else
    let minibatch := random_sample (memory agent) batch_size in
    let agent := set_model agent (fold_left (train_on (gamma agent)) minibatch (model agent)) in
    if Qltb (epsilon_min agent) (epsilon agent)
    then set_epsilon agent (epsilon agent * epsilon_decay agent)
    else agent.

Definition get_q_values (agent : DQNAgent) (st : list pyfloat) : list pyfloat :=
  predict (model agent) st.

End Agent.

End ReinforcementLearning.

(** ** hybrid.py *)

Module Hybrid.
Import ContentBased Collaborative ReinforcementLearning Constants.

(** *** Objects and the heap

    The combiner and the re-ranking loop assign to keys of dicts that other
    lists still refer to, so restaurant dicts are objects with an address.
    [heap w !! l] is the dict stored at address [l]; a new dict gets the next
    free address.  The caller owns [caller_profile] and the dicts that are in
    the heap when a function is entered. *)
Definition loc : Type := nat.

Record world : Type := {
  caller_profile : user_profile;
  heap : list pydict
}.

Definition read (w : world) (l : loc) : pydict := default ∅ (heap w !! l).

Definition write (w : world) (l : loc) (d : pydict) : world :=
  {| caller_profile := caller_profile w; heap := <[l := d]> (heap w) |}.

(** The addresses of newly created dicts, and the world that holds them. *)
Definition alloc_all (ds : list pydict) (w : world) : list loc * world :=
  (seq (length (heap w)) (length ds),
   {| caller_profile := caller_profile w; heap := heap w ++ ds |}).

(** Code that runs against the heap and may raise.  An exception leaves the
    heap as it was when it was raised. *)
Definition M (A : Type) : Type := world -> result A * world.

Definition st_ret {A} (a : A) : M A := fun w => (Ok a, w).

Definition st_bind {A B} (m : M A) (f : A -> M B) : M B :=
  fun w =>
    match m w with
    | (Ok a, w') => f a w'
    | (Raise e, w') => (Raise e, w')
    end.

Notation "'let*' x := m 'in' k" := (st_bind m (fun x => k))
  (at level 10, x name, m at level 100, k at level 200).

(** Pure code that may raise. *)
Definition st_lift {A} (r : result A) : M A := fun w => (r, w).

Definition st_profile : M user_profile := fun w => (Ok (caller_profile w), w).

Definition st_read (l : loc) : M pydict := fun w => (Ok (read w l), w).

Definition st_read_all (ls : list loc) : M (list pydict) :=
  fun w => (Ok (read w <$> ls), w).

Definition st_write (l : loc) (d : pydict) : M unit := fun w => (Ok tt, write w l d).

Definition st_alloc_all (ds : list pydict) : M (list loc) :=
  fun w => (Ok (alloc_all ds w).1, (alloc_all ds w).2).

(** [sorted(ls, key=lambda x: x[k], reverse=True)] on a list of dicts. *)
Definition st_sorted (k : string) (ls : list loc) : M (list loc) :=
  fun w => (Ok (sorted_desc (fun l => float_key k (read w l)) ls), w).

(** A dict with arbitrary hashable keys, for [collab_scores_map]. *)
Fixpoint vdict_set (k v : value) (d : list (value * value)) : list (value * value) :=
  match d with
  | [] => [(k, v)]
  | (k', v') :: d' =>
      if key_eqb k k' then (k', v) :: d' else (k', v') :: vdict_set k v d'
  end.

Fixpoint vdict_get (k : value) (d : list (value * value)) : option value :=
  match d with
  | [] => None
  | (k', v') :: d' => if key_eqb k k' then Some v' else vdict_get k d'
  end.

(** [{rec['place_id']: rec.get('score', 0) for rec in collab_recs
      if 'place_id' in rec}] *)
Fixpoint collab_scores_map (collab_recs : list pydict) (acc : list (value * value))
    : result (list (value * value)) :=
  match collab_recs with
  | [] => Ok acc
  | rec :: rest =>
      match rec !! "place_id" with
      | Some place_id =>
          if hashable place_id
          then collab_scores_map rest
                 (vdict_set place_id (default (VInt 0) (rec !! "score")) acc)
          else Raise TypeError
      | None => collab_scores_map rest acc
      end
  end.

Record weights : Type := { content : Q; collab : Q }.

(** [(content_score * weights['content']) + (collab_score * weights['collab'])] *)
Definition hybrid_score (wts : weights) (content_score collab_score : value)
    : result pyfloat :=
  c ← as_number content_score;
  k ← as_number collab_score;
  Ok (fadd (fmul c (Fin (content wts))) (fmul k (Fin (collab wts)))).

(** The loop over [content_recs]; it returns [final_recommendations]. *)
Fixpoint combine_loop (scores_map : list (value * value)) (wts : weights)
    (content_recs : list loc) : M (list loc) :=
  match content_recs with
  | [] => st_ret []
  | l :: rest =>
      let* rec := st_read l in
      if get_truthy rec "place_id" then
        let place_id := default VNone (rec !! "place_id") in
        if hashable place_id then
          let content_score := default (VInt 0) (rec !! "score") in
          let collab_score := default (VInt 0) (vdict_get place_id scores_map) in
          let* score := st_lift (hybrid_score wts content_score collab_score) in
          let* _ := st_write l (delete "score" (<["final_score" := VFloat score]> rec)) in
          let* final_recommendations := combine_loop scores_map wts rest in
          st_ret (l :: final_recommendations)
        else st_lift (Raise TypeError)
      else combine_loop scores_map wts rest
  end.

Definition _combine_and_rank_recommendations (content_recs collab_recs : list loc)
    (wts : weights) : M (list loc) :=
  let* collab_dicts := st_read_all collab_recs in
  let* scores_map := st_lift (collab_scores_map collab_dicts []) in
  let* final_recommendations := combine_loop scores_map wts content_recs in
  st_sorted "final_score" final_recommendations.

Section Pipeline.
Context `{Sklearn} `{Builtins} `{Keras} `{Runtime}.
(** The two Firestore collections as they are when the request arrives. *)
Variable users_stream : result (list user_doc).
Variable rl_models : gmap string network.

(** The scorers, seen from their caller: they read the profile and the
    dicts of [restaurants_data] and return newly created dicts. *)
Definition content_scorer (restaurants_data : list loc) : M (list loc) :=
  let* profile := st_profile in
  let* dicts := st_read_all restaurants_data in
  let* recs := st_lift (get_content_based_recommendations profile dicts) in
  st_alloc_all recs.

Definition collaborative_scorer (restaurants_data : list loc) : M (list loc) :=
  let* profile := st_profile in
  let* dicts := st_read_all restaurants_data in
  let* recs :=
    st_lift (get_collaborative_filtering_recommendations users_stream profile dicts) in
  st_alloc_all recs.

(** The re-ranking loop; it returns [reranked_recs]. *)
Fixpoint rerank_loop (rl_agent : DQNAgent) (top_hybrid_recs : list loc) : M (list loc) :=
  match top_hybrid_recs with
  | [] => st_ret []
  | l :: rest =>
      let* rec := st_read l in
      let* st := st_lift (extract_rl_features rec CATEGORY_KEYS) in
      let q_values := get_q_values rl_agent st in
      match q_values !! 0%nat with
      | None => st_lift (Raise IndexError)
      | Some rl_score =>
          let* final_score :=
            st_lift (as_number (default (VFloat (Fin 0.0)) (rec !! "final_score"))) in
          let with_rl := fadd final_score (fmul rl_score (Fin 0.3)) in
          let* _ := st_write l (<["final_score_with_rl" := VFloat with_rl]> rec) in
          let* reranked_recs := rerank_loop rl_agent rest in
          st_ret (l :: reranked_recs)
      end
  end.

Definition get_hybrid_recommendations (restaurants_data : list loc) : M (list loc) :=
  let* profile := st_profile in
  let user_id := default "unknown_user" (uid profile) in
  let* content_recs := content_scorer restaurants_data in
  let* collab_recs := collaborative_scorer restaurants_data in
  let wts := {| content := 0.6; collab := 0.4 |} in
  let* final_recommendations :=
    _combine_and_rank_recommendations content_recs collab_recs wts in
  let top_hybrid_recs := take (length final_recommendations) final_recommendations in
  let rl_agent := __init__ rl_models 35 4 user_id in
  let* reranked_recs := rerank_loop rl_agent top_hybrid_recs in
  st_sorted "final_score_with_rl" reranked_recs.

End Pipeline.

End Hybrid.

(** ** views.py *)

Module Views.
Import ReinforcementLearning Constants.

Definition action_map (action : string) : option nat :=
  if String.eqb action "like" then Some 0%nat
  else if String.eqb action "dislike" then Some 1%nat
  else if String.eqb action "click_details" then Some 2%nat
  else if String.eqb action "skip" then Some 3%nat
  else None.

Definition reward_map (action : string) : option Q :=
  if String.eqb action "like" then Some 1.0%Q
  else if String.eqb action "dislike" then Some (-1.0)%Q
  else if String.eqb action "click_details" then Some 0.5%Q
  else if String.eqb action "skip" then Some (-0.2)%Q
  else None.

(** The body of a feedback request after [json.loads]. *)
Record feedback : Type := {
  fb_user_id : string;
  fb_restaurant_data : pydict;
  fb_action : string
}.

Section Feedback.
Context `{Builtins} `{Keras} `{Runtime}.

(** [record_feedback]: the [rl_models] collection afterwards and the HTTP
    status of the response. *)
Definition record_feedback (rl_models : gmap string network) (data : feedback)
    : gmap string network * nat :=
  let user_id := fb_user_id data in
  let restaurant_data := fb_restaurant_data data in
  let action := fb_action data in
  if negb (negb (String.eqb user_id "")
           && negb (bool_decide (restaurant_data = ∅))
           && negb (String.eqb action ""))
  then (rl_models, 400%nat)
  else
    match action_map action, reward_map action with
    | Some action_index, Some reward =>
        let agent := __init__ rl_models 35 4 user_id in
        match extract_rl_features restaurant_data CATEGORY_KEYS with
        | Raise _ => (rl_models, 500%nat)
        | Ok st =>
            let agent :=
              remember agent
                {| state := st; action := action_index; reward := reward;
                   next_state := st; done := true |} in
            let batch_size := 32%nat in
            let agent :=
              if (batch_size <? length (memory agent))%nat
              then replay agent batch_size else agent in
            (save_model_to_firestore rl_models agent, 200%nat)
        end
    | _, _ => (rl_models, 400%nat)
    end.

End Feedback.

End Views.

(** * The vocabulary of the properties *)

Module Spec.
Import ContentBased Collaborative ReinforcementLearning Constants Hybrid Views.

(** ** Sorted output *)

Section SortedBy.
Context {A : Type} (key : A -> pyfloat).

(** [a] may stand before [b]: the key of [b] is not larger. *)
Definition desc (a b : A) : Prop :=
  match key a, key b with
  | Fin qa, Fin qb => (qb <= qa)%Q
  | _, _ => False
  end.

Definition finite_key (a : A) : Prop := is_finite (key a) = true.

(** The elements whose key is the number [q]. *)
Definition same_key (q : Q) (a : A) : bool :=
  match key a with
  | Fin qa => Qeq_bool qa q
  | _ => false
  end.
End SortedBy.

(** ** Content scores *)

(** The preprocessed columns and the annotation; every other key of a
    candidate goes through the scorer unchanged. *)
Definition rewritten_keys : list string :=
  ["score"; "Processed_Content"; "categories"; "rating"; "editorial_summary"].

Definition annotates (r rec : pydict) : Prop :=
  ∀ k v, k ∉ rewritten_keys -> r !! k = Some v -> rec !! k = Some v.

(** The dict the scoring loop appends for one row. *)
Definition scored (columns user_preferences user_restrictions : gset string)
    (tfidf_score : Q) (rw : row) : pydict :=
  <["score" := VFloat (score_row user_preferences user_restrictions tfidf_score rw)]>
    (to_dict columns rw).

(** A rating as the data model has it: a number between 0 and 5. *)
Definition in_range (x : pyfloat) : Prop :=
  match x with
  | Fin q => (0 <= q <= 5)%Q
  | _ => False
  end.

Definition missing_or_in_range (x : pyfloat) : Prop := x = NaN ∨ in_range x.

(** The rating of a candidate is missing or in range; is there and in
    range. *)
Definition rating_ok (r : pydict) : Prop :=
  ∀ x, rating_cell (cell r "rating") = Ok x -> missing_or_in_range x.

Definition rated (r : pydict) : Prop :=
  ∃ x, rating_cell (cell r "rating") = Ok x ∧ in_range x.

(** The input the data frame code gets through: the five columns exist,
    every cell has the type the preprocessing expects, and the vectoriser
    accepts the processed documents. *)
Definition well_typed (r : pydict) : Prop :=
  is_ok (text_cell (cell r "editorial_summary")) = true
  ∧ is_ok (rating_cell (cell r "rating")) = true
  ∧ is_ok (categories_cell (cell r "categories")) = true
  ∧ is_ok (text_cell (cell r "name")) = true.

Definition frame_columns : list string :=
  ["editorial_summary"; "rating"; "categories"; "name"; "place_id"].

Definition accepted `{Sklearn} (data : list pydict) : Prop :=
  Forall (fun column => has_column data column = true) frame_columns
  ∧ Forall well_typed data
  ∧ ∀ med rows, mapM (preprocess_row med) data = Ok rows ->
      is_ok (fit_transform (r_content <$> rows)) = true.

(** The place ids of a list of dicts, in order. *)
Definition place_ids (l : list pydict) : list (option value) :=
  (fun d => d !! "place_id") <$> l.

(** ** Collaborative scores *)

(** A value that is the number zero. *)
Definition is_zero (v : value) : Prop :=
  match as_number v with
  | Ok (Fin q) => (q == 0)%Q
  | _ => False
  end.

(** The collaborative score on record for the place id [s]: the score of
    the last dict of the collaborative list with that id, and 0 when the
    list has none. *)
Definition has_place_id (s : string) (d : pydict) : bool :=
  match d !! "place_id" with
  | Some (VStr s') => String.eqb s s'
  | _ => false
  end.

Definition collab_score_for (collab_recs : list pydict) (s : string) : value :=
  match last (List.filter (has_place_id s) collab_recs) with
  | Some d => default (VInt 0) (d !! "score")
  | None => VInt 0
  end.

(** ** The heap *)

(** What a loop that assigns to the dicts of [recs] leaves alone. *)
Definition frame (recs : list loc) (w w' : world) : Prop :=
  caller_profile w' = caller_profile w
  ∧ length (heap w') = length (heap w)
  ∧ ∀ l, l ∉ recs -> heap w' !! l = heap w !! l.

(** What the combiner stores in a dict it keeps. *)
Definition combined (scores_map : list (value * value)) (wts : weights)
    (rec rec' : pydict) : Prop :=
  ∃ score,
    hybrid_score wts (default (VInt 0) (rec !! "score"))
      (default (VInt 0) (vdict_get (default VNone (rec !! "place_id")) scores_map))
    = Ok score
    ∧ rec' = delete "score" (<["final_score" := VFloat score]> rec).

(** The profile and the dicts below address [n] are what they were. *)
Definition keeps (n : nat) (w w' : world) : Prop :=
  caller_profile w' = caller_profile w
  ∧ ∀ l, (l < n)%nat -> heap w' !! l = heap w !! l.

(** Nothing the caller owned has changed. *)
Definition unchanged (w w' : world) : Prop := keeps (length (heap w)) w w'.

(** ** The agent *)

(** One decay step of the exploration rate, with the constants of
    [DQNAgent.__init__]. *)
Definition decay_step (eps : Q) : Q :=
  if Qltb 0.01 eps then eps * 0.995 else eps.

Section AgentVocabulary.
Context `{Builtins} `{Keras} `{Runtime}.

(** The fields that [__init__] fixes. *)
Definition constants_ok (agent : DQNAgent) : Prop :=
  epsilon_min agent = 0.01%Q ∧ epsilon_decay agent = 0.995%Q.

(** The [rl_models] collection after a series of feedback requests. *)
Definition feedback_events (rl_models : gmap string network) (events : list feedback)
    : gmap string network :=
  fold_left (fun store data => (record_feedback store data).1) events rl_models.
End AgentVocabulary.

End Spec.

(** * Example data *)

Module Examples.
Import ContentBased Collaborative ReinforcementLearning Constants Hybrid Views.

(** A reading of plain decimal numerals ([12], [4.5]); everything else is
    rejected, as [float] rejects ["bad"] or ["N/A"]. *)
Definition digit_of (c : ascii) : option Z :=
  let n := nat_of_ascii c in
  if ((48 <=? n) && (n <=? 57))%nat then Some (Z.of_nat (n - 48)) else None.

Fixpoint digits_value (cs : list ascii) (acc : Z) : option Z :=
  match cs with
  | [] => Some acc
  | c :: cs' =>
      match digit_of c with
      | Some d => digits_value cs' (10 * acc + d)%Z
      | None => None
      end
  end.

Fixpoint split_at_dot (cs : list ascii) : list ascii * option (list ascii) :=
  match cs with
  | [] => ([], None)
  | c :: cs' =>
      if Ascii.eqb c "."%char then ([], Some cs')
      else let '(int_part, frac_part) := split_at_dot cs' in (c :: int_part, frac_part)
  end.

Definition decimal_of_string (s : string) : option pyfloat :=
  let '(int_part, frac_part) := split_at_dot (String.list_ascii_of_string s) in
  match int_part, digits_value int_part 0 with
  | _ :: _, Some i =>
      match frac_part with
      | None => Some (Fin (inject_Z i))
      | Some frac =>
          match frac, digits_value frac 0 with
          | _ :: _, Some f =>
              Some (Fin (inject_Z i + inject_Z f / inject_Z (10 ^ Z.of_nat (length frac))))
          | _, _ => None
          end
      end
  | _, _ => None
  end.

Definition demo_builtins : Builtins := {| float_of_string := decimal_of_string |}.

(** A stand-in for scikit-learn: a favourite is fully similar to the mean of
    the favourites, every other row a quarter. *)
Definition demo_sklearn : Sklearn :=
  {| tfidf_matrix := list string;
     fit_transform := fun docs => Ok docs;
     cosine_to_mean := fun _ rows idx =>
       if bool_decide (idx ∈ rows) then 1%Q else (1 # 4)%Q |}.

(** A stand-in for Keras: the network is a number, every action value is
    that number, and a training step adds one. *)
Definition demo_keras : Keras :=
  {| network := Z;
     _build_model := 0%Z;
     predict := fun m _ => replicate 4 (Fin (inject_Z m));
     fit := fun m _ _ => (m + 1)%Z |}.

Definition demo_runtime (bound : bool) : Runtime :=
  {| random_sample := fun mem k => take k mem; firestore_bound := bound |}.

Definition restaurant (place_id name : string) (cats : list string) (rating : Q) : pydict :=
  {[ "place_id" := VStr place_id; "name" := VStr name;
     "categories" := VList (VStr <$> cats); "rating" := VFloat (Fin rating);
     "price_level" := VStr "N/A"; "editorial_summary" := VNone ]}.

Definition burger_bar : pydict := restaurant "B" "Burger Bar" ["western"] 3.0.
Definition sushi_ya : pydict := restaurant "A" "Sushi Ya" ["japanese"] 4.5.
Definition demo_restaurants : list pydict := [burger_bar; sushi_ya].

(** A user who likes Japanese food and has one favourite. *)
Definition demo_profile : user_profile :=
  {| uid := Some "u1"; preferences := ["japanese"]; restrictions := [];
     favourites := [Some "A"] |}.

(** The same user, insisting on halal places. *)
Definition halal_profile : user_profile :=
  {| uid := Some "u1"; preferences := ["japanese"]; restrictions := ["halal"];
     favourites := [Some "A"] |}.

Definition demo_docs : list user_doc :=
  [ {| doc_id := "d1"; doc_uid := Some "u1"; doc_favourites := Some [Some "A"] |};
    {| doc_id := "d2"; doc_uid := Some "u2"; doc_favourites := Some [Some "A"; Some "B"] |};
    {| doc_id := "d3"; doc_uid := None;
       doc_favourites := Some [Some "A"; Some "B"; Some "C"; None] |};
    {| doc_id := "d4"; doc_uid := None; doc_favourites := Some [Some "Z"] |} ].

(** What the content scorer returns for the demo profile and restaurants. *)
Definition demo_content_out : list pydict :=
  match get_content_based_recommendations (H := demo_sklearn) demo_profile
          demo_restaurants with
  | Ok out => out
  | Raise _ => []
  end.

Definition halal_content_out : list pydict :=
  match get_content_based_recommendations (H := demo_sklearn) halal_profile
          demo_restaurants with
  | Ok out => out
  | Raise _ => []
  end.

(** What the collaborative scorer returns for them. *)
Definition demo_collab_out : list pydict :=
  match get_collaborative_filtering_recommendations (Ok demo_docs) demo_profile
          demo_restaurants with
  | Ok out => out
  | Raise _ => []
  end.

(** A heap in which the two lists of scored dicts have been created, the
    content dicts at addresses 0 and 1, the collaborative ones at 2 and 3. *)
Definition scored_world : world :=
  {| caller_profile := demo_profile; heap := demo_content_out ++ demo_collab_out |}.

Definition demo_weights : weights := {| content := 0.6; collab := 0.4 |}.

Definition combined_out : list loc :=
  match (_combine_and_rank_recommendations [0; 1]%nat [2; 3]%nat demo_weights
           scored_world).1 with
  | Ok out => out
  | Raise _ => []
  end.

Definition combined_world : world :=
  (_combine_and_rank_recommendations [0; 1]%nat [2; 3]%nat demo_weights scored_world).2.

End Examples.

(** ** reinforcement_learning.py: the policy *)

Module Policy.
Import ReinforcementLearning.

(** The two random draws of [act]: [np.random.rand()], a float in [0, 1),
    and [random.randrange(n)], an integer below [n]. *)
Class Random : Type := {
  np_random_rand : Q;
  random_randrange : nat -> nat
}.

Definition isnan (f : pyfloat) : bool :=
  match f with NaN => true | _ => false end.

(** The loop of [np.argmax] over a float vector: [mp] is the largest entry
    so far and [max_ind] its position; an entry takes over when it is not at
    most [mp], and a [nan] ends the search. *)
Fixpoint argmax_from (mp : pyfloat) (max_ind i : nat) (ip : list pyfloat) : nat :=
  match ip with
  | [] => max_ind
  | x :: ip' =>
      match mp with
      | NaN => max_ind
      | _ =>
          if isnan x || flt mp x
          then argmax_from x i (S i) ip'
          else argmax_from mp max_ind (S i) ip'
      end
  end.

(** [np.argmax(v)]; an empty vector raises [ValueError]. *)
Definition np_argmax (v : list pyfloat) : result nat :=
  match v with
  | [] => Raise ValueError
  | x :: ip => Ok (argmax_from x 0 1 ip)
  end.

Section Act.
Context `{Keras} `{Random}.

(** [DQNAgent.act]; [random.randrange(0)] raises [ValueError]. *)
Definition act (agent : DQNAgent) (st : list pyfloat) : result nat :=
  if Qle_bool np_random_rand (epsilon agent) then
    if (action_size agent =? 0)%nat then Raise ValueError
    else Ok (random_randrange (action_size agent))
  else
    let act_values := predict (model agent) st in
    np_argmax act_values.

End Act.

End Policy.

(** ** The debug logs: [_save_content_log], [_save_collab_log],
    [_save_hybrid_log] and [get_restaurants.save_to_json] *)

Module Logs.

(** *** Paths *)

Definition starts_with_sep (s : string) : bool :=
  match s with
  | String c _ => Ascii.eqb c "/"
  | EmptyString => false
  end.

Fixpoint ends_with_sep (s : string) : bool :=
  match s with
  | EmptyString => false
  | String c EmptyString => Ascii.eqb c "/"
  | String _ s' => ends_with_sep s'
  end.

(** [os.path.join(a, b)] on POSIX. *)
Definition path_join (a b : string) : string :=
  if starts_with_sep b then b
  else if String.eqb a "" || ends_with_sep a then a +:+ b
  else a +:+ "/" +:+ b.

(** [f"{base_filename}_{n}.json"] *)
Definition numbered (base_filename : string) (n : nat) : string :=
  base_filename +:+ "_" +:+ pretty n +:+ ".json".

(** *** The file system

    The directories and the regular files with their contents.  Of a
    directory only its own path is kept, which is all [os.path.exists] asks
    for.  The folder the code writes to is taken to be writable. *)
Record file_system : Type := {
  dirs : gset string;
  files : gmap string string
}.

(** [os.path.exists(p)] *)
Definition path_exists (fs : file_system) (p : string) : bool :=
  bool_decide (p ∈ dirs fs) || bool_decide (is_Some (files fs !! p)).

(** [os.makedirs(p)] where [p] does not exist, and [os.makedirs(p,
    exist_ok=True)]. *)
Definition makedirs (fs : file_system) (p : string) : file_system :=
  {| dirs := {[p]} ∪ dirs fs; files := files fs |}.

(** [with open(p, 'w') as f: f.write(content)] *)
Definition write_file (fs : file_system) (p content : string) : file_system :=
  {| dirs := dirs fs; files := <[p := content]> (files fs) |}.

(** The loop [while os.path.exists(name(n)): n += 1].  It ends because
    the file system is finite; [fuel] bounds the number of turns, and
    [None] stands for a loop that has not ended within it. *)
Fixpoint next_free (fs : file_system) (name : nat -> string) (fuel n : nat) : option nat :=
  match fuel with
  | O => None
  | S fuel' => if path_exists fs (name n) then next_free fs name fuel' (S n) else Some n
  end.

(** A number of turns that is enough on [fs]: one more than it has
    entries. *)
Definition turns (fs : file_system) : nat := S (size (dirs fs) + size (dom (files fs))).

Section Dump.
(** [json.dump]: the document and its text. *)
Context {document : Type} (json_dump : document -> string).

(** [save_to_json], as [get_restaurants_api] calls it: the file system
    afterwards and the file name it returns. *)
Definition save_to_json (fs : file_system) (data : document)
    (base_filename folder_name : string) : option (file_system * string) :=
  let fs := if path_exists fs folder_name then fs else makedirs fs folder_name in
  n ← next_free fs (fun n => path_join folder_name (numbered base_filename n)) (turns fs) 1;
  let filename := path_join folder_name (numbered base_filename n) in
  Some (write_file fs filename (json_dump data), filename).

(** What may go wrong in the [try] block of a log function; each of them
    ends in the [except Exception] clause, which prints and returns. *)
Inductive io : Type :=
| Written
| MakedirsFails
| OpenFails
| DumpFails (partial : string).

(** The body shared by [_save_content_log], [_save_collab_log] and
    [_save_hybrid_log], which differ in the file name prefix only.
    [base_dir] is the directory above the package. *)
Definition save_log (prefix : string) (fs : file_system) (base_dir : string)
    (log_data : document) (outcome : io) : option file_system :=
  let log_dir := path_join (path_join base_dir "assets") "restaurant_data" in
  match outcome with
  | MakedirsFails => Some fs
  | _ =>
      let fs := makedirs fs log_dir in
      counter ← next_free fs (fun n => path_join log_dir (numbered prefix n)) (turns fs) 1;
      let file_path := path_join log_dir (numbered prefix counter) in
      match outcome with
      | Written => Some (write_file fs file_path (json_dump log_data))
      | DumpFails partial => Some (write_file fs file_path partial)
      | _ => Some fs
      end
  end.

Definition _save_content_log := save_log "content_data".
Definition _save_collab_log := save_log "collab_data".
Definition _save_hybrid_log := save_log "hybrid_data".

End Dump.

End Logs.

(** ** get_restaurants.py: [clean_text] *)

Module Text.

(** A [str] as the sequence of its code points. *)
Abbreviation str := (list N).

(** [text.replace(old, new)] for strings of one character each. *)
Definition replace_char (old new : N) (text : str) : str :=
  (fun c => if (c =? old)%N then new else c) <$> text.

(** The characters the class [[^\x20-\x7E\n\r\t]] does not match. *)
Definition printable (c : N) : bool :=
  ((0x20 <=? c) && (c <=? 0x7E) || (c =? 0x0A) || (c =? 0x0D) || (c =? 0x09))%N.

Definition hyphen : N := 0x2D.
Definition en_dash : N := 0x2013.
Definition em_dash : N := 0x2014.

(** [clean_text(text)] for a [str] or [None]. *)
Definition clean_text (text : option str) : option str :=
  match text with
  | Some (c :: cs) =>
      let text := c :: cs in
      let text := replace_char en_dash hyphen text in
      let text := replace_char em_dash hyphen text in
      Some (List.filter printable text)
  | falsy => falsy
  end.

End Text.

(** ** get_restaurants.py *)

Module GetRestaurants.
Import Text.

(** Text that comes from Google is a [str] of code points; the category
    names and the other literals of the source are ASCII, and [codes] gives
    their code points. *)
Definition codes (s : string) : str :=
  (fun c => N.of_nat (nat_of_ascii c)) <$> String.list_ascii_of_string s.

(** *** constants.py: the keyword lists *)

Definition CATEGORY_DICT : list (string * list str) :=
  [ ("halal", codes <$> ["halal"; "muslim-friendly"; "muslim"; "halal-certified";
                         "shariah-compliant"]);
    ("vegetarian", codes <$> ["vege"; "vegetarian"; "vegan"; "vegetarian-friendly";
                              "vegetarian option"; "meat-free"]);
    ("vegan", codes <$> ["vegan"; "plant-based"; "vegan-friendly"; "cruelty-free";
                         "dairy-free"]);
    ("beef-free", codes <$> ["beef-free"; "no beef"; "without beef"; "beefless"]);
    ("chinese", codes <$> ["chinese"; "szechuan"; "dim sum"; "cantonese"; "dumplings";
                           "fried rice"; "chicken rice"; "charsiew"; "horfun"; "kopitiam";
                           "mala"]);
    ("malay", codes <$> ["nasi lemak"; "satay"; "rendang"; "keropok"; "nasi kerabu";
                         "roti jala"]);
    ("indian", codes <$> ["indian restaurant"; "khorma"; "masala"; "naan"; "briyani";
                          "tandoori"; "nasi kandar"]);
    ("korean", codes <$> ["korean"; "kimchi"; "bibimbap"; "bulgogi"; "tteokbokki";
                          "jajangmyeon"; "samgyeopsal"]);
    ("japanese", codes <$> ["japan"; "japanese"; "sushi"; "wasabi"; "udon"; "miso";
                            "shabu-shabu"; "bento"; "sukiya"; "takoyaki"; "onigiri"]);
    ("thai", codes <$> ["thai"; "pad thai"; "green curry"; "tom yum"; "som tam"; "satay";
                        "red curry"]);
    ("western", codes <$> ["western"; "steak"; "burger"; "pasta"; "pizza";
                           "fish n' chips"]);
    ("eastern", codes <$> ["eastern cuisine"; "middle eastern"; "falafel"; "shawarma";
                           "hummus"; "kebab"]);
    ("cafe", (codes "caf" ++ [0xE9%N])
             :: (codes <$> ["coffee shop"; "espresso"; "latte"; "pastry"; "bakery";
                            "barista"]));
    ("bar", codes <$> ["bar"; "pub"; "tavern"; "brewery"; "cocktail"]);
    ("buffet", codes <$> ["buffet"; "all-you-can-eat"; "unlimited food"; "buffet-style"]);
    ("fast-food", codes <$> ["fast food"; "drive-thru"; "mcdonald's"; "kfc"; "burger king";
                             "a&w"; "taco bell"; "subway"; "pizza hut"; "domino's";
                             "texas chicken"]) ].

Definition EXCLUDED_TYPES : list str :=
  codes <$> ["gas_station"; "lodging"; "convenience_store"; "car_repair"; "car_wash";
             "parking"].

(** *** What the code takes from outside *)

(** The [str] methods it calls. *)
Class Strings : Type := {
  lower : str -> str;
  upper : str -> str;
  split : str -> list str;
  strip : str -> str;
  isalnum : N -> bool
}.

(** [fuzzywuzzy.process.extractOne(query, choices)]: the best match and
    its score. *)
Class Fuzzy : Type := {
  extractOne : str -> list string -> string * Z
}.

(** *** The Places API

    An entry of the [results] of a nearby search and the [result] of a
    details request, with the fields the code reads.  A field is [None]
    when the key is missing; text fields hold a [str], fields that are only
    passed on hold a JSON scalar. *)
Record place : Type := {
  pl_types : list str;
  pl_business_status : option str;
  pl_name : option str;
  pl_place_id : option str;
  pl_vicinity : option str
}.

Record review : Type := {
  rv_author_name : option str;
  rv_rating : option value;
  rv_text : option str;
  rv_relative_time_description : option value
}.

Record details : Type := {
  dt_name : option str;
  dt_rating : option value;
  dt_formatted_address : option str;
  dt_formatted_phone_number : option value;
  dt_website : option value;
  dt_user_ratings_total : option value;
  dt_price_level : option value;
  dt_business_status : option value;
  dt_types : list str;
  dt_lat : option value;
  dt_lng : option value;
  dt_open_now : option value;
  dt_weekday_text : list str;
  dt_reviews : list review;
  dt_photos : list (option str);
  dt_url : option value;
  dt_editorial_overview : option str;
  dt_delivery : option value;
  dt_takeout : option value;
  dt_vicinity : option str;
  dt_description : option str
}.

(** [gmaps.places_nearby] over all pages: the results of the first page
    followed by those of every page the [next_page_token] loop fetches, or
    [None] when one of the calls raises.  [gmaps.place]: [None] when the
    call raises, [Some None] when the response has no or an empty
    [result]. *)
Class GoogleMaps : Type := {
  places_nearby : value -> value -> value -> str -> option (list place);
  gmaps_place : str -> option (option details)
}.

(** *** Categories *)

(** [needle in haystack] for two strings. *)
Fixpoint is_prefix (needle haystack : str) : bool :=
  match needle, haystack with
  | [], _ => true
  | _ :: _, [] => false
  | a :: needle', b :: haystack' => (a =? b)%N && is_prefix needle' haystack'
  end.

Fixpoint contains (needle haystack : str) : bool :=
  is_prefix needle haystack
  || match haystack with
     | [] => false
     | _ :: haystack' => contains needle haystack'
     end.

(** [x in xs] for a list of strings. *)
Definition str_in (x : str) (xs : list str) : bool := bool_decide (x ∈ xs).

(** One pass [for category, keywords in category_dict.items(): if cond:
    extracted_categories.add(category)]. *)
Definition add_where (cond : list str -> bool) (category_dict : list (string * list str))
    (extracted_categories : gset string) : gset string :=
  fold_left (fun extracted item => if cond item.2 then {[item.1]} ∪ extracted else extracted)
    category_dict extracted_categories.

(** [any(keyword in text for keyword in keywords)] *)
Definition any_keyword_in (text : str) (keywords : list str) : bool :=
  existsb (fun keyword => contains keyword text) keywords.

Section Categories.
Context `{Strings} `{Fuzzy}.

(** [get_keyword_category]; the list it returns holds the members of the
    set in an order Python does not fix. *)
Definition get_keyword_category (dt : details) (category_dict : list (string * list str))
    (search_keyword : str) : gset string :=
  let extracted_categories : gset string := ∅ in
  let extracted_categories :=
    match search_keyword with
    | [] => extracted_categories
    | _ => add_where (str_in (lower search_keyword)) category_dict extracted_categories
    end in
  let name := lower (default [] (dt_name dt)) in
  let extracted_categories :=
    add_where (any_keyword_in name) category_dict extracted_categories in
  let extracted_categories :=
    fold_left (fun extracted rv =>
        let text := lower (default [] (rv_text rv)) in
        add_where (any_keyword_in text) category_dict extracted)
      (dt_reviews dt) extracted_categories in
  let extracted_categories :=
    fold_left (fun extracted place_type =>
        let place_type_lower := lower place_type in
        add_where (any_keyword_in place_type_lower) category_dict extracted)
      (dt_types dt) extracted_categories in
  let vicinity := lower (default [] (dt_vicinity dt)) in
  let description := lower (default [] (dt_description dt)) in
  fold_left (fun extracted item =>
      let extracted :=
        if any_keyword_in vicinity item.2 then {[item.1]} ∪ extracted else extracted in
      if any_keyword_in description item.2 then {[item.1]} ∪ extracted else extracted)
    category_dict extracted_categories.

Definition get_fuzzy_category (input_term : str) : option string * Z :=
  let '(best_match, score) := extractOne input_term (CATEGORY_DICT.*1) in
  if (80 <=? score)%Z then (Some best_match, score) else (None, score).

(** The words [get_final_categories] sends to the fuzzy matcher. *)
Definition terms_to_check (dt : details) : list str :=
  let terms := [] in
  let terms :=
    match dt_name dt with
    | Some (c :: cs) => terms ++ split (c :: cs)
    | _ => terms
    end in
  let terms :=
    match dt_vicinity dt with
    | Some (c :: cs) => terms ++ split (c :: cs)
    | _ => terms
    end in
  let terms :=
    fold_left (fun terms r =>
        match rv_text r with
        | Some (c :: cs) => terms ++ split (c :: cs)
        | _ => terms
        end)
      (dt_reviews dt) terms in
  terms ++ dt_types dt.

Definition get_final_categories (dt : details) (keyword : str)
    (category_dict : list (string * list str)) : gset string :=
  let exact_categories := get_keyword_category dt category_dict keyword in
  let fuzzy_categories :=
    fold_left (fun fuzzy term =>
        match strip term with
        | [] => fuzzy
        | _ =>
            if existsb isalnum term then
              match get_fuzzy_category term with
              | (Some matched_category, score) =>
                  if String.eqb matched_category "" then fuzzy
                  else fuzzy ++ [(matched_category, score)]
              | (None, _) => fuzzy
              end
            else fuzzy
        end)
      (terms_to_check dt) [] in
  fold_left (fun final item => if (80 <=? item.2)%Z then {[item.1]} ∪ final else final)
    fuzzy_categories exact_categories.

End Categories.

(** *** The restaurant records *)

Record formatted_review : Type := {
  author : option str;
  fr_rating : value;
  fr_text : option str;
  relative_time : value
}.

(** A dict of the list that [get_nearby_recommend_restaurants_logic]
    returns.  [categories] is the set whose members the list under that key
    holds. *)
Record restaurant : Type := {
  place_id : str;
  name : option str;
  categories : gset string;
  address : option str;
  latitude : value;
  longitude : value;
  rating : value;
  user_ratings_total : value;
  price_level : value;
  editorial_summary : option str;
  reviews : list formatted_review;
  photos : list str;
  url : value;
  phone_number : value;
  website : value;
  opening_hours : list (option str);
  opening_status : value;
  business_status : value;
  types : list str;
  delivery : value;
  takeout : value
}.

(** [x if isinstance(x, bool) else 'N/A'] *)
Definition bool_or_na (x : option value) : value :=
  match x with
  | Some (VBool b) => VBool b
  | _ => VStr "N/A"
  end.

(** [[p.get('photo_reference') for p in photos_data[:3]
      if p.get('photo_reference')]] *)
Definition photo_references (photos_data : list (option str)) : list str :=
  omap (fun p => match p with Some (c :: cs) => Some (c :: cs) | _ => None end)
    (take 3 photos_data).

(** The loop over [enumerate(reviews_data[:3])]. *)
Definition format_reviews (reviews_data : list review) : list formatted_review :=
  imap (fun r_idx r =>
      {| author := clean_text (Some (default (codes ("Author " +:+ pretty (r_idx + 1)%nat))
                                       (rv_author_name r)));
         fr_rating := default (VInt 0) (rv_rating r);
         fr_text := clean_text (Some (default [] (rv_text r)));
         relative_time := default (VStr "") (rv_relative_time_description r) |})
    (take 3 reviews_data).

Section Nearby.
Context `{Strings} `{Fuzzy} `{GoogleMaps}.

(** The test of the first loop: the place is kept. *)
Definition kept (pl : place) : bool :=
  let place_types := pl_types pl in
  let business_status := upper (default [] (pl_business_status pl)) in
  negb (existsb (fun excluded_type => str_in excluded_type place_types) EXCLUDED_TYPES)
  && bool_decide (business_status = codes "OPERATIONAL").

(** The body of the second loop: the record for one place, or [None]
    where the code says [continue]. *)
Definition restaurant_of (keyword : str) (pl : place) : option restaurant :=
  let name := default (codes "N/A") (pl_name pl) in
  match pl_place_id pl with
  | Some (c :: cs) =>
      let place_id := c :: cs in
      match gmaps_place place_id with
      | Some (Some dt) =>
          match dt_rating dt with
          | None | Some VNone => None
          | Some rating =>
              if key_eqb rating (VStr "N/A") then None
              else
                let address :=
                  default (default (codes "N/A") (pl_vicinity pl))
                    (dt_formatted_address dt) in
                Some {|
                  place_id := place_id;
                  name := clean_text (Some name);
                  categories := get_final_categories dt keyword CATEGORY_DICT;
                  address := clean_text (Some address);
                  latitude := default (VStr "N/A") (dt_lat dt);
                  longitude := default (VStr "N/A") (dt_lng dt);
                  rating := rating;
                  user_ratings_total := default (VInt 0) (dt_user_ratings_total dt);
                  price_level := default (VStr "N/A") (dt_price_level dt);
                  editorial_summary :=
                    clean_text (Some (default (codes "N/A") (dt_editorial_overview dt)));
                  reviews := format_reviews (dt_reviews dt);
                  photos := photo_references (dt_photos dt);
                  url := default (VStr "N/A") (dt_url dt);
                  phone_number := default (VStr "N/A") (dt_formatted_phone_number dt);
                  website := default (VStr "N/A") (dt_website dt);
                  opening_hours := (fun hour => clean_text (Some hour)) <$> dt_weekday_text dt;
                  opening_status := default (VBool false) (dt_open_now dt);
                  business_status := default (VStr "OPERATIONAL") (dt_business_status dt);
                  types := dt_types dt;
                  delivery := bool_or_na (dt_delivery dt);
                  takeout := bool_or_na (dt_takeout dt)
                |}
          end
      | _ => None
      end
  | _ => None
  end.

Definition get_nearby_recommend_restaurants_logic (latitude longitude radius : value)
    (keyword : str) : list restaurant :=
  match places_nearby latitude longitude radius keyword with
  | None => []
  | Some results =>
      let all_restaurants := List.filter kept results in
      omap (restaurant_of keyword) all_restaurants
  end.

End Nearby.

End GetRestaurants.

(** * More vocabulary *)

Module Terms.
Import ContentBased Collaborative ReinforcementLearning Constants Hybrid Views Policy.

(** A score that is a number between 0 and 1. *)
Definition unit_score (v : value) : Prop :=
  match as_number v with
  | Ok (Fin q) => (0 <= q <= 1)%Q
  | _ => False
  end.

(** The neighbours that have the place [s] among their favourites. *)
Definition likers (all_user_favorites : list (string * gset string)) (s : string)
    (neighbors : list (string * Q)) : list (string * Q) :=
  List.filter (fun n => bool_decide (s ∈ default ∅ (dict_get n.1 all_user_favorites)))
    neighbors.

(** [a] may stand before [b] in a list of neighbours: it is at least as
    similar. *)
Definition at_least_as_similar (a b : string * Q) : Prop := (b.2 <= a.2)%Q.


(** Two floats that stand for the same number. *)
Definition same_float (x y : pyfloat) : Prop :=
  match x, y with
  | Fin a, Fin b => (a == b)%Q
  | _, _ => x = y
  end.

(** The score of a candidate that passes the restriction gate when no text
    similarity is available: the preference overlap takes the weight of the
    similarity term. *)
Definition score_without_similarity (user_preferences rec_categories : gset string)
    (rating : pyfloat) : pyfloat :=
  fadd (Fin (0.8 * preference_score user_preferences rec_categories))
       (fmul (Fin 0.2) (fdiv_pos rating 5.0)).


(** What the re-ranking loop leaves in a dict it has visited: the score
    [final_score + rl_score * 0.3], where [rl_score] is the agent's first
    action value for the features of that dict. *)
Definition reranked `{Builtins} `{Keras} `{Runtime} (rl_agent : DQNAgent) (rec : pydict)
    : Prop :=
  ∃ st rl_score final_score,
    extract_rl_features rec CATEGORY_KEYS = Ok st
    ∧ get_q_values rl_agent st !! 0%nat = Some rl_score
    ∧ as_number (default (VFloat (Fin 0.0)) (rec !! "final_score")) = Ok final_score
    ∧ rec !! "final_score_with_rl"
      = Some (VFloat (fadd final_score (fmul rl_score (Fin 0.3)))).


(** ** The extractor's domain *)




(** ** Calls on an agent *)

Inductive call : Type :=
| Remember (e : experience)
| Replay (batch_size : nat).

(** The experiences a series of calls hands to [remember], oldest first. *)
Definition remembered (calls : list call) : list experience :=
  omap (fun c => match c with Remember e => Some e | Replay _ => None end) calls.

Section Calls.
Context `{Keras} `{Runtime}.

Definition call_on (agent : DQNAgent) (c : call) : DQNAgent :=
  match c with
  | Remember e => remember agent e
  | Replay batch_size => replay agent batch_size
  end.

(** The agent after a series of calls. *)
Definition after_calls (agent : DQNAgent) (calls : list call) : DQNAgent :=
  fold_left call_on calls agent.

End Calls.

(** ** The greedy action *)

(** [a] is the first position of a largest entry of [v]. *)
Definition first_largest (v : list pyfloat) (a : nat) : Prop :=
  ∃ m, v !! a = Some m
    ∧ (∀ j y, v !! j = Some y -> flt m y = false)
    ∧ (∀ j y, (j < a)%nat -> v !! j = Some y -> flt y m = true).


(** ** Cleaned text *)

(** What [clean_text] makes of one character: a dash becomes a hyphen, a
    printable character stays, anything else goes. *)
Definition cleaned_char (x : N) : list N :=
  let y := if (x =? Text.en_dash)%N then Text.hyphen else x in
  let z := if (y =? Text.em_dash)%N then Text.hyphen else y in
  if Text.printable z then [z] else [].

(** A text, or [None], without a character that [clean_text] would drop
    or replace. *)
Definition clean (text : option Text.str) : Prop :=
  match text with
  | Some s => Forall (fun c => Text.printable c = true) s
  | None => True
  end.

(** ** Categories *)

(** The texts of a details record that the keyword search looks through. *)
Definition searched_texts (dt : GetRestaurants.details) : list Text.str :=
  [default [] (GetRestaurants.dt_name dt)]
  ++ ((fun rv => default [] (GetRestaurants.rv_text rv)) <$> GetRestaurants.dt_reviews dt)
  ++ GetRestaurants.dt_types dt
  ++ [default [] (GetRestaurants.dt_vicinity dt);
      default [] (GetRestaurants.dt_description dt)].

End Terms.

(** * More example data *)

Module MoreExamples.
Import ContentBased Collaborative ReinforcementLearning Constants Hybrid Views Examples.
Import Policy Logs Text GetRestaurants Terms.

(** ** A request to the hybrid pipeline *)

(** The caller's heap: the two demo restaurants at addresses 0 and 1. *)
Definition request_world : world :=
  {| caller_profile := demo_profile; heap := demo_restaurants |}.

Definition pipeline_out : list loc :=
  match (get_hybrid_recommendations (H := demo_sklearn) (H0 := demo_builtins)
           (H1 := demo_keras) (H2 := demo_runtime false) (Ok demo_docs) ∅
           [0; 1]%nat request_world).1 with
  | Ok out => out
  | Raise _ => []
  end.

Definition pipeline_world : world :=
  (get_hybrid_recommendations (H := demo_sklearn) (H0 := demo_builtins)
     (H1 := demo_keras) (H2 := demo_runtime false) (Ok demo_docs) ∅
     [0; 1]%nat request_world).2.

(** A user whose only favourite is not among the candidates. *)
Definition stranger_profile : user_profile :=
  {| uid := Some "u9"; preferences := ["japanese"]; restrictions := [];
     favourites := [Some "Z"] |}.

Definition stranger_content_out : list pydict :=
  match get_content_based_recommendations (H := demo_sklearn) stranger_profile
          demo_restaurants with
  | Ok out => out
  | Raise _ => []
  end.

(** The state vector of the restaurant [A]. *)
Definition sushi_features : list pyfloat :=
  match extract_rl_features (H := demo_builtins) sushi_ya CATEGORY_KEYS with
  | Ok features => features
  | Raise _ => []
  end.

(** ** The policy *)

(** Draws of [0.5] and of the largest number below [n]. *)
Definition demo_random : Random :=
  {| np_random_rand := 1 # 2; random_randrange := fun n => pred n |}.

(** An agent whose exploration rate has decayed to [0.1]. *)
Definition seasoned_agent : DQNAgent (H := demo_keras) :=
  @Build_DQNAgent demo_keras 35 4 [] 0.95 0.1 0.01 0.995 0.001 "u1" 3%Z.

(** ** Text *)

(** ["a–bé"] and what [clean_text] makes of it, ["a-b"]. *)
Definition dashed_text : str := [0x61; 0x2013; 0x62; 0xE9]%N.
Definition dashed_text_cleaned : str := [0x61; 0x2D; 0x62]%N.

(** ** A nearby search *)

Definition ascii_lower (c : N) : N :=
  if ((0x41 <=? c) && (c <=? 0x5A))%N then (c + 0x20)%N else c.

Definition ascii_upper (c : N) : N :=
  if ((0x61 <=? c) && (c <=? 0x7A))%N then (c - 0x20)%N else c.

Definition ascii_alnum (c : N) : bool :=
  ((0x30 <=? c) && (c <=? 0x39) || (0x41 <=? c) && (c <=? 0x5A)
   || (0x61 <=? c) && (c <=? 0x7A))%N.

Fixpoint words_from (cur : str) (s : str) : list str :=
  match s with
  | [] => match cur with [] => [] | _ => [cur] end
  | c :: s' =>
      if (c =? 0x20)%N
      then match cur with [] => words_from [] s' | _ => cur :: words_from [] s' end
      else words_from (cur ++ [c]) s'
  end.

Fixpoint lstrip (s : str) : str :=
  match s with
  | c :: s' => if (c =? 0x20)%N then lstrip s' else s
  | [] => []
  end.

(** A stand-in for the [str] methods, right on ASCII text with blanks. *)
Definition demo_strings : Strings :=
  {| lower := fmap ascii_lower;
     upper := fmap ascii_upper;
     split := words_from [];
     strip := fun s => reverse (lstrip (reverse (lstrip s)));
     isalnum := ascii_alnum |}.

(** A stand-in for the fuzzy matcher: a choice that equals the query
    scores 100, and otherwise the first choice scores 0. *)
Definition demo_fuzzy : Fuzzy :=
  {| extractOne := fun query choices =>
       match List.filter (fun choice => bool_decide (codes choice = fmap ascii_lower query))
               choices with
       | choice :: _ => (choice, 100%Z)
       | [] => (default "" (head choices), 0%Z)
       end |}.

Definition sushi_place : place :=
  {| pl_types := [codes "restaurant"; codes "food"];
     pl_business_status := Some (codes "OPERATIONAL");
     pl_name := Some (codes "Sushi " ++ [0x2013%N] ++ codes " Ya");
     pl_place_id := Some (codes "A");
     pl_vicinity := Some (codes "1 Main Street") |}.

Definition petrol_place : place :=
  {| pl_types := [codes "gas_station"; codes "restaurant"];
     pl_business_status := Some (codes "OPERATIONAL");
     pl_name := Some (codes "Petrol and Noodles");
     pl_place_id := Some (codes "P");
     pl_vicinity := None |}.

Definition demo_review (text : string) : review :=
  {| rv_author_name := None; rv_rating := Some (VInt 5);
     rv_text := Some (codes text); rv_relative_time_description := None |}.

Definition sushi_details : details :=
  {| dt_name := Some (codes "Sushi Ya");
     dt_rating := Some (VFloat (Fin 4.5));
     dt_formatted_address := None;
     dt_formatted_phone_number := None;
     dt_website := None;
     dt_user_ratings_total := Some (VInt 120);
     dt_price_level := Some (VInt 2);
     dt_business_status := Some (VStr "OPERATIONAL");
     dt_types := [codes "restaurant"; codes "food"];
     dt_lat := Some (VFloat (Fin 3.1));
     dt_lng := Some (VFloat (Fin 101.7));
     dt_open_now := Some (VBool true);
     dt_weekday_text := [codes "Monday: 9:00 AM " ++ [0x2013%N] ++ codes " 5:00 PM"];
     dt_reviews := demo_review <$> ["Great sushi"; "Halal friendly"; "Nice"; "Too far"];
     dt_photos := [Some (codes "ref1"); None; Some []; Some (codes "ref4")];
     dt_url := None;
     dt_editorial_overview := None;
     dt_delivery := Some (VBool true);
     dt_takeout := None;
     dt_vicinity := Some (codes "1 Main Street");
     dt_description := None |}.

(** A stand-in for the Places API: two places nearby, details for [A]. *)
Definition demo_google : GoogleMaps :=
  {| places_nearby := fun _ _ _ _ => Some [petrol_place; sushi_place];
     gmaps_place := fun place_id =>
       if bool_decide (place_id = codes "A") then Some (Some sushi_details) else None |}.

Definition demo_nearby_out : list restaurant :=
  get_nearby_recommend_restaurants_logic (H := demo_strings) (H0 := demo_fuzzy)
    (H1 := demo_google) (VFloat (Fin 3.1)) (VFloat (Fin 101.7)) (VInt 500) [].

End MoreExamples.

(** * Properties *)

#[local] Set Warnings "-clear-no-such-hyp".

Module PyFacts.
Import Spec.

Lemma bind_Ok {A B} (m : result A) (f : A -> result B) b :
  (x ← m; f x) = Ok b -> ∃ a, m = Ok a ∧ f a = Ok b.
Proof. destruct m as [a|]; [|done]. intros Hf. by exists a. Qed.

Lemma is_ok_eq {A} (r : result (list A)) :
  is_ok r = true -> r = Ok (match r with Ok out => out | Raise _ => [] end).
Proof. by destruct r. Qed.

Lemma is_ok_run {A W} (x : result (list A) * W) :
  is_ok x.1 = true -> x = (Ok (match x.1 with Ok out => out | Raise _ => [] end), x.2).
Proof. by destruct x as [[out|e] w]. Qed.

Lemma mapM_Ok {A B} (f : A -> result B) l l' :
  mapM f l = Ok l' -> Forall2 (fun x y => f x = Ok y) l l'.
Proof.
  revert l'. induction l as [|x l IH]; intros l'; simpl.
  - intros [= <-]. constructor.
  - intros (y & Hy & (k & Hk & [= <-])%bind_Ok)%bind_Ok.
    constructor; [done|by apply IH].
Qed.

Lemma Qltb_lt a b : Qltb a b = true <-> (a < b)%Q.
Proof.
  unfold Qltb. rewrite Qlt_alt. destruct (a ?= b)%Q; split; congruence.
Qed.

Lemma Qltb_ge a b : Qltb a b = false <-> (b <= a)%Q.
Proof.
  unfold Qltb. rewrite Qle_alt.
  rewrite <- (Qcompare_antisym a b). destruct (a ?= b)%Q; simpl; split; congruence.
Qed.

Lemma Qdiv_nat_bounds (i u : nat) :
  (i <= u)%nat -> u ≠ 0%nat ->
  (0 <= inject_Z (Z.of_nat i) / inject_Z (Z.of_nat u) <= 1)%Q.
Proof.
  intros Hle Hu.
  assert (Hpos : (0 < inject_Z (Z.of_nat u))%Q).
  { change 0%Q with (inject_Z 0). rewrite <- Zlt_Qlt. lia. }
  split.
  - apply Qle_shift_div_l; [exact Hpos|]. rewrite Qmult_0_l.
    change 0%Q with (inject_Z 0). rewrite <- Zle_Qle. lia.
  - apply Qle_shift_div_r; [exact Hpos|]. rewrite Qmult_1_l.
    rewrite <- Zle_Qle. lia.
Qed.

Lemma mapM_is_ok {A B} (f : A -> result B) l :
  Forall (fun x => is_ok (f x) = true) l -> ∃ l', mapM f l = Ok l'.
Proof.
  induction 1 as [|x l Hx _ [l' IH]]; [by exists []|].
  destruct (f x) as [y|] eqn:Hy; [|done].
  exists (y :: l'). simpl. by rewrite Hy, IH.
Qed.

Lemma bind_Ok_l {A B} (a : A) (f : A -> result B) : (x ← Ok a; f x) = f a.
Proof. done. Qed.

(** *** [sorted(..., reverse=True)] *)
Section Sorted.
Context {A : Type} (key : A -> pyfloat).

Lemma insert_desc_perm x l : insert_desc key x l ≡ₚ x :: l.
Proof.
  induction l as [|y l IH]; simpl; [done|].
  destruct (flt (key x) (key y)); [|done].
  rewrite IH. apply perm_swap.
Qed.

Lemma sorted_desc_perm l : sorted_desc key l ≡ₚ l.
Proof.
  induction l as [|x l IH]; simpl; [done|].
  by rewrite insert_desc_perm, IH.
Qed.

Lemma insert_desc_sorted x l :
  finite_key key x -> Forall (finite_key key) l ->
  StronglySorted (desc key) l -> StronglySorted (desc key) (insert_desc key x l).
Proof.
  intros Hx Hl Hs. induction Hs as [|y l Hs IH Hy]; simpl.
  - repeat constructor.
  - apply Forall_cons in Hl as [Hfy Hl].
    unfold finite_key in Hx, Hfy.
    destruct (flt (key x) (key y)) eqn:Hlt.
    + constructor; [by apply IH|].
      rewrite insert_desc_perm. constructor; [|done].
      unfold desc. destruct (key x), (key y); try done.
      simpl in Hlt. apply Qltb_lt in Hlt. by apply Qlt_le_weak.
    + assert (Hxy : desc key x y).
      { unfold desc. destruct (key x), (key y); try done.
        simpl in Hlt. by apply Qltb_ge in Hlt. }
      constructor; [by constructor|]. constructor; [done|].
      eapply Forall_impl; [exact Hy|]. intros z Hyz.
      unfold desc in *. destruct (key x), (key y), (key z); try done.
      eapply Qle_trans; eassumption.
Qed.

Lemma sorted_desc_sorted l :
  Forall (finite_key key) l -> StronglySorted (desc key) (sorted_desc key l).
Proof.
  induction l as [|x l IH]; simpl; [constructor|].
  intros [Hx Hl]%Forall_cons. apply insert_desc_sorted; [done| |by apply IH].
  by rewrite sorted_desc_perm.
Qed.

(** Stability: the elements that share a key keep their input order. *)
Lemma insert_desc_stable q x l :
  Forall (finite_key key) l ->
  List.filter (same_key key q) (insert_desc key x l) = List.filter (same_key key q) (x :: l).
Proof.
  intros Hl. induction l as [|y l IH]; [done|].
  apply Forall_cons in Hl as [Hy Hl]. cbn [insert_desc].
  destruct (flt (key x) (key y)) eqn:Hlt; [|done].
  cbn [List.filter]. rewrite IH by done. cbn [List.filter].
  destruct (same_key key q x) eqn:Hqx; [|done].
  destruct (same_key key q y) eqn:Hqy; [|done].
  exfalso. unfold same_key in *. unfold finite_key in Hy.
  destruct (key x) as [qx| | |], (key y) as [qy| | |]; try done.
  simpl in Hlt. apply Qltb_lt in Hlt.
  apply Qeq_bool_iff in Hqx, Hqy. rewrite Hqx, Hqy in Hlt.
  by apply Qlt_irrefl in Hlt.
Qed.

Lemma sorted_desc_stable q l :
  Forall (finite_key key) l ->
  List.filter (same_key key q) (sorted_desc key l) = List.filter (same_key key q) l.
Proof.
  induction l as [|x l IH]; [done|].
  intros [Hx Hl]%Forall_cons. cbn [sorted_desc].
  rewrite insert_desc_stable by (by rewrite sorted_desc_perm).
  cbn [List.filter]. by rewrite IH.
Qed.
End Sorted.

(** *** Insertion-ordered dicts *)

Lemma dict_set_elem {V} k (v : V) d kv :
  kv ∈ dict_set k v d -> kv = (k, v) ∨ kv ∈ d.
Proof.
  induction d as [|[k' v'] d IH]; simpl.
  - intros ->%list_elem_of_singleton. by left.
  - destruct (String.eqb k k').
    + intros [->|?]%elem_of_cons; [by left|right; by right].
    + intros [->|Hin]%elem_of_cons; [right; by left|].
      destruct (IH Hin); [by left|right; by right].
Qed.

Lemma dict_set_length {V} k (v : V) d :
  (length (dict_set k v d) <= S (length d))%nat.
Proof.
  induction d as [|[k' v'] d IH]; simpl; [lia|].
  destruct (String.eqb k k'); simpl; lia.
Qed.

Lemma dict_set_keys {V} k (v : V) d :
  NoDup d.*1 -> NoDup (dict_set k v d).*1
  ∧ ∀ k0, k0 ∈ (dict_set k v d).*1 -> k0 = k ∨ k0 ∈ d.*1.
Proof.
  induction d as [|[k' v'] d IH]; simpl.
  - intros _. split; [apply NoDup_singleton|].
    intros k0 ->%list_elem_of_singleton. by left.
  - intros [Hk' Hd]%NoDup_cons. destruct (String.eqb_spec k k') as [->|Hne]; simpl.
    + split; [by apply NoDup_cons|]. intros k0 [->|?]%elem_of_cons; [by left|right; by right].
    + destruct (IH Hd) as [IH1 IH2]. split.
      * apply NoDup_cons. split; [|done].
        intros [->|?]%IH2; [congruence|done].
      * intros k0 [->|[->|?]%IH2]%elem_of_cons; [right; by left|by left|right; by right].
Qed.

Lemma dict_get_elem {V} k (v : V) d :
  NoDup d.*1 -> (k, v) ∈ d -> dict_get k d = Some v.
Proof.
  induction d as [|[k' v'] d IH]; simpl; [by intros _ ?%elem_of_nil|].
  intros [Hk' Hd]%NoDup_cons [Heq|Hin]%elem_of_cons.
  - inversion Heq; subst. by rewrite String.eqb_refl.
  - destruct (String.eqb_spec k k') as [->|Hne]; [|by apply IH].
    exfalso. apply Hk'. apply list_elem_of_fmap. by exists (k', v).
Qed.

Lemma dict_of_pairs_from {V} (pairs acc : list (string * V)) kv :
  kv ∈ fold_left (fun d kv => dict_set kv.1 kv.2 d) pairs acc ->
  kv ∈ acc ∨ kv ∈ pairs.
Proof.
  revert acc. induction pairs as [|[k v] pairs IH]; simpl; intros acc Hin; [by left|].
  destruct (IH _ Hin) as [[->|?]%dict_set_elem|?].
  - right; by left.
  - by left.
  - right; by right.
Qed.

Lemma dict_of_pairs_length_from {V} (pairs acc : list (string * V)) :
  (length (fold_left (fun d kv => dict_set kv.1 kv.2 d) pairs acc)
   <= length acc + length pairs)%nat.
Proof.
  revert acc. induction pairs as [|[k v] pairs IH]; simpl; intros acc; [lia|].
  etrans; [apply IH|]. pose proof (dict_set_length k v acc). lia.
Qed.

Lemma dict_of_pairs_elem {V} (pairs : list (string * V)) kv :
  kv ∈ dict_of_pairs pairs -> kv ∈ pairs.
Proof. intros [[]%elem_of_nil|?]%dict_of_pairs_from; done. Qed.

Lemma dict_of_pairs_length {V} (pairs : list (string * V)) :
  (length (dict_of_pairs pairs) <= length pairs)%nat.
Proof. apply (dict_of_pairs_length_from pairs []). Qed.

End PyFacts.

Module CollaborativeFacts.
Import Collaborative Spec PyFacts.

Lemma jaccard_symmetric (A B : gset string) :
  _calculate_jaccard_similarity A B = _calculate_jaccard_similarity B A.
Proof.
  unfold _calculate_jaccard_similarity.
  assert (A ∩ B = B ∩ A) as -> by set_solver.
  by assert (A ∪ B = B ∪ A) as -> by set_solver.
Qed.

Lemma jaccard_bounds (A B : gset string) :
  (0 <= _calculate_jaccard_similarity A B <= 1)%Q.
Proof.
  unfold _calculate_jaccard_similarity. cbv zeta.
  destruct (decide (size (A ∪ B) ≠ 0%nat)) as [Hu|Hu].
  - apply Qdiv_nat_bounds; [|exact Hu].
    apply subseteq_size. set_solver.
  - split; [apply Qle_refl | discriminate].
Qed.

Lemma jaccard_disjoint (A B : gset string) :
  A ## B -> (_calculate_jaccard_similarity A B == 0)%Q.
Proof.
  intros Hd. unfold _calculate_jaccard_similarity. cbv zeta.
  assert (A ∩ B = ∅) as -> by set_solver.
  rewrite size_empty. destruct (decide _); [|reflexivity].
  unfold Qdiv. simpl. apply Qmult_0_l.
Qed.

Lemma jaccard_self (A : gset string) :
  A ≠ ∅ -> (_calculate_jaccard_similarity A A == 1)%Q.
Proof.
  intros Hne. unfold _calculate_jaccard_similarity. cbv zeta.
  assert (A ∩ A = A) as -> by set_solver.
  assert (A ∪ A = A) as -> by set_solver.
  assert (size A ≠ 0%nat) as Hs by (by intros ?%size_empty_inv%leibniz_equiv).
  destruct (decide _); [|done].
  apply Qmult_inv_r. intros Heq.
  unfold Qeq in Heq. simpl in Heq. lia.
Qed.

(** Claim C7.  The Jaccard similarity of two finite sets is symmetric and
    lies between 0 and 1; it is 0 for disjoint sets (two empty sets
    included) and 1 for a non-empty set and itself. *)
Theorem jaccard_similarity_properties (A B : gset string) :
  _calculate_jaccard_similarity A B = _calculate_jaccard_similarity B A
  ∧ (0 <= _calculate_jaccard_similarity A B <= 1)%Q
  ∧ (A ## B -> (_calculate_jaccard_similarity A B == 0)%Q)
  ∧ (A ≠ ∅ -> (_calculate_jaccard_similarity A A == 1)%Q).
Proof.
  split; [apply jaccard_symmetric|].
  split; [apply jaccard_bounds|].
  split; [apply jaccard_disjoint | apply jaccard_self].
Qed.


(** The dict that [_get_all_user_favorites] builds has one entry per key. *)
Lemma all_user_favorites_keys docs :
  NoDup (_get_all_user_favorites docs).*1.
Proof.
  unfold _get_all_user_favorites.
  assert (Hgen : ∀ acc, NoDup acc.*1 -> NoDup (fold_left add_user_favorites docs acc).*1).
  { induction docs as [|doc docs IH]; simpl; intros acc Hacc; [done|].
    apply IH. unfold add_user_favorites.
    destruct (doc_favourites doc) as [[|fav favs]|]; try done.
    destruct (decide _); [done|]. by apply dict_set_keys. }
  apply Hgen. constructor.
Qed.

Lemma similarities_elem target_user_id target_user_favorites all u s :
  (u, s) ∈ similarities target_user_id target_user_favorites all ->
  target_user_id ≠ Some u
  ∧ ∃ favs, (u, favs) ∈ all
      ∧ s = _calculate_jaccard_similarity target_user_favorites favs
      ∧ (0 < s)%Q.
Proof.
  induction all as [|[o favs] all IH]; simpl; [by intros ?%elem_of_nil|].
  intros Hin.
  assert (Htail : (u, s) ∈ similarities target_user_id target_user_favorites all ->
                  target_user_id ≠ Some u
                  ∧ ∃ favs0, (u, favs0) ∈ (o, favs) :: all
                      ∧ s = _calculate_jaccard_similarity target_user_favorites favs0
                      ∧ (0 < s)%Q).
  { intros (? & favs0 & ? & ? & ?)%IH. split; [done|].
    exists favs0. split; [by right|done]. }
  destruct (decide (target_user_id = Some o)) as [|Hne]; [by apply Htail|].
  destruct (Qltb 0 _) eqn:Hpos; [|by apply Htail].
  apply elem_of_cons in Hin as [Heq|Hin]; [|by apply Htail].
  inversion Heq; subst. split; [done|].
  exists favs. split; [by left|]. split; [done|].
  unfold Qltb in Hpos. rewrite Qlt_alt. by destruct (_ ?= _)%Q.
Qed.

(** Claim C6.  The neighbour set that the collaborative scorer builds from
    the profile and the user documents never holds the target user's own
    uid, holds only users whose Jaccard similarity to the target's
    favourites is strictly positive, and has at most 50 entries. *)
Theorem neighbor_set_invariants (profile : user_profile) (docs : list user_doc) :
  let target_user_favorites := favourite_place_ids (favourites profile) in
  let all_user_favorites := _get_all_user_favorites docs in
  let neighbors := top_neighbors (uid profile) target_user_favorites all_user_favorites in
  (∀ u s, (u, s) ∈ neighbors ->
     uid profile ≠ Some u
     ∧ ∃ favs, dict_get u all_user_favorites = Some favs
         ∧ s = _calculate_jaccard_similarity target_user_favorites favs
         ∧ (0 < s)%Q)
  ∧ (length neighbors <= 50)%nat.
Proof.
  intros target_user_favorites all_user_favorites neighbors. split.
  - intros u s Hin. unfold neighbors, top_neighbors in Hin.
    apply dict_of_pairs_elem, elem_of_take in Hin as (i & Hin & _).
    apply list_elem_of_lookup_2 in Hin. rewrite sorted_desc_perm in Hin.
    apply similarities_elem in Hin as (Hne & favs & Hfavs & Hs & Hpos).
    split; [done|]. exists favs. split; [|done].
    apply dict_get_elem; [apply all_user_favorites_keys|done].
  - unfold neighbors, top_neighbors.
    etrans; [apply dict_of_pairs_length|]. rewrite length_take. lia.
Qed.


Lemma normalized_nil max_possible_score :
  is_zero (normalized_score (Qsum []) max_possible_score).
Proof.
  unfold normalized_score, is_zero. destruct (Qltb 0 _); simpl; [|reflexivity].
  unfold Qsum; simpl. unfold Qdiv. apply Qmult_0_l.
Qed.

Lemma add_like_none target sim likes p s :
  s ∈ target -> likes !! s = None -> add_like target sim likes p !! s = None.
Proof.
  intros Hs Hnone. unfold add_like. destruct (decide (p ∈ target)); [done|].
  rewrite lookup_insert_ne; [done|]. by intros ->.
Qed.

Lemma neighbor_likes_favourite target all neighbors s :
  s ∈ target -> neighbor_likes target all neighbors !! s = None.
Proof.
  intros Hs. unfold neighbor_likes.
  assert (Hgen : ∀ likes : gmap string (list Q), likes !! s = None ->
            fold_left (add_neighbor target all) neighbors likes !! s = None).
  { induction neighbors as [|nb neighbors IH]; simpl; intros likes Hl; [done|].
    apply IH. unfold add_neighbor.
    generalize (elements (default ∅ (dict_get nb.1 all))). intros ps.
    revert likes Hl. induction ps as [|p ps IHp]; simpl; intros likes Hl; [done|].
    apply IHp. by apply add_like_none. }
  apply Hgen. apply lookup_empty.
Qed.

Lemma zero_scores_spec data :
  (∀ r, r ∈ data -> get_truthy r "place_id" = true ->
     <["score" := VFloat (Fin 0)]> r ∈ zero_scores data)
  ∧ (∀ r', r' ∈ zero_scores data ->
     ∃ r, r ∈ data ∧ get_truthy r "place_id" = true
          ∧ r' = <["score" := VFloat (Fin 0)]> r).
Proof.
  induction data as [|r0 data [IH1 IH2]]; simpl.
  - split; [by intros r ?%elem_of_nil | by intros r ?%elem_of_nil].
  - split.
    + intros r [->|Hin]%elem_of_cons Ht.
      * rewrite Ht. by left.
      * destruct (get_truthy r0 _); [right|]; by apply IH1.
    + intros r' Hin. destruct (get_truthy r0 "place_id") eqn:Ht.
      * apply elem_of_cons in Hin as [->|Hin].
        -- exists r0. split; [by left|done].
        -- destruct (IH2 _ Hin) as (r & ? & ? & ?). exists r. split; [by right|done].
      * destruct (IH2 _ Hin) as (r & ? & ? & ?). exists r. split; [by right|done].
Qed.

Lemma score_candidates_spec likes max_possible_score data out :
  score_candidates likes max_possible_score data = Ok out ->
  (∀ r, r ∈ data -> get_truthy r "place_id" = true ->
     ∃ likes_r, likes_get likes (default VNone (r !! "place_id")) = Ok likes_r
       ∧ <["score" := normalized_score (Qsum likes_r) max_possible_score]> r ∈ out)
  ∧ (∀ r', r' ∈ out ->
     ∃ r likes_r, r ∈ data ∧ get_truthy r "place_id" = true
       ∧ likes_get likes (default VNone (r !! "place_id")) = Ok likes_r
       ∧ r' = <["score" := normalized_score (Qsum likes_r) max_possible_score]> r).
Proof.
  revert out. induction data as [|r0 data IH]; simpl; intros out Hout.
  - injection Hout as <-.
    split; [by intros r ?%elem_of_nil | by intros r ?%elem_of_nil].
  - destruct (get_truthy r0 "place_id") eqn:Ht.
    + destruct (likes_get likes _) as [likes_r|] eqn:Hl; [|done]. simpl in Hout.
      destruct (score_candidates likes max_possible_score data) as [recs|] eqn:Hrec;
        [|done].
      simpl in Hout. injection Hout as <-.
      destruct (IH _ eq_refl) as [IH1 IH2]. split.
      * intros r [->|Hin]%elem_of_cons Hr.
        -- exists likes_r. split; [done|]. by left.
        -- destruct (IH1 _ Hin Hr) as (l & ? & ?). exists l. split; [done|by right].
      * intros r' [->|Hin]%elem_of_cons.
        -- exists r0, likes_r. split; [by left|done].
        -- destruct (IH2 _ Hin) as (r & l & ? & ? & ? & ?).
           exists r, l. split; [by right|done].
    + destruct (IH _ Hout) as [IH1 IH2]. split.
      * intros r [->|Hin]%elem_of_cons Hr; [congruence|by apply IH1].
      * intros r' Hin. destruct (IH2 _ Hin) as (r & l & ? & ? & ? & ?).
        exists r, l. split; [by right|done].
Qed.

(** The scorer returns when Firestore answers and no place id is a list. *)
Lemma score_candidates_returns likes max_possible_score data :
  Forall (fun r : pydict => hashable (default VNone (r !! "place_id")) = true) data ->
  ∃ out, score_candidates likes max_possible_score data = Ok out.
Proof.
  induction 1 as [|r data Hr _ [out IH]]; [by eexists|]. cbn [score_candidates].
  destruct (get_truthy r "place_id"); [|by eexists].
  destruct (default VNone (r !! "place_id")); try done; cbn [likes_get];
    unfold mbind, result_bind, Py.bind; rewrite IH; by eexists.
Qed.

Lemma collaborative_scorer_returns users_stream profile data :
  is_ok users_stream = true ->
  Forall (fun r : pydict => hashable (default VNone (r !! "place_id")) = true) data ->
  ∃ out, get_collaborative_filtering_recommendations users_stream profile data = Ok out.
Proof.
  intros Hstream Hdata. unfold get_collaborative_filtering_recommendations.
  destruct data as [|r0 data]; [by eexists|]. set (l := r0 :: data) in *.
  destruct (decide _); [by eexists|].
  destruct users_stream as [docs|]; [|done]. unfold mbind, result_bind, Py.bind.
  destruct (top_neighbors _ _ _); [by eexists|].
  by apply score_candidates_returns.
Qed.

(** What the scorer does with one candidate, whichever exit it takes. *)
Lemma collaborative_output users_stream profile data out :
  get_collaborative_filtering_recommendations users_stream profile data = Ok out ->
  (∀ r, r ∈ data -> get_truthy r "place_id" = true ->
     ∃ v, <["score" := v]> r ∈ out
       ∧ ∀ s, r !! "place_id" = Some (VStr s) ->
              s ∈ favourite_place_ids (favourites profile) -> is_zero v)
  ∧ (∀ r', r' ∈ out ->
     ∃ r v, r ∈ data ∧ get_truthy r "place_id" = true ∧ r' = <["score" := v]> r
       ∧ ∀ s, r !! "place_id" = Some (VStr s) ->
              s ∈ favourite_place_ids (favourites profile) -> is_zero v).
Proof.
  assert (Hzero : is_zero (VFloat (Fin 0))) by reflexivity.
  assert (Hz : ∀ l, Ok (zero_scores l) = Ok out ->
    (∀ r, r ∈ l -> get_truthy r "place_id" = true ->
       ∃ v, <["score" := v]> r ∈ out
         ∧ ∀ s, r !! "place_id" = Some (VStr s) ->
                s ∈ favourite_place_ids (favourites profile) -> is_zero v)
    ∧ (∀ r', r' ∈ out ->
       ∃ r v, r ∈ l ∧ get_truthy r "place_id" = true ∧ r' = <["score" := v]> r
         ∧ ∀ s, r !! "place_id" = Some (VStr s) ->
                s ∈ favourite_place_ids (favourites profile) -> is_zero v)).
  { intros l [= <-]. destruct (zero_scores_spec l) as [Z1 Z2]. split.
    - intros r Hin Ht. exists (VFloat (Fin 0)). split; [by apply Z1|done].
    - intros r' (r & ? & ? & ->)%Z2. exists r, (VFloat (Fin 0)). done. }
  unfold get_collaborative_filtering_recommendations.
  destruct data as [|r0 data]; [|set (l := r0 :: data)].
  { intros [= <-]. split; [by intros r ?%elem_of_nil | by intros r ?%elem_of_nil]. }
  destruct (decide (favourite_place_ids (favourites profile) = ∅)); [exact (Hz l)|].
  destruct users_stream as [docs|]; [|done].
  unfold mbind, result_bind, Py.bind.
  set (all := _get_all_user_favorites docs).
  set (target := favourite_place_ids (favourites profile)).
  destruct (top_neighbors (uid profile) target all) as [|nb nbs] eqn:Hnb; [exact (Hz l)|].
  intros [S1 S2]%score_candidates_spec.
  assert (Hfav : ∀ (r : pydict) likes_r s,
    likes_get (neighbor_likes target all (nb :: nbs)) (default VNone (r !! "place_id"))
      = Ok likes_r ->
    r !! "place_id" = Some (VStr s) -> s ∈ target ->
    is_zero (normalized_score (Qsum likes_r) (Qsum ((nb :: nbs).*2)))).
  { intros r likes_r s Hl Hp Hs. rewrite Hp in Hl. simpl in Hl.
    rewrite (neighbor_likes_favourite target all (nb :: nbs) s Hs) in Hl.
    injection Hl as <-. apply normalized_nil. }
  split.
  - intros r Hin Ht. destruct (S1 _ Hin Ht) as (likes_r & Hl & Hout).
    eexists. split; [exact Hout|]. intros s. by apply Hfav.
  - intros r' (r & likes_r & ? & ? & Hl & ->)%S2.
    exists r. eexists. do 3 (split; [done|]). intros s. by apply Hfav.
Qed.

(** Claim C10.  A candidate whose place id is among the target user's
    favourites gets the collaborative score 0, on every exit of the scorer:
    similarity weights are only credited to places the user has not
    favourited yet. *)
Theorem favourited_candidates_score_zero users_stream profile data out :
  get_collaborative_filtering_recommendations users_stream profile data = Ok out ->
  (∀ r s, r ∈ data -> r !! "place_id" = Some (VStr s) -> s ≠ "" ->
     s ∈ favourite_place_ids (favourites profile) ->
     ∃ v, <["score" := v]> r ∈ out ∧ is_zero v)
  ∧ (∀ r' s, r' ∈ out -> r' !! "place_id" = Some (VStr s) ->
     s ∈ favourite_place_ids (favourites profile) ->
     ∃ v, r' !! "score" = Some v ∧ is_zero v).
Proof.
  intros [O1 O2]%collaborative_output. split.
  - intros r s Hin Hp Hne Hs.
    assert (Ht : get_truthy r "place_id" = true).
    { unfold get_truthy. rewrite Hp. simpl. by destruct (String.eqb_spec s ""). }
    destruct (O1 _ Hin Ht) as (v & ? & Hv). exists v. split; [done|]. by apply (Hv s).
  - intros r' s (r & v & _ & _ & -> & Hv)%O2 Hp Hs.
    rewrite lookup_insert_ne in Hp by done.
    exists v. split; [by rewrite lookup_insert_eq|]. by apply (Hv s).
Qed.

End CollaborativeFacts.

Module ContentFacts.
Import ContentBased Spec PyFacts.

Lemma scoring_loop_lookup columns prefs restr tf idx rows i :
  scoring_loop columns prefs restr tf idx rows !! i
  = scored columns prefs restr (tf (idx + i)%nat) <$> rows !! i.
Proof.
  revert idx i. induction rows as [|rw rows IH]; intros idx i; simpl; [done|].
  destruct i as [|i]; simpl.
  - by rewrite Nat.add_0_r.
  - rewrite IH. by replace (S idx + i)%nat with (idx + S i)%nat by lia.
Qed.

Lemma scoring_loop_length columns prefs restr tf idx rows :
  length (scoring_loop columns prefs restr tf idx rows) = length rows.
Proof. revert idx. induction rows; intros idx; simpl; [done|]. by rewrite IHrows. Qed.

Lemma scored_annotates columns prefs restr tf rw :
  annotates (source rw) (scored columns prefs restr tf rw).
Proof.
  intros k v Hk Hv. unfold scored, to_dict, rewritten_keys in *.
  rewrite !not_elem_of_cons in Hk. destruct Hk as (? & ? & ? & ? & ? & _).
  rewrite !lookup_insert_ne by done.
  apply lookup_union_Some_raw. by left.
Qed.

Lemma scored_score columns prefs restr tf rw :
  scored columns prefs restr tf rw !! "score"
  = Some (VFloat (score_row prefs restr tf rw)).
Proof. unfold scored. by rewrite lookup_insert_eq. Qed.

Lemma scored_categories columns prefs restr tf rw :
  scored columns prefs restr tf rw !! "categories"
  = Some (VList (VStr <$> r_categories rw)).
Proof.
  unfold scored, to_dict.
  rewrite lookup_insert_ne by done. rewrite lookup_insert_ne by done.
  by rewrite lookup_insert_eq.
Qed.

Lemma preprocess_row_spec med r rw :
  preprocess_row med r = Ok rw ->
  source rw = r
  ∧ categories_cell (cell r "categories") = Ok (r_categories rw)
  ∧ ∃ x, rating_cell (cell r "rating") = Ok x ∧ r_rating rw = fillna_float med x.
Proof.
  unfold preprocess_row.
  intros (summary & _ & (rating & Hr & (cats & Hc & (name & _ & [= <-])%bind_Ok)
            %bind_Ok)%bind_Ok)%bind_Ok.
  simpl. split; [done|]. split; [done|]. by exists rating.
Qed.

(** *** Ratings and their median *)

Lemma insert_asc_perm x l : insert_asc x l ≡ₚ x :: l.
Proof.
  induction l as [|y l IH]; simpl; [done|].
  destruct (flt y x); [|done]. rewrite IH. apply perm_swap.
Qed.

Lemma sort_asc_perm l : sort_asc l ≡ₚ l.
Proof.
  induction l as [|x l IH]; simpl; [done|].
  by rewrite insert_asc_perm, IH.
Qed.

Lemma filter_not_nan_in_range xs :
  Forall missing_or_in_range xs -> Forall in_range (List.filter not_nan xs).
Proof.
  induction 1 as [|x xs [->|Hx] _ IH]; simpl; [done|done|].
  destruct x; try done. by constructor.
Qed.

Lemma filter_not_nan_nonempty xs :
  Exists in_range xs -> List.filter not_nan xs ≠ [].
Proof.
  induction 1 as [x xs Hx|x xs _ IH]; simpl.
  - by destruct x.
  - by destruct (not_nan x).
Qed.

Lemma nth_in_range (s : list pyfloat) i :
  Forall in_range s -> (i < length s)%nat -> in_range (nth i s NaN).
Proof.
  intros Hs Hi. rewrite Forall_forall in Hs. apply Hs.
  apply list_elem_of_In, nth_In, Hi.
Qed.

Lemma median_in_range xs :
  Forall missing_or_in_range xs -> Exists in_range xs -> in_range (median xs).
Proof.
  intros Hall Hex. unfold median.
  pose proof (filter_not_nan_in_range xs Hall) as Hf.
  pose proof (filter_not_nan_nonempty xs Hex) as Hne.
  rewrite <- (sort_asc_perm (List.filter not_nan xs)) in Hf.
  assert (Hlen : length (sort_asc (List.filter not_nan xs)) ≠ 0%nat).
  { rewrite sort_asc_perm. by destruct (List.filter not_nan xs). }
  set (s := sort_asc (List.filter not_nan xs)) in *.
  destruct (Nat.eqb_spec (length s) 0); [done|].
  assert (Hhalf : (length s / 2 < length s)%nat)
    by (apply Nat.div_lt; lia).
  destruct (Nat.odd (length s)); [by apply nth_in_range|].
  pose proof (nth_in_range s (length s / 2 - 1) Hf ltac:(lia)) as Ha.
  pose proof (nth_in_range s (length s / 2) Hf Hhalf) as Hb.
  destruct (nth (length s / 2 - 1) s NaN) as [a| | |]; try done.
  destruct (nth (length s / 2) s NaN) as [b| | |]; try done.
  simpl in *. destruct Ha, Hb. split.
  - apply Qle_shift_div_l; [done|]. lra.
  - apply Qle_shift_div_r; [done|]. lra.
Qed.

Lemma fillna_in_range med x :
  in_range med -> missing_or_in_range x -> in_range (fillna_float med x).
Proof. intros Hm [->|Hx]; [done|]. by destruct x. Qed.

Lemma preference_score_bounds prefs cats :
  (0 <= preference_score prefs cats <= 1)%Q.
Proof.
  unfold preference_score. destruct (decide (prefs = ∅)) as [|Hne]; [done|].
  apply Qdiv_nat_bounds.
  - apply subseteq_size. set_solver.
  - by intros ?%size_empty_inv%leibniz_equiv.
Qed.

(** Every score of the loop lies between 0 and 1. *)
Lemma score_row_bounds prefs restr tf rw :
  (0 <= tf <= 1)%Q -> in_range (r_rating rw) ->
  ∃ q, score_row prefs restr tf rw = Fin q ∧ (0 <= q <= 1)%Q.
Proof.
  intros [Ht0 Ht1] Hr. unfold score_row.
  destruct (decide _); [|by exists 0.0%Q].
  destruct (r_rating rw) as [q| | |]; try done. simpl in Hr. destruct Hr as [Hq0 Hq5].
  pose proof (preference_score_bounds prefs (list_to_set (r_categories rw))) as [Hp0 Hp1].
  set (p := preference_score prefs (list_to_set (r_categories rw))) in *.
  clearbody p.
  assert (Hr : (0 <= q / 5.0 <= 1)%Q).
  { split; [apply Qle_shift_div_l|apply Qle_shift_div_r]; try done; lra. }
  cbn [fadd fmul fdiv_pos]. eexists. split; [reflexivity|].
  set (rs := (q / 5.0)%Q) in *. clearbody rs. destruct Hr as [Hr0 Hr1].
  destruct (Qltb 0 tf); split; lra.
Qed.

(** The gate. *)
Lemma score_row_gated prefs restr tf rw :
  ¬ restr ⊆ list_to_set (r_categories rw) ->
  score_row prefs restr tf rw = Fin 0.0.
Proof. intros Hg. unfold score_row. by destruct (decide _). Qed.

Section Facts.
Context `{Sklearn}.

(** How [all_recommendations] is put together when nothing raises. *)
Lemma all_recommendations_spec profile data recs :
  all_recommendations profile data = Ok recs ->
  ∃ ratings rows (tf : nat -> Q),
    Forall2 (fun r x => rating_cell (cell r "rating") = Ok x) data ratings
    ∧ Forall2 (fun r rw => preprocess_row (median ratings) r = Ok rw) data rows
    ∧ ((∀ i, tf i = 0%Q) ∨ ∃ m rows_fav, tf = cosine_to_mean m rows_fav)
    ∧ recs = scoring_loop (⋃ (dom <$> data) ∪ {["Processed_Content"]})
               (list_to_set (preferences profile)) (list_to_set (restrictions profile))
               tf 0 rows.
Proof.
  unfold all_recommendations.
  intros (_ & _ & (_ & _ & (ratings & Hratings & (_ & _ & (_ & _ &
    (rows & Hrows & (m & Hm & (_ & _ & [= <-])%bind_Ok)%bind_Ok)%bind_Ok)
    %bind_Ok)%bind_Ok)%bind_Ok)%bind_Ok)%bind_Ok.
  exists ratings, rows. eexists. split; [by apply mapM_Ok|].
  split; [by apply mapM_Ok|]. split; [|reflexivity].
  destruct (indices_where _ 0 data); [left; done|right; eauto].
Qed.

(** The scorer returns on every accepted input. *)
Lemma preprocess_row_is_ok med r : well_typed r -> is_ok (preprocess_row med r) = true.
Proof.
  intros (Hs & Hr & Hc & Hn). unfold preprocess_row.
  destruct (text_cell (cell r "editorial_summary")); [|done].
  destruct (rating_cell _); [|done]. destruct (categories_cell _); [|done].
  by destruct (text_cell (cell r "name")).
Qed.

Lemma content_scorer_returns profile data :
  accepted data -> ∃ out, get_content_based_recommendations profile data = Ok out.
Proof.
  intros (Hcols & Htyped & Hfit). unfold get_content_based_recommendations.
  destruct data as [|r0 data]; [by eexists|]. set (l := r0 :: data) in *.
  assert (∃ recs, all_recommendations profile l = Ok recs) as [recs ->]; [|by eexists].
  unfold all_recommendations, frame_columns in *.
  rewrite !Forall_cons in Hcols. destruct Hcols as (C1 & C2 & C3 & C4 & C5 & _).
  unfold require_column. rewrite C1, C2, C3, C4, C5.
  destruct (mapM_is_ok (fun r => rating_cell (cell r "rating")) l) as [ratings Hratings].
  { eapply Forall_impl; [exact Htyped|]. by intros r (_ & ? & _). }
  destruct (mapM_is_ok (preprocess_row (median ratings)) l) as [rows Hrows].
  { eapply Forall_impl; [exact Htyped|]. intros r. apply preprocess_row_is_ok. }
  specialize (Hfit _ _ Hrows).
  destruct (fit_transform (r_content <$> rows)) as [m|] eqn:Hm; [|done].
  rewrite !bind_Ok_l, Hratings, !bind_Ok_l, Hrows, bind_Ok_l, Hm, !bind_Ok_l.
  by eexists.
Qed.
(** What the scorer returns: the list of the loop, reordered. *)
Lemma content_output_spec profile data out :
  get_content_based_recommendations profile data = Ok out ->
  ∃ recs, out = sorted_desc (float_key "score") recs
    ∧ (data = [] ∧ recs = [] ∨ all_recommendations profile data = Ok recs).
Proof.
  unfold get_content_based_recommendations. destruct data as [|r data].
  - intros [= <-]. exists []. split; [done|by left].
  - intros (recs & Hrecs & [= <-])%bind_Ok. exists recs. split; [done|by right].
Qed.

(** Claim C1.  Whenever the restrictions of the profile are not a subset
    of a candidate's categories, the content scorer annotates that candidate
    with the score [0.0], whatever its preferences overlap, rating and text
    similarity are; and every record it returns whose categories fail the
    gate carries that score. *)
Theorem restriction_gate_scores_zero (profile : user_profile) (data out : list pydict) :
  get_content_based_recommendations profile data = Ok out ->
  let user_restrictions : gset string := list_to_set (restrictions profile) in
  (∀ r, r ∈ data ->
     ∃ cats, categories_cell (cell r "categories") = Ok cats
       ∧ (¬ user_restrictions ⊆ list_to_set cats ->
          ∃ rec, rec ∈ out ∧ annotates r rec
                 ∧ rec !! "score" = Some (VFloat (Fin 0.0))))
  ∧ (∀ rec, rec ∈ out ->
     ∃ cats, rec !! "categories" = Some (VList (VStr <$> cats))
       ∧ (¬ user_restrictions ⊆ list_to_set cats ->
          rec !! "score" = Some (VFloat (Fin 0.0)))).
Proof.
  intros (recs & -> & Hrecs)%content_output_spec user_restrictions.
  destruct Hrecs as [[-> ->]|Hrecs].
  { split; [by intros r ?%elem_of_nil | by intros r ?%elem_of_nil]. }
  apply all_recommendations_spec in Hrecs
    as (ratings & rows & tf & _ & Hrows & _ & ->).
  fold user_restrictions. split.
  - intros r (i & Hi)%list_elem_of_lookup_1.
    destruct (Forall2_lookup_l _ _ _ _ _ Hrows Hi) as (rw & Hrw & Hpre).
    apply preprocess_row_spec in Hpre as (Hsrc & Hcats & _).
    exists (r_categories rw). split; [done|]. intros Hgate.
    eexists. split; [|split].
    + rewrite sorted_desc_perm. eapply list_elem_of_lookup_2.
      rewrite scoring_loop_lookup, Hrw. reflexivity.
    + rewrite <- Hsrc. apply scored_annotates.
    + by rewrite scored_score, score_row_gated.
  - intros rec Hin. rewrite sorted_desc_perm in Hin.
    apply list_elem_of_lookup_1 in Hin as (i & Hi).
    rewrite scoring_loop_lookup in Hi.
    destruct (rows !! i) as [rw|]; [|done]. injection Hi as <-.
    exists (r_categories rw). split; [apply scored_categories|].
    intros Hgate. by rewrite scored_score, score_row_gated.
Qed.

(** What the loop appends for each candidate, under the data model's range
    of ratings and similarities. *)
Lemma all_recommendations_scores profile data recs :
  (∀ m rows idx, (0 <= cosine_to_mean m rows idx <= 1)%Q) ->
  Forall rating_ok data -> Exists rated data ->
  all_recommendations profile data = Ok recs ->
  Forall2 (fun r rec =>
      annotates r rec
      ∧ (∃ q, rec !! "score" = Some (VFloat (Fin q)) ∧ (0 <= q <= 1)%Q)
      ∧ ∀ cats, categories_cell (cell r "categories") = Ok cats ->
          ¬ (list_to_set (restrictions profile) : gset string) ⊆ list_to_set cats ->
          rec !! "score" = Some (VFloat (Fin 0.0)))
    data recs.
Proof.
  intros Hcos Hok Hrated
    (ratings & rows & tf & Hratings & Hrows & Htf & ->)%all_recommendations_spec.
  assert (Hmed : in_range (median ratings)).
  { apply median_in_range.
    - apply Forall_forall. intros x (i & Hi)%list_elem_of_lookup_1.
      destruct (Forall2_lookup_r _ _ _ _ _ Hratings Hi) as (r & Hr & Hx).
      rewrite Forall_forall in Hok. apply (Hok r); [|done].
      by eapply list_elem_of_lookup_2.
    - apply Exists_exists in Hrated as (r & (i & Hi)%list_elem_of_lookup_1 & x & Hx & Hin).
      destruct (Forall2_lookup_l _ _ _ _ _ Hratings Hi) as (x' & Hx' & Hrx).
      apply Exists_exists. exists x. split; [|done].
      eapply list_elem_of_lookup_2. rewrite Hx'. congruence. }
  assert (Htf' : ∀ i, (0 <= tf i <= 1)%Q).
  { intros i. destruct Htf as [Hz|(m & rf & ->)]; [|apply Hcos].
    rewrite Hz. split; [apply Qle_refl|discriminate]. }
  apply Forall2_same_length_lookup. split.
  { rewrite scoring_loop_length. by eapply Forall2_length. }
  intros i r rec Hr Hrec. rewrite scoring_loop_lookup in Hrec.
  destruct (Forall2_lookup_l _ _ _ _ _ Hrows Hr) as (rw & Hrw & Hpre).
  rewrite Hrw in Hrec. injection Hrec as <-.
  apply preprocess_row_spec in Hpre as (Hsrc & Hcats & x & Hx & Hfill).
  split; [|split].
  - rewrite <- Hsrc. apply scored_annotates.
  - rewrite scored_score.
    assert (Hrng : in_range (r_rating rw)).
    { rewrite Hfill. apply fillna_in_range; [done|].
      rewrite Forall_forall in Hok. apply (Hok r); [|done].
      by eapply list_elem_of_lookup_2. }
    match goal with
    | |- context [score_row ?p ?rs ?t rw] =>
        destruct (score_row_bounds p rs t rw (Htf' _) Hrng) as (q & -> & Hq)
    end.
    by exists q.
  - intros cats Hc Hgate. rewrite scored_score, score_row_gated; [done|].
    rewrite Hcats in Hc. by injection Hc as <-.
Qed.

(** Claim C4, as amended.  For ratings in the range of the data model and
    similarities between 0 and 1, the content scorer returns one annotated
    record per input candidate, each with a score between 0 and 1 (0 for
    the ones the gate rejects).  The returned list is not in input order:
    it is that list of records sorted by descending score, records with
    equal scores keeping their input order. *)
Theorem content_scorer_sorted_output (profile : user_profile) (data out : list pydict) :
  (∀ m rows idx, (0 <= cosine_to_mean m rows idx <= 1)%Q) ->
  Forall rating_ok data -> (data ≠ [] -> Exists rated data) ->
  get_content_based_recommendations profile data = Ok out ->
  ∃ recs,
    Forall2 (fun r rec =>
        annotates r rec
        ∧ (∃ q, rec !! "score" = Some (VFloat (Fin q)) ∧ (0 <= q <= 1)%Q)
        ∧ ∀ cats, categories_cell (cell r "categories") = Ok cats ->
            ¬ (list_to_set (restrictions profile) : gset string) ⊆ list_to_set cats ->
            rec !! "score" = Some (VFloat (Fin 0.0)))
      data recs
    ∧ out ≡ₚ recs
    ∧ StronglySorted (desc (float_key "score")) out
    ∧ ∀ q, List.filter (same_key (float_key "score") q) out
           = List.filter (same_key (float_key "score") q) recs.
Proof.
  intros Hcos Hok Hrated (recs & -> & Hrecs)%content_output_spec.
  exists recs.
  assert (HF : Forall2 (fun r rec =>
        annotates r rec
        ∧ (∃ q, rec !! "score" = Some (VFloat (Fin q)) ∧ (0 <= q <= 1)%Q)
        ∧ ∀ cats, categories_cell (cell r "categories") = Ok cats ->
            ¬ (list_to_set (restrictions profile) : gset string) ⊆ list_to_set cats ->
            rec !! "score" = Some (VFloat (Fin 0.0))) data recs).
  { destruct Hrecs as [[-> ->]|Hrecs]; [constructor|].
    apply all_recommendations_scores; [done|done| |done].
    apply Hrated. intros ->. unfold all_recommendations in Hrecs. done. }
  assert (Hfin : Forall (finite_key (float_key "score")) recs).
  { apply Forall_forall. intros rec (i & Hi)%list_elem_of_lookup_1.
    destruct (Forall2_lookup_r _ _ _ _ _ HF Hi) as (r & _ & _ & (q & Hq & _) & _).
    unfold finite_key, float_key. by rewrite Hq. }
  split; [done|]. split; [apply sorted_desc_perm|].
  split; [by apply sorted_desc_sorted|].
  intros q. by apply sorted_desc_stable.
Qed.

End Facts.
End ContentFacts.

Module HybridFacts.
Import ContentBased Collaborative ReinforcementLearning Constants Hybrid Spec PyFacts.

Lemma key_eqb_str s k : key_eqb (VStr s) k = true <-> k = VStr s.
Proof.
  destruct k as [| | |f| |]; simpl; try (by split); try (by destruct f).
  split.
  - by intros ->%String.eqb_eq.
  - intros [= ->]. apply String.eqb_refl.
Qed.

Lemma key_eqb_str_r s k : key_eqb k (VStr s) = true <-> k = VStr s.
Proof.
  destruct k as [| | |f| |]; simpl; try (by split); try (by destruct f).
  split.
  - by intros ->%String.eqb_eq.
  - intros [= ->]. apply String.eqb_refl.
Qed.

Lemma key_eqb_str_refl s : key_eqb (VStr s) (VStr s) = true.
Proof. by apply key_eqb_str. Qed.

Lemma vdict_get_set_str s k v d :
  vdict_get (VStr s) (vdict_set k v d)
  = if key_eqb (VStr s) k then Some v else vdict_get (VStr s) d.
Proof.
  induction d as [|[k' v'] d IH]; cbn [vdict_get vdict_set]; [done|].
  destruct (key_eqb k k') eqn:Hkk; cbn [vdict_get vdict_set]; rewrite ?IH;
    destruct (key_eqb (VStr s) k') eqn:Hsk';
    destruct (key_eqb (VStr s) k) eqn:Hsk; try done; exfalso;
    repeat match goal with
    | H : key_eqb (VStr _) _ = true |- _ => apply key_eqb_str in H; subst
    | H : key_eqb _ (VStr _) = true |- _ => apply key_eqb_str_r in H; subst
    end;
    rewrite ?key_eqb_str_refl in *; done.
Qed.

Lemma has_place_id_true s (d : pydict) :
  has_place_id s d = true <-> d !! "place_id" = Some (VStr s).
Proof.
  unfold has_place_id. destruct (d !! "place_id") as [[| | | |s'|]|]; try (by split).
  rewrite String.eqb_eq. split; [by intros ->|by intros [= ->]].
Qed.

Lemma collab_scores_map_get collab_recs acc scores_map s :
  collab_scores_map collab_recs acc = Ok scores_map ->
  vdict_get (VStr s) scores_map
  = match last (List.filter (has_place_id s) collab_recs) with
    | Some d => Some (default (VInt 0) (d !! "score"))
    | None => vdict_get (VStr s) acc
    end.
Proof.
  revert acc. induction collab_recs as [|rec rest IH]; intros acc;
    cbn [collab_scores_map List.filter].
  - by intros [= <-].
  - intros Hmap.
    destruct (has_place_id s rec) eqn:Hs.
    + apply has_place_id_true in Hs. rewrite Hs in Hmap. cbn [hashable] in Hmap.
      rewrite (IH _ Hmap), last_cons.
      destruct (last _); [done|].
      by rewrite vdict_get_set_str, key_eqb_str_refl.
    + destruct (rec !! "place_id") as [place_id|] eqn:Hp; [|by apply IH].
      destruct (hashable place_id); [|done].
      rewrite (IH _ Hmap). destruct (last _); [done|].
      rewrite vdict_get_set_str.
      destruct (key_eqb (VStr s) place_id) eqn:Hk; [|done].
      apply key_eqb_str in Hk as ->.
      apply (proj2 (has_place_id_true s rec)) in Hp. congruence.
Qed.

Lemma collab_score_for_absent collab_recs s :
  (∀ d, d ∈ collab_recs -> d !! "place_id" ≠ Some (VStr s)) ->
  collab_score_for collab_recs s = VInt 0.
Proof.
  intros Habs. unfold collab_score_for.
  replace (List.filter (has_place_id s) collab_recs) with (@nil pydict); [done|].
  symmetry. induction collab_recs as [|d ds IH]; [done|]. cbn [List.filter].
  destruct (has_place_id s d) eqn:Hd.
  - apply has_place_id_true in Hd. exfalso. apply (Habs d); [by left|done].
  - apply IH. intros d' Hd'. apply Habs. by right.
Qed.

(** *** The heap *)

Lemma read_write w l d l' :
  read (write w l d) l' = if decide (l = l' ∧ l < length (heap w))%nat then d else read w l'.
Proof.
  unfold read, write. cbn [heap].
  destruct (decide (l = l')) as [->|Hne].
  - destruct (decide (l' < length (heap w))%nat) as [Hlt|Hge].
    + rewrite list_lookup_insert_eq by done. by rewrite decide_True.
    + rewrite list_insert_ge by lia. rewrite decide_False by tauto. done.
  - rewrite list_lookup_insert_ne by done. rewrite decide_False by tauto. done.
Qed.

Lemma heap_write_ne w l d l' :
  l ≠ l' -> heap (write w l d) !! l' = heap w !! l'.
Proof. intros Hne. unfold write. cbn [heap]. by rewrite list_lookup_insert_ne. Qed.

Lemma heap_write_length w l d : length (heap (write w l d)) = length (heap w).
Proof. unfold write. cbn [heap]. apply length_insert. Qed.

Lemma frame_refl recs w : frame recs w w.
Proof. done. Qed.

Lemma frame_write_cons l recs d w w' :
  frame recs (write w l d) w' -> frame (l :: recs) w w'.
Proof.
  intros (Hp & Hlen & Hfr). split; [done|]. split.
  - by rewrite Hlen, heap_write_length.
  - intros l' [Hne Hnin]%not_elem_of_cons. rewrite Hfr by done.
    by apply heap_write_ne.
Qed.

Lemma frame_skip_cons l recs w w' : frame recs w w' -> frame (l :: recs) w w'.
Proof.
  intros (Hp & Hlen & Hfr). split; [done|]. split; [done|].
  intros l' [_ Hnin]%not_elem_of_cons. by apply Hfr.
Qed.

Lemma frame_read recs w w' l : frame recs w w' -> l ∉ recs -> read w' l = read w l.
Proof. intros (_ & _ & Hfr) Hl. unfold read. by rewrite Hfr. Qed.

(** *** The combiner *)

Lemma st_bind_Ok {A B} (m : M A) (f : A -> M B) w b w' :
  st_bind m f w = (Ok b, w') -> ∃ a w1, m w = (Ok a, w1) ∧ f a w1 = (Ok b, w').
Proof.
  unfold st_bind. destruct (m w) as [[a|e] w1]; [|done].
  intros Hf. by exists a, w1.
Qed.

(** One turn of the loop, written out. *)
Lemma combine_loop_cons scores_map wts l recs w :
  combine_loop scores_map wts (l :: recs) w
  = let rec := read w l in
    if get_truthy rec "place_id" then
      if hashable (default VNone (rec !! "place_id")) then
        match hybrid_score wts (default (VInt 0) (rec !! "score"))
                (default (VInt 0)
                   (vdict_get (default VNone (rec !! "place_id")) scores_map)) with
        | Ok score =>
            let w1 := write w l (delete "score" (<["final_score" := VFloat score]> rec)) in
            match combine_loop scores_map wts recs w1 with
            | (Ok final, w2) => (Ok (l :: final), w2)
            | (Raise e, w2) => (Raise e, w2)
            end
        | Raise e => (Raise e, w)
        end
      else (Raise TypeError, w)
    else combine_loop scores_map wts recs w.
Proof.
  cbn [combine_loop]. unfold st_bind, st_read, st_lift, st_write, st_ret. cbv zeta.
  destruct (get_truthy _ _); [|done]. destruct (hashable _); [|done].
  by destruct (hybrid_score _ _ _).
Qed.

(** The loop writes to the dicts of [recs] only, whether it ends or raises. *)
Lemma combine_loop_frame scores_map wts recs w :
  frame recs w (combine_loop scores_map wts recs w).2
  ∧ ∀ out, (combine_loop scores_map wts recs w).1 = Ok out -> out ⊆ recs.
Proof.
  revert w. induction recs as [|l recs IH]; intros w.
  - split; [done|]. by intros out [= <-].
  - rewrite combine_loop_cons. cbv zeta.
    destruct (get_truthy (read w l) "place_id"); cycle 1.
    { destruct (IH w) as [Hfr Hsub]. split; [by apply frame_skip_cons|].
      intros out Hout. specialize (Hsub out Hout). set_solver. }
    destruct (hashable _); [|split; [apply frame_refl|done]].
    destruct (hybrid_score _ _ _) as [score|]; [|split; [apply frame_refl|done]].
    set (w1 := write w l _). destruct (IH w1) as [Hfr Hsub].
    destruct (combine_loop scores_map wts recs w1) as [[final|e] w2]; cbn [fst snd] in *.
    + split; [by eapply frame_write_cons|]. intros out [= <-].
      specialize (Hsub final eq_refl). set_solver.
    + split; [by eapply frame_write_cons|done].
Qed.

Lemma combine_loop_spec scores_map wts recs w out w' :
  NoDup recs -> Forall (fun l => l < length (heap w))%nat recs ->
  combine_loop scores_map wts recs w = (Ok out, w') ->
  out = List.filter (fun l => get_truthy (read w l) "place_id") recs
  ∧ ∀ l, l ∈ out -> combined scores_map wts (read w l) (read w' l).
Proof.
  revert w out w'. induction recs as [|l recs IH]; intros w out w' Hnd Hall.
  - intros [= <- <-]. split; [done|]. by intros l ?%elem_of_nil.
  - apply NoDup_cons in Hnd as [Hl Hnd]. apply Forall_cons in Hall as [Hlt Hall].
    rewrite combine_loop_cons. cbv zeta. cbn [List.filter].
    destruct (get_truthy (read w l) "place_id") eqn:Ht; [|by apply IH].
    destruct (hashable _); [|done].
    destruct (hybrid_score _ _ _) as [score|] eqn:Hscore; [|done].
    set (d := delete "score" (<["final_score" := VFloat score]> (read w l))) in *.
    pose proof (combine_loop_frame scores_map wts recs (write w l d)) as [Hfr _].
    destruct (combine_loop scores_map wts recs (write w l d)) as [[final|e] w2] eqn:Hloop;
      [|done].
    intros [= <- <-]. cbn [snd] in Hfr.
    apply IH in Hloop as (-> & Hout); [|done|].
    2:{ eapply Forall_impl; [exact Hall|]. intros l'. by rewrite heap_write_length. }
    assert (Hsame : ∀ l', l' ∈ recs -> read (write w l d) l' = read w l').
    { intros l' Hl'. rewrite read_write. rewrite decide_False; [done|].
      intros [-> _]. done. }
    split.
    + f_equal. apply filter_ext_in. intros l' Hl'%list_elem_of_In.
      by rewrite Hsame.
    + intros l' [->|Hl']%elem_of_cons.
      * rewrite (frame_read _ _ _ _ Hfr Hl), read_write, decide_True by done.
        by exists score.
      * pose proof Hl' as Hin. apply list_elem_of_In, filter_In in Hin as [Hin _].
        apply list_elem_of_In in Hin.
        rewrite <- (Hsame l' Hin). by apply Hout.
Qed.

Lemma collab_score_for_get collab_recs scores_map s :
  collab_scores_map collab_recs [] = Ok scores_map ->
  default (VInt 0) (vdict_get (VStr s) scores_map) = collab_score_for collab_recs s.
Proof.
  intros Hmap. rewrite (collab_scores_map_get _ _ _ s Hmap).
  unfold collab_score_for. by destruct (last _).
Qed.

Lemma combined_lookup scores_map wts (rec rec' : pydict) :
  combined scores_map wts rec rec' ->
  rec' !! "place_id" = rec !! "place_id"
  ∧ ∃ c k, as_number (default (VInt 0) (rec !! "score")) = Ok c
      ∧ as_number (default (VInt 0)
                     (vdict_get (default VNone (rec !! "place_id")) scores_map)) = Ok k
      ∧ rec' !! "final_score"
        = Some (VFloat (fadd (fmul c (Fin (content wts))) (fmul k (Fin (collab wts))))).
Proof.
  intros (score & Hscore & ->). split.
  - rewrite lookup_delete_ne by done. by rewrite lookup_insert_ne.
  - unfold hybrid_score in Hscore.
    apply bind_Ok in Hscore as (c & Hc & (k & Hk & [= <-])%bind_Ok).
    exists c, k. split; [done|]. split; [done|].
    rewrite lookup_delete_ne by done. by rewrite lookup_insert_eq.
Qed.

(** Claim C2.  For every dict of the content-scored list with a place id,
    the combiner sets [final_score] to content score times 0.6 plus
    collaborative score times 0.4, where the collaborative score is the one
    on record for that place id and 0 when the collaborative list has none.
    Its output holds dicts of the content list only, so a place id that
    occurs in the collaborative list alone never shows up in it. *)
Theorem hybrid_final_score (content_recs collab_recs : list loc) (w w' : world)
    (out : list loc) :
  NoDup content_recs ->
  Forall (fun l => l < length (heap w))%nat content_recs ->
  _combine_and_rank_recommendations content_recs collab_recs
    {| content := 0.6; collab := 0.4 |} w = (Ok out, w') ->
  (∀ l s, l ∈ content_recs -> read w l !! "place_id" = Some (VStr s) -> s ≠ "" ->
     ∃ c k,
       as_number (default (VInt 0) (read w l !! "score")) = Ok c
       ∧ as_number (collab_score_for (read w <$> collab_recs) s) = Ok k
       ∧ l ∈ out
       ∧ read w' l !! "final_score"
         = Some (VFloat (fadd (fmul c (Fin 0.6)) (fmul k (Fin 0.4)))))
  ∧ (∀ l, l ∈ out ->
       l ∈ content_recs ∧ read w' l !! "place_id" = read w l !! "place_id")
  ∧ (∀ s, (∀ l, l ∈ content_recs -> read w l !! "place_id" ≠ Some (VStr s)) ->
       ∀ l, l ∈ out -> read w' l !! "place_id" ≠ Some (VStr s)).
Proof.
  intros Hnd Hall. unfold _combine_and_rank_recommendations.
  intros (dicts & w0 & [= <- <-] & Hrest)%st_bind_Ok.
  apply st_bind_Ok in Hrest as (scores_map & w0 & Hmap & Hrest).
  injection Hmap as Hmap <-.
  apply st_bind_Ok in Hrest as (final & w1 & Hloop & [= <- <-]).
  apply combine_loop_spec in Hloop as (-> & Hout); [|done|done].
  assert (Hmem : ∀ l, l ∈ sorted_desc (fun l => float_key "final_score" (read w1 l))
                        (List.filter (fun l => get_truthy (read w l) "place_id") content_recs)
                 <-> l ∈ content_recs ∧ get_truthy (read w l) "place_id" = true).
  { intros l. rewrite sorted_desc_perm, list_elem_of_In, filter_In, <- list_elem_of_In.
    done. }
  assert (Hsnd : ∀ l, l ∈ sorted_desc (fun l => float_key "final_score" (read w1 l))
                        (List.filter (fun l => get_truthy (read w l) "place_id") content_recs)
                 -> l ∈ content_recs ∧ read w1 l !! "place_id" = read w l !! "place_id").
  { intros l Hl. pose proof Hl as [Hin Ht]%Hmem. split; [done|].
    rewrite sorted_desc_perm in Hl.
    by destruct (combined_lookup _ _ _ _ (Hout l Hl)) as [? _]. }
  split; [|split; [exact Hsnd|]].
  - intros l s Hin Hp Hs.
    assert (Ht : get_truthy (read w l) "place_id" = true).
    { unfold get_truthy. rewrite Hp. simpl. by destruct (String.eqb_spec s ""). }
    assert (Hl : l ∈ List.filter (fun l => get_truthy (read w l) "place_id") content_recs).
    { apply list_elem_of_In, filter_In. by rewrite <- list_elem_of_In. }
    destruct (combined_lookup _ _ _ _ (Hout l Hl)) as (_ & c & k & Hc & Hk & Hfinal).
    exists c, k. split; [done|]. split.
    { rewrite Hp in Hk. change (default VNone (Some (VStr s))) with (VStr s) in Hk.
      by rewrite (collab_score_for_get _ _ _ Hmap) in Hk. }
    split; [by apply Hmem|done].
  - intros s Habs l Hl. destruct (Hsnd l Hl) as [Hin ->]. by apply Habs.
Qed.

(** *** The caller's objects *)

Lemma keeps_refl n w : keeps n w w.
Proof. done. Qed.

Lemma keeps_trans n w1 w2 w3 : keeps n w1 w2 -> keeps n w2 w3 -> keeps n w1 w3.
Proof.
  intros [Hp1 Hh1] [Hp2 Hh2]. split; [congruence|].
  intros l Hl. by rewrite Hh2, Hh1.
Qed.

Lemma frame_keeps n recs w w' :
  Forall (fun l => n <= l)%nat recs -> frame recs w w' -> keeps n w w'.
Proof.
  intros Hrecs (Hp & _ & Hfr). split; [done|]. intros l Hl. apply Hfr.
  rewrite Forall_forall in Hrecs. intros Hin%Hrecs. lia.
Qed.

Lemma alloc_all_keeps n ds w :
  (n <= length (heap w))%nat ->
  keeps n w (alloc_all ds w).2
  ∧ (n <= length (heap (alloc_all ds w).2))%nat
  ∧ Forall (fun l => n <= l)%nat (alloc_all ds w).1.
Proof.
  intros Hn. unfold alloc_all. cbn [fst snd heap caller_profile]. split; [|split].
  - split; [done|]. intros l Hl. cbn [heap]. apply lookup_app_l. lia.
  - rewrite length_app. lia.
  - apply Forall_forall. intros l Hl%elem_of_seq. lia.
Qed.

Lemma rerank_loop_frame `{Builtins} `{Keras} `{Runtime} (rl_agent : DQNAgent) recs w :
  frame recs w (rerank_loop rl_agent recs w).2.
Proof.
  revert w. induction recs as [|l recs IH]; intros w; cbn [rerank_loop]; [done|].
  unfold st_bind, st_read, st_lift, st_write, st_ret.
  destruct (extract_rl_features _ _) as [st|]; [|apply frame_refl].
  destruct (get_q_values rl_agent st !! 0%nat) as [rl_score|]; [|apply frame_refl].
  destruct (as_number _) as [final_score|]; [|apply frame_refl].
  set (w1 := write w l _). specialize (IH w1).
  destruct (rerank_loop rl_agent recs w1) as [[reranked|e] w2]; cbn [snd] in *;
    by eapply frame_write_cons.
Qed.

Section Pipeline.
Context `{Sklearn} `{Builtins} `{Keras} `{Runtime}.
Variable users_stream : result (list user_doc).
Variable rl_models : gmap string network.

(** The dicts the content scorer returns are new, distinct objects. *)
Lemma content_scorer_new_dicts data w locs w' :
  content_scorer data w = (Ok locs, w') ->
  NoDup locs
  ∧ Forall (fun l => length (heap w) <= l < length (heap w'))%nat locs.
Proof.
  unfold content_scorer, st_bind, st_profile, st_read_all, st_lift, st_alloc_all.
  destruct (get_content_based_recommendations _ _) as [recs|]; [|done].
  unfold alloc_all. cbn [fst snd]. intros [= <- <-]. cbn [heap]. split.
  - apply NoDup_seq.
  - apply Forall_forall. intros l Hl%elem_of_seq. rewrite length_app. lia.
Qed.
Lemma content_scorer_keeps n data w :
  (n <= length (heap w))%nat ->
  keeps n w (content_scorer data w).2
  ∧ (n <= length (heap (content_scorer data w).2))%nat
  ∧ ∀ locs, (content_scorer data w).1 = Ok locs -> Forall (fun l => n <= l)%nat locs.
Proof.
  intros Hn. unfold content_scorer, st_bind, st_profile, st_read_all, st_lift, st_alloc_all.
  destruct (get_content_based_recommendations _ _) as [recs|]; cbn [fst snd].
  - destruct (alloc_all_keeps n recs w Hn) as (? & ? & ?).
    split; [done|]. split; [done|]. by intros locs [= <-].
  - split; [apply keeps_refl|]. split; [done|]. done.
Qed.

Lemma collaborative_scorer_keeps n data w :
  (n <= length (heap w))%nat ->
  keeps n w (collaborative_scorer users_stream data w).2
  ∧ (n <= length (heap (collaborative_scorer users_stream data w).2))%nat.
Proof.
  intros Hn.
  unfold collaborative_scorer, st_bind, st_profile, st_read_all, st_lift, st_alloc_all.
  destruct (get_collaborative_filtering_recommendations _ _ _) as [recs|]; cbn [fst snd].
  - destruct (alloc_all_keeps n recs w Hn) as (? & ? & ?). done.
  - split; [apply keeps_refl|done].
Qed.

Lemma combine_and_rank_frame content_recs collab_recs wts w :
  frame content_recs w (_combine_and_rank_recommendations content_recs collab_recs wts w).2
  ∧ ∀ out, (_combine_and_rank_recommendations content_recs collab_recs wts w).1 = Ok out ->
      out ⊆ content_recs.
Proof.
  unfold _combine_and_rank_recommendations, st_bind, st_read_all, st_lift, st_sorted.
  destruct (collab_scores_map _ _) as [scores_map|]; [|split; [apply frame_refl|done]].
  destruct (combine_loop_frame scores_map wts content_recs w) as [Hfr Hsub].
  destruct (combine_loop scores_map wts content_recs w) as [[final|e] w1];
    cbn [fst snd] in *; [|done].
  split; [done|]. intros out [= <-]. specialize (Hsub final eq_refl).
  intros l Hl. apply Hsub. by rewrite sorted_desc_perm in Hl.
Qed.

(** In the pipeline the combiner runs on the dicts that the content scorer
    has created: they are distinct objects and still in the heap after the
    collaborative scorer has run. *)
Lemma pipeline_content_dicts restaurants_data w content_recs w1 collab_recs w2 :
  content_scorer restaurants_data w = (Ok content_recs, w1) ->
  collaborative_scorer users_stream restaurants_data w1 = (Ok collab_recs, w2) ->
  NoDup content_recs
  ∧ Forall (fun l => l < length (heap w2))%nat content_recs
  ∧ ∀ l, l ∈ content_recs -> read w2 l = read w1 l.
Proof.
  intros Hcontent Hcollab.
  destruct (content_scorer_new_dicts _ _ _ _ Hcontent) as [Hnd Hfresh].
  destruct (collaborative_scorer_keeps (length (heap w1)) restaurants_data w1)
    as [[_ Hkeep] Hlen]; [done|].
  rewrite Hcollab in Hkeep, Hlen. cbn [snd] in Hkeep, Hlen.
  rewrite Forall_forall in Hfresh.
  split; [exact Hnd|]. split.
  - apply Forall_forall. intros l Hl%Hfresh. lia.
  - intros l Hl%Hfresh. unfold read. rewrite Hkeep; [done|lia].
Qed.

(** Claim C9.  The content scorer, the collaborative scorer and the whole
    hybrid pipeline leave the caller's profile and the caller's restaurant
    dicts as they found them, whether they return or raise: all annotations
    go to dicts that the scorers have created. *)
Theorem pipeline_leaves_caller_objects_unchanged (restaurants_data : list loc) (w : world) :
  unchanged w (content_scorer restaurants_data w).2
  ∧ unchanged w (collaborative_scorer users_stream restaurants_data w).2
  ∧ unchanged w (get_hybrid_recommendations users_stream rl_models restaurants_data w).2.
Proof.
  unfold unchanged. set (n := length (heap w)).
  split; [by apply content_scorer_keeps|].
  split; [by apply collaborative_scorer_keeps|].
  unfold get_hybrid_recommendations. unfold st_bind at 1, st_profile.
  unfold st_bind at 1.
  destruct (content_scorer_keeps n restaurants_data w) as (K1 & L1 & F1); [done|].
  destruct (content_scorer restaurants_data w) as [[content_recs|e] w1];
    cbn [fst snd] in *; [|done].
  specialize (F1 _ eq_refl).
  unfold st_bind at 1.
  destruct (collaborative_scorer_keeps n restaurants_data w1 L1) as (K2 & L2).
  destruct (collaborative_scorer users_stream restaurants_data w1) as [[collab_recs|e] w2];
    cbn [fst snd] in *; [|by eapply keeps_trans].
  unfold st_bind at 1.
  destruct (combine_and_rank_frame content_recs collab_recs
              {| content := 0.6; collab := 0.4 |} w2) as [Hfr Hsub].
  destruct (_combine_and_rank_recommendations content_recs collab_recs _ w2)
    as [[final|e] w3]; cbn [fst snd] in *.
  2:{ eapply keeps_trans; [exact K1|]. eapply keeps_trans; [exact K2|].
      by eapply frame_keeps. }
  specialize (Hsub _ eq_refl).
  assert (K3 : keeps n w2 w3) by (by eapply frame_keeps).
  unfold st_bind, st_sorted.
  set (agent := __init__ rl_models 35 4 _).
  pose proof (rerank_loop_frame agent (take (length final) final) w3) as Hfr4.
  assert (K4 : keeps n w3 (rerank_loop agent (take (length final) final) w3).2).
  { eapply frame_keeps; [|exact Hfr4]. rewrite firstn_all.
    apply Forall_forall. intros l Hl%Hsub. rewrite Forall_forall in F1. by apply F1. }
  destruct (rerank_loop agent (take (length final) final) w3) as [[reranked|e] w4];
    cbn [fst snd] in *;
    (eapply keeps_trans; [exact K1|]; eapply keeps_trans; [exact K2|];
     eapply keeps_trans; [exact K3|exact K4]).
Qed.

End Pipeline.

End HybridFacts.

Module FeatureFacts.
Import ReinforcementLearning Constants Views.

(** The lexicon, in the order that fixes the one-hot positions. *)
Lemma CATEGORY_KEYS_sorted :
  CATEGORY_KEYS
  = ["bar"; "beef-free"; "buffet"; "cafe"; "chinese"; "eastern"; "fast-food"; "halal";
     "indian"; "japanese"; "korean"; "malay"; "thai"; "vegan"; "vegetarian"; "western"].
Proof. vm_compute. reflexivity. Qed.

Section Facts.
Context `{Builtins}.

(** Whenever the extractor returns, the vector has 35 entries. *)
Lemma extract_rl_features_length restaurant all_categories features :
  extract_rl_features restaurant all_categories = Ok features ->
  length features = 35%nat.
Proof.
  unfold extract_rl_features.
  destruct (except_value_type _ (Fin (3.0 / 5.0))) as [rating|]; [|done].
  destruct (except_value_type _ (Fin (2 / 4.0))) as [price_level|]; [|done].
  destruct (except_value_type _ (Fin 0.0)) as [hybrid_score|]; [|done].
  destruct (py_set _) as [rec_cats|]; [|done].
  unfold mbind, result_bind, Py.bind. intros [= <-].
  cbn [length]. rewrite length_take, length_app, length_replicate. lia.
Qed.

(** The three sanitised entries when the keys are missing. *)
Lemma extract_rl_features_defaults (restaurant : pydict) all_categories features :
  restaurant !! "rating" = None ->
  restaurant !! "price_level" = None ->
  restaurant !! "final_score" = None ->
  extract_rl_features restaurant all_categories = Ok features ->
  ∃ one_hot, features = Fin (3.0 / 5.0) :: Fin (inject_Z 2 / 4.0) :: Fin 0.0 :: one_hot.
Proof.
  unfold extract_rl_features. intros -> -> ->. simpl.
  destruct (py_set _) as [rec_cats|]; [|done].
  unfold mbind, result_bind, Py.bind. intros [= <-].
  eexists. reflexivity.
Qed.

(** A rating that does not parse gives the default term [3.0 / 5.0]. *)
Lemma extract_rl_features_bad_rating (restaurant : pydict) s all_categories features :
  restaurant !! "rating" = Some (VStr s) ->
  float_of_string s = None ->
  extract_rl_features restaurant all_categories = Ok features ->
  features !! 0%nat = Some (Fin (3.0 / 5.0)).
Proof.
  unfold extract_rl_features. intros -> Hs. simpl. rewrite Hs. simpl.
  destruct (except_value_type _ (Fin (2 / 4.0))) as [price_level|]; [|done].
  destruct (except_value_type _ (Fin 0.0)) as [hybrid_score|]; [|done].
  destruct (py_set _) as [rec_cats|]; [|done].
  unfold mbind, result_bind, Py.bind. by intros [= <-].
Qed.

(** Claim C5, at the inputs where the code departs from it.  A
    [price_level] of infinity (the JSON number [1e999], or the string
    ["inf"] once parsed) makes [int(float(...))] raise [OverflowError], and
    a [categories] entry of [null] makes [set(...)] raise [TypeError];
    neither is caught, so the extractor raises instead of returning 35
    features. *)
Theorem extract_rl_features_raises (all_categories : list string) :
  extract_rl_features {["price_level" := VFloat PInf]} all_categories = Raise OverflowError
  ∧ extract_rl_features {["categories" := VNone]} all_categories = Raise TypeError.
Proof. split; reflexivity. Qed.

End Facts.
End FeatureFacts.

Module AgentFacts.
Import ReinforcementLearning Constants Views Spec PyFacts.

Section Facts.
Context `{Builtins} `{Keras} `{Runtime}.

Lemma init_constants rl_models n m u :
  constants_ok (__init__ rl_models n m u) ∧ epsilon (__init__ rl_models n m u) = 1.0%Q
  ∧ memory (__init__ rl_models n m u) = [].
Proof.
  unfold __init__, load_model_from_firestore, constants_ok.
  destruct firestore_bound; [|done]. simpl. by destruct (rl_models !! u).
Qed.

Lemma remember_fields agent e :
  epsilon (remember agent e) = epsilon agent
  ∧ epsilon_min (remember agent e) = epsilon_min agent
  ∧ epsilon_decay (remember agent e) = epsilon_decay agent
  ∧ model (remember agent e) = model agent.
Proof. done. Qed.

Lemma remember_memory agent e :
  memory (remember agent e)
  = if (2000 <? length (memory agent ++ [e]))%nat
    then drop 1 (memory agent ++ [e]) else memory agent ++ [e].
Proof. done. Qed.

Lemma replay_fields agent batch_size :
  epsilon_min (replay agent batch_size) = epsilon_min agent
  ∧ epsilon_decay (replay agent batch_size) = epsilon_decay agent
  ∧ memory (replay agent batch_size) = memory agent.
Proof.
  unfold replay. destruct (_ <? _)%nat; [done|]. simpl.
  by destruct (Qltb _ _).
Qed.

Lemma replay_epsilon agent batch_size :
  constants_ok agent -> (batch_size <= length (memory agent))%nat ->
  epsilon (replay agent batch_size) = decay_step (epsilon agent).
Proof.
  intros [Hmin Hdec] Hlen. unfold replay, decay_step.
  destruct (Nat.ltb_spec (length (memory agent)) batch_size); [lia|].
  simpl. rewrite Hmin, Hdec. by destruct (Qltb _ _).
Qed.

Lemma replay_iter_epsilon agent batch_size n :
  constants_ok agent -> (batch_size <= length (memory agent))%nat ->
  epsilon (Nat.iter n (fun a => replay a batch_size) agent)
  = Nat.iter n decay_step (epsilon agent)
  ∧ constants_ok (Nat.iter n (fun a => replay a batch_size) agent)
  ∧ memory (Nat.iter n (fun a => replay a batch_size) agent) = memory agent.
Proof.
  intros Hc Hlen. induction n as [|n (IHe & IHc & IHm)]; [done|].
  rewrite !Nat.iter_succ.
  destruct (replay_fields (Nat.iter n (fun a => replay a batch_size) agent) batch_size)
    as (Hmin & Hdec & Hmem).
  split; [|split].
  - rewrite replay_epsilon, IHe; [done|done|]. by rewrite IHm.
  - destruct IHc. unfold constants_ok. by rewrite Hmin, Hdec.
  - by rewrite Hmem.
Qed.

Lemma remember_iter agent e n :
  (n <= 2000)%nat -> memory agent = [] ->
  length (memory (Nat.iter n (fun a => remember a e) agent)) = n
  ∧ epsilon (Nat.iter n (fun a => remember a e) agent) = epsilon agent
  ∧ epsilon_min (Nat.iter n (fun a => remember a e) agent) = epsilon_min agent
  ∧ epsilon_decay (Nat.iter n (fun a => remember a e) agent) = epsilon_decay agent.
Proof.
  intros Hn Hm. induction n as [|n IH]; [by cbn; rewrite Hm|].
  destruct IH as (IHl & IHe & IHmin & IHdec); [lia|].
  rewrite Nat.iter_succ.
  split; [|by rewrite <- IHe, <- IHmin, <- IHdec].
  rewrite remember_memory.
  set (mem := memory (Nat.iter n (fun a => remember a e) agent)) in *.
  assert (Hlen : length (mem ++ [e]) = S n) by (rewrite length_app; simpl; lia).
  destruct (Nat.ltb_spec 2000 (length (mem ++ [e]))); [lia|exact Hlen].
Qed.

(** Claim C8, at the input where the code departs from it.  After 32
    stored experiences and 919 replay batches the exploration rate is below
    [epsilon_min]: the guard tests the rate before it multiplies, so the
    last decay step undershoots the floor. *)
Theorem epsilon_falls_below_epsilon_min (rl_models : gmap string network)
    (u : string) (e : experience) :
  let agent0 := Nat.iter 32 (fun a => remember a e) (__init__ rl_models 35 4 u) in
  let agent := Nat.iter 919 (fun a => replay a 32) agent0 in
  (epsilon agent < epsilon_min agent)%Q ∧ epsilon_min agent = 0.01%Q.
Proof.
  intros agent0 agent.
  destruct (init_constants rl_models 35 4 u) as ([Hmin Hdec] & Heps & Hmem).
  destruct (remember_iter (__init__ rl_models 35 4 u) e 32) as (Hl & He & Hm & Hd);
    [lia|done|].
  assert (Hc0 : constants_ok agent0).
  { unfold constants_ok, agent0. by rewrite Hm, Hd. }
  destruct (replay_iter_epsilon agent0 32 919 Hc0) as (He' & [Hmin' _] & _).
  { unfold agent0. by rewrite Hl. }
  unfold agent. rewrite He', Hmin'. split; [|done].
  unfold agent0. rewrite He, Heps.
  rewrite Qlt_alt. vm_compute. reflexivity.
Qed.

(** What the code does keep: the rate never leaves (0.00995, 1]. *)
Lemma decay_step_bounds eps :
  (0.01 * 0.995 < eps <= 1)%Q -> (0.01 * 0.995 < decay_step eps <= 1)%Q.
Proof.
  intros [Hlo Hhi]. unfold decay_step.
  destruct (Qltb 0.01 eps) eqn:Hlt; [|done].
  apply Qltb_lt in Hlt. split; lra.
Qed.

Lemma replay_keeps_epsilon_bounds agent batch_size :
  constants_ok agent ->
  (0.01 * 0.995 < epsilon agent <= 1)%Q ->
  (0.01 * 0.995 < epsilon (replay agent batch_size) <= 1)%Q.
Proof.
  intros Hc Hb.
  destruct (Nat.lt_ge_cases (length (memory agent)) batch_size) as [Hlt|Hge].
  - unfold replay. by destruct (Nat.ltb_spec (length (memory agent)) batch_size); [|lia].
  - rewrite replay_epsilon by done. by apply decay_step_bounds.
Qed.

(** *** Feedback never reaches the training step *)

Lemma init_model rl_models n m u :
  model (__init__ rl_models n m u)
  = if firestore_bound then default _build_model (rl_models !! u) else _build_model.
Proof.
  unfold __init__, load_model_from_firestore.
  destruct firestore_bound; [|done]. simpl. by destruct (rl_models !! u).
Qed.

Lemma init_user_id rl_models n m u : user_id (__init__ rl_models n m u) = u.
Proof.
  unfold __init__, load_model_from_firestore.
  destruct firestore_bound; [|done]. simpl. by destruct (rl_models !! u).
Qed.

(** The collection after a feedback request: untouched, or holding for that
    user the very network the agent was constructed with. *)
Lemma record_feedback_store rl_models data :
  (record_feedback rl_models data).1 = rl_models
  ∨ (record_feedback rl_models data).1
    = save_model_to_firestore rl_models (__init__ rl_models 35 4 (fb_user_id data)).
Proof.
  unfold record_feedback.
  destruct (negb _); [by left|].
  destruct (action_map _) as [action_index|]; [|by left].
  destruct (reward_map _) as [reward|]; [|by left].
  destruct (extract_rl_features _ _) as [st|]; [|by left].
  right. cbn [fst].
  destruct (init_constants rl_models 35 4 (fb_user_id data)) as (_ & _ & Hmem).
  set (agent := __init__ rl_models 35 4 (fb_user_id data)) in *.
  rewrite remember_memory, Hmem. cbn [app length Nat.ltb Nat.leb].
  done.
Qed.

Lemma record_feedback_reload rl_models data u :
  model (__init__ (record_feedback rl_models data).1 35 4 u)
  = model (__init__ rl_models 35 4 u).
Proof.
  destruct (record_feedback_store rl_models data) as [->| ->]; [done|].
  rewrite !init_model. unfold save_model_to_firestore.
  destruct firestore_bound eqn:Hb; [|done].
  rewrite init_user_id, init_model, Hb.
  destruct (decide (fb_user_id data = u)) as [->|Hne].
  - rewrite lookup_insert_eq. done.
  - by rewrite lookup_insert_ne.
Qed.

Lemma feedback_events_reload events rl_models u :
  model (__init__ (feedback_events rl_models events) 35 4 u)
  = model (__init__ rl_models 35 4 u).
Proof.
  unfold feedback_events. revert rl_models.
  induction events as [|data events IH]; intros rl_models; [done|].
  cbn [fold_left]. by rewrite IH, record_feedback_reload.
Qed.

(** Claim C3, at the input where the code departs from it.  A user sends
    at least 32 feedback events and then a [like]; the model reloaded for
    that user afterwards is the freshly initialised network.  Each request
    builds its agent with an empty memory, so the memory never exceeds the
    batch size and no training step runs before the model is saved. *)
Theorem feedback_leaves_model_untrained (restaurant : pydict) (u : string) (n : nat) :
  let like := {| fb_user_id := u; fb_restaurant_data := restaurant; fb_action := "like" |} in
  let rl_models := feedback_events ∅ (replicate (32 + n) like ++ [like]) in
  model (__init__ rl_models 35 4 u) = _build_model.
Proof.
  intros like rl_models. unfold rl_models.
  rewrite feedback_events_reload, init_model, lookup_empty.
  by destruct firestore_bound.
Qed.

End Facts.
End AgentFacts.

(** * The properties on the example data *)

Module Checks.
Import ContentBased Collaborative Hybrid Spec Examples.
Import PyFacts CollaborativeFacts ContentFacts HybridFacts.

(** C7 on the favourites {A} and {B}: disjoint, and {A} is not empty. *)
Lemma jaccard_similarity_properties_witness :
  ({["A"]} : gset string) ## {["B"]}
  ∧ ({["A"]} : gset string) ≠ ∅
  ∧ (_calculate_jaccard_similarity {["A"]} {["B"]} == 0)%Q
  ∧ (_calculate_jaccard_similarity {["A"]} {["A"]} == 1)%Q.
Proof.
  assert (Hdisjoint : ({["A"]} : gset string) ## {["B"]}).
  { intros x Ha%elem_of_singleton Hb%elem_of_singleton. congruence. }
  assert (Hne : ({["A"]} : gset string) ≠ ∅) by (vm_compute; discriminate).
  destruct (jaccard_similarity_properties {["A"]} {["B"]}) as (_ & _ & H0 & H1).
  split; [exact Hdisjoint|]. split; [exact Hne|].
  split; [exact (H0 Hdisjoint)|exact (H1 Hne)].
Defined.

(** C6 on the example documents: [u2] is a neighbour of [u1]. *)
Lemma neighbor_set_invariants_witness :
  uid demo_profile ≠ Some "u2"
  ∧ ∃ favs, dict_get "u2" (_get_all_user_favorites demo_docs) = Some favs
      ∧ (1 # 2)%Q = _calculate_jaccard_similarity
                      (favourite_place_ids (favourites demo_profile)) favs
      ∧ (0 < 1 # 2)%Q.
Proof.
  destruct (neighbor_set_invariants demo_profile demo_docs) as [Hin _].
  apply (Hin "u2" (1 # 2)%Q). vm_compute. left.
Defined.

(** C10 on the example data: the favourite [A] scores 0. *)
Lemma favourited_candidates_score_zero_witness :
  get_collaborative_filtering_recommendations (Ok demo_docs) demo_profile demo_restaurants
    = Ok demo_collab_out
  ∧ ∃ v, <["score" := v]> sushi_ya ∈ demo_collab_out ∧ is_zero v.
Proof.
  assert (Hrun : get_collaborative_filtering_recommendations (Ok demo_docs) demo_profile
                   demo_restaurants = Ok demo_collab_out)
    by (apply is_ok_eq; vm_compute; reflexivity).
  split; [exact Hrun|].
  destruct (favourited_candidates_score_zero _ _ _ _ Hrun) as [Hin _].
  apply (Hin sushi_ya "A").
  - right. left.
  - vm_compute. reflexivity.
  - discriminate.
  - vm_compute. reflexivity.
Defined.

(** C1 on the example data: no candidate is halal, so [A] scores 0. *)
Lemma restriction_gate_scores_zero_witness :
  get_content_based_recommendations (H := demo_sklearn) halal_profile demo_restaurants
    = Ok halal_content_out
  ∧ ∃ rec, rec ∈ halal_content_out ∧ annotates sushi_ya rec
           ∧ rec !! "score" = Some (VFloat (Fin 0.0)).
Proof.
  assert (Hrun : get_content_based_recommendations (H := demo_sklearn) halal_profile
                   demo_restaurants = Ok halal_content_out)
    by (apply is_ok_eq; vm_compute; reflexivity).
  split; [exact Hrun|].
  destruct (restriction_gate_scores_zero (H := demo_sklearn) _ _ _ Hrun) as [Hin _].
  destruct (Hin sushi_ya) as (cats & Hcats & Hgate); [right; left|].
  apply Hgate. vm_compute in Hcats. injection Hcats as <-.
  intros Hsub. specialize (Hsub "halal"). vm_compute in Hsub.
  by specialize (Hsub eq_refl).
Defined.

(** C4 as stated fails on the example data: the candidates go in as
    [B], [A] and come back as [A], [B]. *)
Lemma content_scorer_reorders_candidates :
  get_content_based_recommendations (H := demo_sklearn) demo_profile demo_restaurants
    = Ok demo_content_out
  ∧ place_ids demo_restaurants = [Some (VStr "B"); Some (VStr "A")]
  ∧ place_ids demo_content_out = [Some (VStr "A"); Some (VStr "B")]
  ∧ place_ids demo_content_out ≠ place_ids demo_restaurants.
Proof.
  split; [apply is_ok_eq; vm_compute; reflexivity|].
  split; [vm_compute; reflexivity|].
  split; [vm_compute; reflexivity|]. vm_compute. discriminate.
Qed.

Lemma demo_cosine_bounds m rows idx :
  (0 <= cosine_to_mean (Sklearn := demo_sklearn) m rows idx <= 1)%Q.
Proof. simpl. destruct (bool_decide _); split; discriminate. Qed.

(** C4 as amended, on the example data. *)
Lemma content_scorer_sorted_output_witness :
  get_content_based_recommendations (H := demo_sklearn) demo_profile demo_restaurants
    = Ok demo_content_out
  ∧ ∃ recs,
      Forall2 (fun r rec =>
          annotates r rec
          ∧ (∃ q, rec !! "score" = Some (VFloat (Fin q)) ∧ (0 <= q <= 1)%Q)
          ∧ ∀ cats, categories_cell (cell r "categories") = Ok cats ->
              ¬ (list_to_set (restrictions demo_profile) : gset string) ⊆ list_to_set cats ->
              rec !! "score" = Some (VFloat (Fin 0.0)))
        demo_restaurants recs
      ∧ demo_content_out ≡ₚ recs
      ∧ StronglySorted (desc (float_key "score")) demo_content_out
      ∧ ∀ q, List.filter (same_key (float_key "score") q) demo_content_out
             = List.filter (same_key (float_key "score") q) recs.
Proof.
  assert (Hrun : get_content_based_recommendations (H := demo_sklearn) demo_profile
                   demo_restaurants = Ok demo_content_out)
    by (apply is_ok_eq; vm_compute; reflexivity).
  split; [exact Hrun|].
  apply (content_scorer_sorted_output (H := demo_sklearn) demo_profile demo_restaurants).
  - exact demo_cosine_bounds.
  - unfold demo_restaurants.
    apply Forall_cons; split; [|apply Forall_cons; split; [|by apply Forall_nil]];
      intros x Hx; vm_compute in Hx; injection Hx as <-; right; split; discriminate.
  - intros _. unfold demo_restaurants. left. exists (Fin 3.0). split; [vm_compute; reflexivity|].
    split; discriminate.
  - exact Hrun.
Defined.

(** C2 on the example data: the dict at address 0 is [A]. *)
Lemma hybrid_final_score_witness :
  _combine_and_rank_recommendations [0; 1]%nat [2; 3]%nat demo_weights scored_world
    = (Ok combined_out, combined_world)
  ∧ ∃ c k,
      as_number (default (VInt 0) (read scored_world 0%nat !! "score")) = Ok c
      ∧ as_number (collab_score_for (read scored_world <$> [2; 3]%nat) "A") = Ok k
      ∧ 0%nat ∈ combined_out
      ∧ read combined_world 0%nat !! "final_score"
        = Some (VFloat (fadd (fmul c (Fin 0.6)) (fmul k (Fin 0.4)))).
Proof.
  assert (Hrun : _combine_and_rank_recommendations [0; 1]%nat [2; 3]%nat demo_weights
                   scored_world = (Ok combined_out, combined_world))
    by (apply is_ok_run; vm_compute; reflexivity).
  split; [exact Hrun|].
  destruct (hybrid_final_score [0; 1]%nat [2; 3]%nat scored_world combined_world
              combined_out) as [Hin _].
  - apply NoDup_cons. split; [|apply NoDup_singleton].
    intros Hin%list_elem_of_singleton. discriminate.
  - apply Forall_forall. intros l Hl. vm_compute.
    apply elem_of_cons in Hl as [->|Hl]; [lia|].
    apply list_elem_of_singleton in Hl as ->. lia.
  - exact Hrun.
  - apply (Hin 0%nat "A").
    + left.
    + vm_compute. reflexivity.
    + discriminate.
Defined.

End Checks.

(** * Further properties *)

Module NeighbourFacts.
Import Collaborative Spec Terms PyFacts CollaborativeFacts.

Lemma Qsum_from l a : (fold_left Qplus l a == a + Qsum l)%Q.
Proof.
  unfold Qsum. revert a. induction l as [|x l IH]; intros a; cbn [fold_left].
  - ring.
  - rewrite IH, (IH (0 + x)%Q). ring.
Qed.

Lemma Qsum_cons x l : (Qsum (x :: l) == x + Qsum l)%Q.
Proof. unfold Qsum at 1. cbn [fold_left]. rewrite Qsum_from. ring. Qed.

Lemma Qsum_sublist l1 l2 :
  sublist l1 l2 -> Forall (fun x => 0 <= x)%Q l2 -> (0 <= Qsum l1 <= Qsum l2)%Q.
Proof.
  induction 1 as [|x l1 l2 _ IH|x l1 l2 _ IH]; intros Hpos.
  - split; apply Qle_refl.
  - apply Forall_cons in Hpos as [Hx Hpos]. destruct (IH Hpos) as [IH1 IH2].
    rewrite !Qsum_cons. split; lra.
  - apply Forall_cons in Hpos as [Hx Hpos]. destruct (IH Hpos) as [IH1 IH2].
    rewrite Qsum_cons. split; lra.
Qed.

Lemma add_likes_lookup target sim ps likes s :
  NoDup ps ->
  default [] (fold_left (add_like target sim) ps likes !! s)
  = default [] (likes !! s) ++ (if decide (s ∈ ps ∧ s ∉ target) then [sim] else []).
Proof.
  intros Hnd. revert likes. induction Hnd as [|p ps Hp Hnd IH]; intros likes.
  - cbn [fold_left]. rewrite decide_False; [by rewrite app_nil_r|].
    intros [[]%elem_of_nil _].
  - cbn [fold_left]. rewrite IH. unfold add_like.
    destruct (decide (p ∈ target)) as [Hpt|Hpt].
    + f_equal. destruct (decide (s ∈ ps ∧ s ∉ target)) as [[? ?]|Hn].
      * rewrite decide_True; [done|]. split; [by right|done].
      * rewrite decide_False; [done|]. intros [[->|?]%elem_of_cons ?]; [done|].
        by apply Hn.
    + destruct (decide (s = p)) as [->|Hne].
      * rewrite lookup_insert_eq. cbn [default].
        rewrite (decide_False (P := p ∈ ps ∧ _)) by (by intros [? _]).
        rewrite decide_True; [by rewrite app_nil_r|]. split; [by left|done].
      * rewrite lookup_insert_ne by done. f_equal.
        destruct (decide (s ∈ ps ∧ s ∉ target)) as [[? ?]|Hn].
        -- rewrite decide_True; [done|]. split; [by right|done].
        -- rewrite decide_False; [done|]. intros [[->|?]%elem_of_cons ?]; [done|].
           by apply Hn.
Qed.

Lemma add_neighbor_lookup target all likes (n : string * Q) s :
  default [] (add_neighbor target all likes n !! s)
  = default [] (likes !! s)
    ++ (if decide (s ∈ default ∅ (dict_get n.1 all) ∧ s ∉ target) then [n.2] else []).
Proof.
  unfold add_neighbor. rewrite add_likes_lookup by apply NoDup_elements.
  f_equal. destruct (decide (s ∈ elements _ ∧ _)) as [[H1 H2]|Hn].
  - rewrite decide_True; [done|]. split; [by apply elem_of_elements|done].
  - rewrite decide_False; [done|]. intros [H1 H2]. apply Hn.
    split; [by apply elem_of_elements|done].
Qed.

Lemma neighbor_likes_from target all neighbors likes s :
  default [] (fold_left (add_neighbor target all) neighbors likes !! s)
  = default [] (likes !! s)
    ++ (if decide (s ∈ target) then [] else (likers all s neighbors).*2).
Proof.
  revert likes. induction neighbors as [|n neighbors IH]; intros likes.
  - cbn [fold_left]. unfold likers. cbn [List.filter fmap list_fmap].
    destruct (decide _); by rewrite app_nil_r.
  - cbn [fold_left]. rewrite IH, add_neighbor_lookup, <- app_assoc. f_equal.
    unfold likers. cbn [List.filter].
    destruct (decide (s ∈ target)) as [Hs|Hs].
    + rewrite decide_False; [done|]. by intros [_ ?].
    + destruct (bool_decide_reflect (s ∈ default ∅ (dict_get n.1 all))) as [Hin|Hin].
      * by rewrite decide_True.
      * rewrite decide_False; [done|]. by intros [? _].
Qed.

(** The similarity weights credited to a place: one from every neighbour
    that has it among its favourites, in the order of the neighbours, and
    none when the target user has favourited it already. *)
Lemma neighbor_likes_lookup target all neighbors s :
  default [] (neighbor_likes target all neighbors !! s)
  = if decide (s ∈ target) then [] else (likers all s neighbors).*2.
Proof. unfold neighbor_likes. by rewrite neighbor_likes_from, lookup_empty. Qed.

Lemma likers_sublist all s neighbors :
  sublist (likers all s neighbors).*2 neighbors.*2.
Proof.
  unfold likers. induction neighbors as [|n neighbors IH]; cbn [List.filter]; [done|].
  destruct (bool_decide _); cbn [fmap list_fmap]; by constructor.
Qed.

Lemma top_neighbors_positive target_user_id target all :
  Forall (fun x => 0 < x)%Q (top_neighbors target_user_id target all).*2.
Proof.
  apply Forall_fmap, Forall_forall. intros [u s] Hin. cbn.
  unfold top_neighbors in Hin.
  apply dict_of_pairs_elem, elem_of_take in Hin as (i & Hin & _).
  apply list_elem_of_lookup_2 in Hin. rewrite sorted_desc_perm in Hin.
  by apply similarities_elem in Hin as (_ & _ & _ & _ & Hpos).
Qed.

Lemma Qsum_positive x l : Forall (fun x => 0 < x)%Q (x :: l) -> (0 < Qsum (x :: l))%Q.
Proof.
  intros [Hx Hl]%Forall_cons. rewrite Qsum_cons.
  assert (0 <= Qsum l <= Qsum l)%Q as [? _]; [|lra].
  apply Qsum_sublist; [done|]. eapply Forall_impl; [exact Hl|]. intros; cbn in *; lra.
Qed.


Lemma zero_scores_filter data :
  zero_scores data
  = (fun r => <["score" := VFloat (Fin 0)]> r)
      <$> List.filter (fun r => get_truthy r "place_id") data.
Proof.
  induction data as [|r data IH]; [done|]. cbn [zero_scores List.filter].
  destruct (get_truthy r "place_id"); [|done]. cbn [fmap list_fmap]. by rewrite IH.
Qed.

Lemma score_candidates_filter likes max_possible_score data out :
  score_candidates likes max_possible_score data = Ok out ->
  Forall2 (fun (r r' : pydict) =>
      ∃ likes_r, likes_get likes (default VNone (r !! "place_id")) = Ok likes_r
        ∧ r' = <["score" := normalized_score (Qsum likes_r) max_possible_score]> r)
    (List.filter (fun r => get_truthy r "place_id") data) out.
Proof.
  revert out. induction data as [|r data IH]; intros out; cbn [score_candidates List.filter].
  - intros [= <-]. constructor.
  - destruct (get_truthy r "place_id"); [|by apply IH].
    intros (likes_r & Hl & (recs & Hrecs & [= <-])%bind_Ok)%bind_Ok.
    constructor; [by exists likes_r | by apply IH].
Qed.

Lemma similarities_no_favourites target_user_id all :
  similarities target_user_id ∅ all = [].
Proof.
  destruct (similarities target_user_id ∅ all) as [|[u s] l] eqn:Hsim; [done|].
  assert (Hin : (u, s) ∈ similarities target_user_id ∅ all) by (rewrite Hsim; by left).
  apply similarities_elem in Hin as (_ & favs & _ & -> & Hpos).
  rewrite (jaccard_disjoint ∅ favs) in Hpos by set_solver. by apply Qlt_irrefl in Hpos.
Qed.

(** The exits of the scorer: the zero-score fallback, or the scoring loop
    run with a non-empty neighbour set. *)
Lemma collaborative_cases users_stream profile data out :
  get_collaborative_filtering_recommendations users_stream profile data = Ok out ->
  let target := favourite_place_ids (favourites profile) in
  out = zero_scores data
  ∨ ∃ docs, users_stream = Ok docs ∧ target ≠ ∅
      ∧ top_neighbors (uid profile) target (_get_all_user_favorites docs) ≠ []
      ∧ score_candidates
          (neighbor_likes target (_get_all_user_favorites docs)
             (top_neighbors (uid profile) target (_get_all_user_favorites docs)))
          (Qsum (top_neighbors (uid profile) target (_get_all_user_favorites docs)).*2)
          data = Ok out.
Proof.
  unfold get_collaborative_filtering_recommendations.
  destruct data as [|r0 data]; [intros [= <-]; by left|]. set (l := r0 :: data).
  intros Hrun. set (target := favourite_place_ids (favourites profile)) in *.
  destruct (decide (target = ∅)) as [|Hne]; [injection Hrun as <-; by left|].
  destruct users_stream as [docs|]; [|done].
  unfold mbind, result_bind, Py.bind in Hrun.
  destruct (top_neighbors (uid profile) target (_get_all_user_favorites docs))
    as [|nb nbs] eqn:Hnb; [injection Hrun as <-; by left|].
  right. exists docs. rewrite Hnb. done.
Qed.

(** Property X1.  The scorer keeps the candidates that have a place id, in their input
    order, and gives each of them a copy that differs in [score] only. *)
Theorem collaborative_output_in_order users_stream profile data out :
  get_collaborative_filtering_recommendations users_stream profile data = Ok out ->
  Forall2 (fun (r r' : pydict) => ∃ v, r' = <["score" := v]> r ∧ unit_score v)
    (List.filter (fun r => get_truthy r "place_id") data) out.
Proof.
  intros [->|(docs & -> & Hne & Hnb & Hrun)]%collaborative_cases.
  - rewrite zero_scores_filter. apply Forall2_fmap_r, Forall_Forall2_diag, Forall_forall.
    intros r _. exists (VFloat (Fin 0)). split; [done|]. cbn. lra.
  - apply score_candidates_filter in Hrun.
    eapply Forall2_impl; [exact Hrun|]. cbn beta.
    intros r r' (likes_r & Hlikes & ->). eexists. split; [done|].
    set (target := favourite_place_ids (favourites profile)) in *.
    set (all := _get_all_user_favorites docs) in *.
    set (neighbors := top_neighbors (uid profile) target all) in *.
    assert (Hpos : Forall (fun x => 0 < x)%Q neighbors.*2)
      by apply top_neighbors_positive.
    assert (Hsub : (0 <= Qsum likes_r <= Qsum neighbors.*2)%Q).
    { apply Qsum_sublist; [|eapply Forall_impl; [exact Hpos|]; intros; cbn in *; lra].
      destruct (default VNone (r !! "place_id")) as [| | | |s|]; cbn [likes_get] in Hlikes;
        try (injection Hlikes as <-; apply sublist_nil_l); [|done].
      injection Hlikes as <-. rewrite neighbor_likes_lookup.
      destruct (decide _); [apply sublist_nil_l|apply likers_sublist]. }
    unfold normalized_score, unit_score.
    destruct (Qltb 0 (Qsum neighbors.*2)) eqn:Hmax; cbn;
      [|split; unfold Qle; cbn; lia].
    apply Qltb_lt in Hmax. destruct Hsub as [H0 H1]. split.
    + apply Qle_shift_div_l; [done|]. lra.
    + apply Qle_shift_div_r; [done|]. lra.
Qed.


(** Property X2.  In the scoring loop a candidate the user has not favourited gets the
    similarity-weighted share of the neighbours that have favourited it:
    the sum of their similarities over the sum of all neighbours'
    similarities. *)
Theorem collaborative_score_weighted_vote docs profile data out :
  let target := favourite_place_ids (favourites profile) in
  let all := _get_all_user_favorites docs in
  let neighbors := top_neighbors (uid profile) target all in
  get_collaborative_filtering_recommendations (Ok docs) profile data = Ok out ->
  neighbors ≠ [] ->
  Forall2 (fun (r r' : pydict) =>
      ∀ s, r !! "place_id" = Some (VStr s) -> s ∉ target ->
        r' = <["score" :=
                VFloat (Fin (Qsum (likers all s neighbors).*2 / Qsum neighbors.*2))]> r)
    (List.filter (fun r => get_truthy r "place_id") data) out.
Proof.
  intros target all neighbors Hrun Hnb.
  assert (Htarget : target ≠ ∅).
  { intros Hempty. apply Hnb. unfold neighbors, top_neighbors.
    by rewrite Hempty, similarities_no_favourites. }
  unfold get_collaborative_filtering_recommendations in Hrun.
  destruct data as [|r0 data]; [injection Hrun as <-; constructor|].
  set (l := r0 :: data) in *. fold target in Hrun.
  destruct (decide (target = ∅)); [done|].
  unfold mbind, result_bind, Py.bind in Hrun. fold all in Hrun. fold neighbors in Hrun.
  pose proof (top_neighbors_positive (uid profile) target all) as Hpos.
  fold neighbors in Hpos. clearbody neighbors.
  destruct neighbors as [|nb nbs]; [done|].
  assert (Hmax : Qltb 0 (Qsum (nb :: nbs).*2) = true).
  { apply Qltb_lt. change ((nb :: nbs).*2) with (nb.2 :: nbs.*2) in *.
    by apply Qsum_positive. }
  apply score_candidates_filter in Hrun.
  eapply Forall2_impl; [exact Hrun|]. cbn beta.
  intros r r' (likes_r & Hlikes & ->) s Hs Hfav.
  rewrite Hs in Hlikes. cbn [default likes_get] in Hlikes. injection Hlikes as <-.
  rewrite neighbor_likes_lookup, decide_False by done.
  unfold normalized_score. by rewrite Hmax.
Qed.


(** *** The dict of all users' favourites *)

Lemma dict_get_set {V} k k' (v : V) d :
  dict_get k' (dict_set k v d) = if String.eqb k' k then Some v else dict_get k' d.
Proof.
  induction d as [|[k0 v0] d IH]; cbn [dict_set dict_get].
  - by destruct (String.eqb_spec k' k).
  - destruct (String.eqb_spec k k0) as [->|Hne]; cbn [dict_get].
    + by destruct (String.eqb_spec k' k0).
    + rewrite IH. destruct (String.eqb_spec k' k0) as [->|?]; [|done].
      by destruct (String.eqb_spec k0 k) as [->|?].
Qed.

Lemma add_user_favorites_entries (docs : list user_doc) acc doc :
  (∀ u favs, (u, favs) ∈ acc ->
     favs ≠ ∅ ∧ ∃ doc l, doc ∈ docs ∧ default (doc_id doc) (doc_uid doc) = u
       ∧ doc_favourites doc = Some l ∧ favs = favourite_place_ids l) ->
  doc ∈ docs ->
  ∀ u favs, (u, favs) ∈ add_user_favorites acc doc ->
     favs ≠ ∅ ∧ ∃ doc l, doc ∈ docs ∧ default (doc_id doc) (doc_uid doc) = u
       ∧ doc_favourites doc = Some l ∧ favs = favourite_place_ids l.
Proof.
  intros Hacc Hdoc u favs. unfold add_user_favorites.
  destruct (doc_favourites doc) as [[|fav favs0]|] eqn:Hfavs; try apply Hacc.
  destruct (decide _) as [|Hne]; [apply Hacc|].
  intros [[= -> ->]|Hin]%dict_set_elem; [|by apply Hacc].
  split; [done|]. by exists doc, (fav :: favs0).
Qed.

(** Property X3.  The users in the dict are exactly the authors of a document with at
    least one usable favourite; every user has one entry, and every entry
    is the non-empty set of place ids of one of the user's documents. *)
Theorem all_user_favorites_entries (docs : list user_doc) :
  let all := _get_all_user_favorites docs in
  NoDup all.*1
  ∧ (∀ u favs, (u, favs) ∈ all ->
       favs ≠ ∅ ∧ ∃ doc l, doc ∈ docs ∧ default (doc_id doc) (doc_uid doc) = u
         ∧ doc_favourites doc = Some l ∧ favs = favourite_place_ids l)
  ∧ (∀ doc l, doc ∈ docs -> doc_favourites doc = Some l -> favourite_place_ids l ≠ ∅ ->
       is_Some (dict_get (default (doc_id doc) (doc_uid doc)) all)).
Proof.
  intros all. split; [apply all_user_favorites_keys|]. split.
  - unfold all, _get_all_user_favorites.
    assert (Hgen : ∀ ds acc, ds ⊆ docs ->
      (∀ u favs, (u, favs) ∈ acc ->
         favs ≠ ∅ ∧ ∃ doc l, doc ∈ docs ∧ default (doc_id doc) (doc_uid doc) = u
           ∧ doc_favourites doc = Some l ∧ favs = favourite_place_ids l) ->
      ∀ u favs, (u, favs) ∈ fold_left add_user_favorites ds acc ->
         favs ≠ ∅ ∧ ∃ doc l, doc ∈ docs ∧ default (doc_id doc) (doc_uid doc) = u
           ∧ doc_favourites doc = Some l ∧ favs = favourite_place_ids l).
    { induction ds as [|doc ds IH]; intros acc Hsub Hacc; cbn [fold_left]; [done|].
      apply IH; [set_solver|].
      apply add_user_favorites_entries; [done|]. apply Hsub. by left. }
    apply Hgen; [done|]. by intros u favs ?%elem_of_nil.
  - unfold all, _get_all_user_favorites.
    assert (Hkeep : ∀ ds acc u, is_Some (dict_get u acc) ->
      is_Some (dict_get u (fold_left add_user_favorites ds acc))).
    { induction ds as [|doc ds IH]; intros acc u Hu; cbn [fold_left]; [done|].
      apply IH. unfold add_user_favorites.
      destruct (doc_favourites doc) as [[|fav favs0]|]; try done.
      destruct (decide _); [done|]. rewrite dict_get_set.
      by destruct (String.eqb _ _). }
    assert (Hgen : ∀ ds acc doc l, doc ∈ ds -> doc_favourites doc = Some l ->
      favourite_place_ids l ≠ ∅ ->
      is_Some (dict_get (default (doc_id doc) (doc_uid doc))
                 (fold_left add_user_favorites ds acc))).
    { induction ds as [|d ds IH]; intros acc doc l Hin Hl Hne; [by apply elem_of_nil in Hin|].
      cbn [fold_left]. apply elem_of_cons in Hin as [->|Hin]; [|by eapply IH].
      apply Hkeep. unfold add_user_favorites. rewrite Hl.
      destruct l as [|fav favs0]; [by contradict Hne|].
      rewrite decide_False by done. rewrite dict_get_set, String.eqb_refl. by eexists. }
    intros doc l. apply Hgen.
Qed.

(** *** The neighbour set *)

Lemma dict_set_fresh {V} k (v : V) d : k ∉ d.*1 -> dict_set k v d = d ++ [(k, v)].
Proof.
  induction d as [|[k0 v0] d IH]; cbn [dict_set]; [done|]. intros Hk.
  apply not_elem_of_cons in Hk as [Hne Hk]. cbn in Hne.
  destruct (String.eqb_spec k k0); [done|]. by rewrite IH.
Qed.

Lemma dict_of_pairs_distinct {V} (pairs : list (string * V)) :
  NoDup pairs.*1 -> dict_of_pairs pairs = pairs.
Proof.
  unfold dict_of_pairs.
  assert (Hgen : ∀ acc, NoDup (acc ++ pairs).*1 ->
    fold_left (fun d kv => dict_set kv.1 kv.2 d) pairs acc = acc ++ pairs).
  { induction pairs as [|[k v] pairs IH]; intros acc Hnd; cbn [fold_left].
    - by rewrite app_nil_r.
    - rewrite fmap_app in Hnd. cbn in Hnd.
      rewrite dict_set_fresh.
      + rewrite IH; [by rewrite <- app_assoc|].
        by rewrite <- app_assoc, fmap_app.
      + cbn. apply NoDup_app in Hnd as (_ & Hdis & _). intros Hk.
        apply (Hdis k Hk). by left. }
  intros Hnd. by rewrite Hgen.
Qed.

Lemma similarities_keys target_user_id target all :
  sublist (similarities target_user_id target all).*1 all.*1.
Proof.
  induction all as [|[u favs] all IH]; cbn [similarities]; [done|].
  destruct (decide _); [by constructor|].
  destruct (Qltb _ _); cbn [fmap list_fmap]; by constructor.
Qed.

Lemma StronglySorted_take {A} (R : relation A) n l :
  StronglySorted R l -> StronglySorted R (take n l).
Proof.
  intros Hs. rewrite <- (take_drop n l) in Hs. by apply StronglySorted_app_1_l in Hs.
Qed.

(** Property X4.  The neighbour set is the head of the similarity ranking: it is ordered
    from the most to the least similar user, it holds every similar user
    when there are at most 50 of them and exactly 50 otherwise, and nobody
    left out is more similar than a user in it. *)
Theorem top_neighbors_most_similar (profile : user_profile) (docs : list user_doc) :
  let target := favourite_place_ids (favourites profile) in
  let all := _get_all_user_favorites docs in
  let sims := similarities (uid profile) target all in
  let neighbors := top_neighbors (uid profile) target all in
  StronglySorted at_least_as_similar neighbors
  ∧ length neighbors = (length sims `min` 50)%nat
  ∧ (∀ n, n ∈ neighbors -> n ∈ sims)
  ∧ (∀ n n', n ∈ neighbors -> n' ∈ sims -> n' ∉ neighbors -> at_least_as_similar n n').
Proof.
  intros target all sims neighbors.
  set (ranked := sorted_desc (fun x : string * Q => Fin x.2) sims).
  assert (Hperm : ranked ≡ₚ sims) by apply sorted_desc_perm.
  assert (Hsorted : StronglySorted at_least_as_similar ranked).
  { change (StronglySorted (desc (fun x : string * Q => Fin x.2)) ranked).
    apply sorted_desc_sorted. by apply Forall_forall. }
  assert (Hnb : neighbors = take 50 ranked).
  { unfold neighbors, top_neighbors. fold sims. fold ranked.
    apply dict_of_pairs_distinct.
    apply (sublist_NoDup _ ranked.*1); [|apply fmap_sublist, sublist_take].
    rewrite Hperm.
    apply (sublist_NoDup _ all.*1); [apply all_user_favorites_keys|apply similarities_keys]. }
  rewrite Hnb. split; [by apply StronglySorted_take|]. split.
  { rewrite length_take, Hperm. lia. }
  split.
  { intros n Hn. rewrite <- Hperm. by eapply subseteq_take. }
  intros n n' Hn Hn' Hout.
  rewrite <- Hperm, <- (take_drop 50 ranked) in Hn'.
  apply elem_of_app in Hn' as [?|Hn']; [done|].
  rewrite <- (take_drop 50 ranked) in Hsorted.
  by eapply StronglySorted_app_1_elem_of.
Qed.

(** Property X5.  A user without usable favourites gets the score [0.0] for every
    candidate with a place id, and the users collection is not read: the
    answer is the same whether Firestore can be reached or not.  With
    favourites, a failure to read the collection reaches the caller. *)
Theorem collaborative_cold_start users_stream profile data :
  let target := favourite_place_ids (favourites profile) in
  (target = ∅ ->
     get_collaborative_filtering_recommendations users_stream profile data
     = Ok ((fun r => <["score" := VFloat (Fin 0)]> r)
             <$> List.filter (fun r => get_truthy r "place_id") data))
  ∧ (target ≠ ∅ -> data ≠ [] -> ∀ e, users_stream = Raise e ->
     get_collaborative_filtering_recommendations users_stream profile data = Raise e).
Proof.
  intros target. unfold get_collaborative_filtering_recommendations. fold target. split.
  - intros Hempty. destruct data as [|r0 data]; [done|].
    rewrite decide_True by done. by rewrite zero_scores_filter.
  - intros Hne Hdata e ->. destruct data as [|r0 data]; [done|].
    by rewrite decide_False.
Qed.

End NeighbourFacts.

Module ScorerFacts.
Import ContentBased Spec Terms PyFacts ContentFacts.

Lemma scored_rating columns prefs restr tf rw :
  scored columns prefs restr tf rw !! "rating" = Some (VFloat (r_rating rw)).
Proof.
  unfold scored, to_dict.
  do 3 (rewrite lookup_insert_ne by done). by rewrite lookup_insert_eq.
Qed.

Lemma indices_where_none {A} (p : A -> bool) i l :
  (∀ x, x ∈ l -> p x = false) -> indices_where p i l = [].
Proof.
  revert i. induction l as [|x l IH]; intros i Hl; cbn [indices_where]; [done|].
  rewrite (Hl x) by (by left). apply IH. intros y Hy. apply Hl. by right.
Qed.

Lemma score_row_without_similarity prefs restr rw :
  restr ⊆ list_to_set (r_categories rw) ->
  same_float (score_row prefs restr 0 rw)
    (score_without_similarity prefs (list_to_set (r_categories rw)) (r_rating rw)).
Proof.
  intros Hsub. unfold score_row, score_without_similarity.
  rewrite decide_True by done. cbn zeta.
  change (Qltb 0 0) with false. cbn iota.
  destruct (r_rating rw) as [q| | |]; cbn; try done. ring.
Qed.

Section Facts.
Context `{Sklearn}.

(** Property X6.  The frame code needs its five columns: when no candidate has an
    [editorial_summary] key the first column access raises [KeyError], and
    when any of the five is missing from every candidate the scorer does not
    return. *)
Theorem content_scorer_missing_column (profile : user_profile) (data : list pydict) :
  data ≠ [] ->
  (has_column data "editorial_summary" = false ->
     get_content_based_recommendations profile data = Raise KeyError)
  ∧ (∀ column, column ∈ frame_columns -> has_column data column = false ->
     is_ok (get_content_based_recommendations profile data) = false).
Proof.
  intros Hdata. unfold get_content_based_recommendations.
  destruct data as [|r0 data]; [done|]. set (l := r0 :: data). clearbody l.
  unfold all_recommendations, require_column. split.
  - by intros ->.
  - intros column Hcol Hmissing. unfold frame_columns in Hcol.
    destruct (has_column l "editorial_summary") eqn:C1; [|done].
    destruct (has_column l "rating") eqn:C2; [|done].
    rewrite !bind_Ok_l.
    destruct (mapM _ l) as [ratings|]; [|done]. rewrite bind_Ok_l.
    destruct (has_column l "categories") eqn:C3; [|done].
    destruct (has_column l "name") eqn:C4; [|done].
    rewrite !bind_Ok_l.
    destruct (mapM _ l) as [rows|]; [|done]. rewrite bind_Ok_l.
    destruct (fit_transform _) as [m|]; [|done]. rewrite bind_Ok_l.
    destruct (has_column l "place_id") eqn:C5; [|done].
    repeat (apply elem_of_cons in Hcol as [->|Hcol]; [congruence|]).
    by apply elem_of_nil in Hcol.
Qed.

(** Property X7.  When none of the candidates is one of the user's favourites, the text
    similarity plays no part: every record that passes the restriction gate
    is scored [0.8 * preference + 0.2 * rating / 5] from its own categories
    and rating, and every other record [0.0]. *)
Theorem content_score_without_favourites (profile : user_profile) (data out : list pydict) :
  let prefs : gset string := list_to_set (preferences profile) in
  let restr : gset string := list_to_set (restrictions profile) in
  get_content_based_recommendations profile data = Ok out ->
  (∀ r, r ∈ data -> is_favourite (favourite_place_ids (favourites profile)) r = false) ->
  ∀ rec, rec ∈ out ->
    ∃ cats rating score,
      rec !! "categories" = Some (VList (VStr <$> cats))
      ∧ rec !! "rating" = Some (VFloat rating)
      ∧ rec !! "score" = Some (VFloat score)
      ∧ (restr ⊆ list_to_set cats ->
           same_float score (score_without_similarity prefs (list_to_set cats) rating))
      ∧ (¬ restr ⊆ list_to_set cats -> score = Fin 0.0).
Proof.
  intros prefs restr Hrun Hfav rec Hrec.
  apply content_output_spec in Hrun as (recs & -> & [[-> ->]|Hrecs]).
  { by apply elem_of_nil in Hrec. }
  rewrite sorted_desc_perm in Hrec.
  unfold all_recommendations in Hrecs.
  apply bind_Ok in Hrecs as (_ & _ & Hrecs). apply bind_Ok in Hrecs as (_ & _ & Hrecs).
  apply bind_Ok in Hrecs as (ratings & _ & Hrecs).
  apply bind_Ok in Hrecs as (_ & _ & Hrecs). apply bind_Ok in Hrecs as (_ & _ & Hrecs).
  apply bind_Ok in Hrecs as (rows & _ & Hrecs).
  apply bind_Ok in Hrecs as (m & _ & Hrecs). apply bind_Ok in Hrecs as (_ & _ & Hrecs).
  rewrite indices_where_none in Hrecs by done. injection Hrecs as <-.
  apply list_elem_of_lookup in Hrec as [i Hi].
  rewrite scoring_loop_lookup in Hi. apply fmap_Some in Hi as (rw & _ & ->).
  exists (r_categories rw), (r_rating rw), (score_row prefs restr 0 rw).
  split; [apply scored_categories|]. split; [apply scored_rating|].
  split; [apply scored_score|]. split.
  - apply score_row_without_similarity.
  - apply score_row_gated.
Qed.

End Facts.
End ScorerFacts.

Module RankingFacts.
Import ContentBased Collaborative ReinforcementLearning Constants Hybrid Spec Terms.
Import PyFacts HybridFacts.

(** The combiner writes to the dicts it keeps only. *)
Lemma combine_loop_writes scores_map wts recs w out w' :
  combine_loop scores_map wts recs w = (Ok out, w') -> frame out w w'.
Proof.
  revert w out w'. induction recs as [|l recs IH]; intros w out w'.
  - intros [= <- <-]. apply frame_refl.
  - rewrite combine_loop_cons. cbv zeta.
    destruct (get_truthy (read w l) "place_id"); [|apply IH].
    destruct (hashable _); [|done].
    destruct (hybrid_score _ _ _) as [score|]; [|done].
    set (w1 := write w l _).
    destruct (combine_loop scores_map wts recs w1) as [[final|e] w2] eqn:Hloop; [|done].
    intros [= <- <-]. eapply frame_write_cons. by apply IH.
Qed.

Lemma combined_keys scores_map wts (rec rec' : pydict) :
  combined scores_map wts rec rec' ->
  rec' !! "score" = None
  ∧ (∃ score, rec' !! "final_score" = Some (VFloat score))
  ∧ ∀ k, k ≠ "score" -> k ≠ "final_score" -> rec' !! k = rec !! k.
Proof.
  intros (score & _ & ->). split; [apply lookup_delete_eq|]. split.
  - exists score. rewrite lookup_delete_ne by done. apply lookup_insert_eq.
  - intros k H1 H2. rewrite lookup_delete_ne by done. by rewrite lookup_insert_ne.
Qed.

(** Property X8.  The combiner returns the content dicts that have a place id, ranked by
    [final_score] from the largest down, dicts with equal scores in the
    order of the content list.  In each of them [score] has been replaced
    by [final_score] and nothing else has changed; a content dict without
    place id is left out and keeps its [score]. *)
Theorem combiner_output_ranked (content_recs collab_recs : list loc) (wts : weights)
    (w w' : world) (out : list loc) :
  NoDup content_recs ->
  Forall (fun l => l < length (heap w))%nat content_recs ->
  _combine_and_rank_recommendations content_recs collab_recs wts w = (Ok out, w') ->
  let kept := List.filter (fun l => get_truthy (read w l) "place_id") content_recs in
  let key := fun l => float_key "final_score" (read w' l) in
  out ≡ₚ kept
  ∧ (∀ l, l ∈ out ->
       read w' l !! "score" = None
       ∧ (∃ score, read w' l !! "final_score" = Some (VFloat score))
       ∧ ∀ k, k ≠ "score" -> k ≠ "final_score" -> read w' l !! k = read w l !! k)
  ∧ (∀ l, l ∉ out -> read w' l = read w l)
  ∧ (Forall (finite_key key) out ->
       StronglySorted (desc key) out
       ∧ ∀ q, List.filter (same_key key q) out = List.filter (same_key key q) kept).
Proof.
  intros Hnd Hall Hrun kept key. unfold _combine_and_rank_recommendations in Hrun.
  apply st_bind_Ok in Hrun as (dicts & w0 & [= <- <-] & Hrest).
  apply st_bind_Ok in Hrest as (scores_map & w0 & Hmap & Hrest).
  injection Hmap as Hmap <-.
  apply st_bind_Ok in Hrest as (final & w1 & Hloop & [= <- <-]).
  pose proof (combine_loop_writes _ _ _ _ _ _ Hloop) as Hfr.
  apply combine_loop_spec in Hloop as (-> & Hout); [|done|done].
  fold kept in Hfr, Hout. fold key.
  change (List.filter (fun l => get_truthy (read w l) "place_id") content_recs) with kept.
  assert (Hperm : sorted_desc key kept ≡ₚ kept) by apply sorted_desc_perm.
  split; [done|]. split; [|split].
  - intros l Hl. rewrite Hperm in Hl. eapply combined_keys. by apply Hout.
  - intros l Hl. rewrite Hperm in Hl. by apply (frame_read kept).
  - intros Hfin. rewrite Hperm in Hfin. split.
    + by apply sorted_desc_sorted.
    + intros q. by apply sorted_desc_stable.
Qed.

Section Rerank.
Context `{Builtins} `{Keras} `{Runtime}.

Lemma extract_rl_features_other_key (rec : pydict) v all_categories :
  extract_rl_features (<["final_score_with_rl" := v]> rec) all_categories
  = extract_rl_features rec all_categories.
Proof. unfold extract_rl_features. by rewrite !lookup_insert_ne by done. Qed.

(** One turn of the re-ranking loop, written out. *)
Lemma rerank_loop_cons (rl_agent : DQNAgent) l recs w :
  rerank_loop rl_agent (l :: recs) w
  = let rec := read w l in
    match extract_rl_features rec CATEGORY_KEYS with
    | Ok st =>
        match get_q_values rl_agent st !! 0%nat with
        | Some rl_score =>
            match as_number (default (VFloat (Fin 0.0)) (rec !! "final_score")) with
            | Ok final_score =>
                let with_rl := fadd final_score (fmul rl_score (Fin 0.3)) in
                let w1 := write w l (<["final_score_with_rl" := VFloat with_rl]> rec) in
                match rerank_loop rl_agent recs w1 with
                | (Ok reranked_recs, w2) => (Ok (l :: reranked_recs), w2)
                | (Raise e, w2) => (Raise e, w2)
                end
            | Raise e => (Raise e, w)
            end
        | None => (Raise IndexError, w)
        end
    | Raise e => (Raise e, w)
    end.
Proof.
  cbn [rerank_loop]. unfold st_bind, st_read, st_lift, st_write, st_ret. cbv zeta.
  destruct (extract_rl_features _ _); [|done].
  destruct (_ !! 0%nat); [|done]. by destruct (as_number _).
Qed.

Lemma reranked_insert (rl_agent : DQNAgent) (rec : pydict) st rl_score final_score :
  extract_rl_features rec CATEGORY_KEYS = Ok st ->
  get_q_values rl_agent st !! 0%nat = Some rl_score ->
  as_number (default (VFloat (Fin 0.0)) (rec !! "final_score")) = Ok final_score ->
  reranked rl_agent
    (<["final_score_with_rl" := VFloat (fadd final_score (fmul rl_score (Fin 0.3)))]> rec).
Proof.
  intros Hst Hq Hf. exists st, rl_score, final_score.
  rewrite extract_rl_features_other_key, lookup_insert_ne by done.
  by rewrite lookup_insert_eq.
Qed.

(** The re-ranking loop keeps every dict, in order, and leaves each with
    its re-ranked score. *)
Lemma rerank_loop_spec (rl_agent : DQNAgent) recs w out w' :
  Forall (fun l => l < length (heap w))%nat recs ->
  rerank_loop rl_agent recs w = (Ok out, w') ->
  out = recs ∧ ∀ l, l ∈ recs -> reranked rl_agent (read w' l).
Proof.
  revert w out w'. induction recs as [|l recs IH]; intros w out w' Hall.
  - intros [= <- <-]. split; [done|]. by intros l ?%elem_of_nil.
  - apply Forall_cons in Hall as [Hlt Hall]. rewrite rerank_loop_cons. cbv zeta.
    destruct (extract_rl_features _ _) as [st|] eqn:Hst; [|done].
    destruct (_ !! 0%nat) as [rl_score|] eqn:Hq; [|done].
    destruct (as_number _) as [final_score|] eqn:Hf; [|done].
    set (d := <["final_score_with_rl" := _]> (read w l)).
    pose proof (rerank_loop_frame rl_agent recs (write w l d)) as Hfr.
    destruct (rerank_loop rl_agent recs (write w l d)) as [[reranked_recs|e] w2] eqn:Hloop;
      [|done].
    intros [= <- <-]. cbn [snd] in Hfr.
    apply IH in Hloop as [-> Hrest].
    2:{ eapply Forall_impl; [exact Hall|]. intros l'. by rewrite heap_write_length. }
    split; [done|]. intros l' Hl'.
    destruct (decide (l' ∈ recs)) as [Hin|Hout]; [by apply Hrest|].
    apply elem_of_cons in Hl' as [->|?]; [|done].
    rewrite (frame_read _ _ _ _ Hfr Hout), read_write, decide_True by done.
    by eapply reranked_insert.
Qed.

End Rerank.

Section Pipeline.
Context `{Sklearn} `{Builtins} `{Keras} `{Runtime}.
Variable users_stream : result (list user_doc).
Variable rl_models : gmap string network.

(** Property X9.  What the hybrid pipeline returns: dicts of its own making, none twice,
    each carrying [final_score_with_rl = final_score + 0.3 * rl_score] for
    the agent loaded for the profile's uid, ranked by that score from the
    largest down. *)
Theorem pipeline_output_reranked (restaurants_data : list loc) (w w' : world)
    (out : list loc) :
  get_hybrid_recommendations users_stream rl_models restaurants_data w = (Ok out, w') ->
  let rl_agent :=
    __init__ rl_models 35 4 (default "unknown_user" (uid (caller_profile w))) in
  let key := fun l => float_key "final_score_with_rl" (read w' l) in
  NoDup out
  ∧ (∀ l, l ∈ out ->
       (length (heap w) <= l < length (heap w'))%nat ∧ reranked rl_agent (read w' l))
  ∧ (Forall (finite_key key) out -> StronglySorted (desc key) out).
Proof.
  intros Hrun rl_agent key. unfold get_hybrid_recommendations in Hrun.
  apply st_bind_Ok in Hrun as (profile & w0 & [= <- <-] & Hrun).
  apply st_bind_Ok in Hrun as (content_recs & w1 & Hcontent & Hrun).
  apply st_bind_Ok in Hrun as (collab_recs & w2 & Hcollab & Hrun).
  apply st_bind_Ok in Hrun as (final & w3 & Hcombine & Hrun).
  apply st_bind_Ok in Hrun as (reranked_recs & w4 & Hrerank & [= <- <-]).
  fold rl_agent in Hrerank. rewrite firstn_all in Hrerank.
  destruct (pipeline_content_dicts users_stream _ _ _ _ _ _ Hcontent Hcollab)
    as (Hnd & Halloc & _).
  destruct (content_scorer_new_dicts _ _ _ _ Hcontent) as [_ Hfresh].
  destruct (combine_and_rank_frame content_recs collab_recs
              {| content := 0.6; collab := 0.4 |} w2) as [Hfr3 Hsub].
  rewrite Hcombine in Hfr3, Hsub. cbn [fst snd] in Hfr3, Hsub.
  specialize (Hsub _ eq_refl). destruct Hfr3 as (_ & Hlen3 & _).
  pose proof (rerank_loop_frame rl_agent final w3) as (_ & Hlen4 & _).
  rewrite Hrerank in Hlen4. cbn [snd] in Hlen4.
  assert (Hfinal : NoDup final).
  { unfold _combine_and_rank_recommendations in Hcombine.
    apply st_bind_Ok in Hcombine as (dicts & w0 & [= <- <-] & Hcombine).
    apply st_bind_Ok in Hcombine as (scores_map & w0 & Hmap & Hcombine).
    injection Hmap as Hmap <-.
    apply st_bind_Ok in Hcombine as (kept & w0 & Hloop & [= <- <-]).
    apply combine_loop_spec in Hloop as (-> & _); [|done|done].
    rewrite sorted_desc_perm. apply NoDup_ListNoDup, List.NoDup_filter, NoDup_ListNoDup, Hnd. }
  apply rerank_loop_spec in Hrerank as [-> Hrr].
  2:{ apply Forall_forall. intros l Hl%Hsub. rewrite Forall_forall in Halloc.
      rewrite Hlen3. by apply Halloc. }
  fold key. assert (Hperm : sorted_desc key final ≡ₚ final) by apply sorted_desc_perm.
  split; [by rewrite Hperm|]. split.
  - intros l Hl. rewrite Hperm in Hl. split; [|by apply Hrr].
    rewrite Forall_forall in Hfresh, Halloc.
    pose proof (Hfresh l (Hsub l Hl)). pose proof (Halloc l (Hsub l Hl)). lia.
  - intros Hfin. apply sorted_desc_sorted. by rewrite <- Hperm.
Qed.

End Pipeline.
End RankingFacts.

Module ExtractorFacts.
Import ReinforcementLearning Constants Views Spec Terms PyFacts FeatureFacts.

Lemma set_mem_strings cat (cats : list string) :
  set_mem cat (VStr <$> cats) = bool_decide (cat ∈ cats).
Proof.
  unfold set_mem. induction cats as [|c cats IH]; cbn [fmap list_fmap existsb].
  - symmetry. apply bool_decide_eq_false. by intros ?%elem_of_nil.
  - rewrite IH. cbn [key_eqb]. destruct (String.eqb_spec cat c) as [->|Hne].
    + symmetry. apply bool_decide_eq_true. by left.
    + cbn [orb]. apply bool_decide_ext. rewrite elem_of_cons. naive_solver.
Qed.

Section Facts.
Context `{Builtins}.

(** The shape of the vector, whenever the extractor returns. *)
Lemma extract_rl_features_shape restaurant all_categories features :
  extract_rl_features restaurant all_categories = Ok features ->
  ∃ rating price_level hybrid_score rec_cats,
    py_set (default (VList []) (restaurant !! "categories")) = Ok rec_cats
    ∧ features
      = take 35 (([rating; price_level; hybrid_score]
                  ++ ((fun cat => if set_mem cat rec_cats then Fin 1 else Fin 0)
                        <$> all_categories))
                 ++ replicate (35 - (3 + length all_categories)) (Fin 0)).
Proof.
  unfold extract_rl_features.
  destruct (except_value_type _ (Fin (3.0 / 5.0))) as [rating|]; [|done].
  destruct (except_value_type _ (Fin (2 / 4.0))) as [price_level|]; [|done].
  destruct (except_value_type _ (Fin 0.0)) as [hybrid_score|]; [|done].
  destruct (py_set _) as [rec_cats|]; [|done].
  unfold mbind, result_bind, Py.bind. intros [= <-].
  exists rating, price_level, hybrid_score, rec_cats. split; [done|].
  unfold STATE_SIZE. cbn [app length]. by rewrite length_fmap.
Qed.

(** Property X10.  The category block of the state vector is a one-hot encoding in the
    order of the lexicon: entry [3 + i] is 1 when the [i]-th category of
    the lexicon is among the restaurant's categories and 0 when it is not;
    what is left of the 35 entries after the lexicon is padded with 0. *)
Theorem extract_rl_features_one_hot (restaurant : pydict) (all_categories : list string)
    (features : list pyfloat) :
  extract_rl_features restaurant all_categories = Ok features ->
  ∃ rec_cats,
    py_set (default (VList []) (restaurant !! "categories")) = Ok rec_cats
    ∧ (∀ cats, restaurant !! "categories" = Some (VList (VStr <$> cats)) ->
         ∀ cat, set_mem cat rec_cats = bool_decide (cat ∈ cats))
    ∧ (∀ i cat, all_categories !! i = Some cat -> (3 + i < 35)%nat ->
         features !! (3 + i)%nat = Some (if set_mem cat rec_cats then Fin 1 else Fin 0))
    ∧ (∀ i, (3 + length all_categories <= i < 35)%nat -> features !! i = Some (Fin 0)).
Proof.
  intros (rating & price_level & hybrid_score & rec_cats & Hset & ->)
    %extract_rl_features_shape.
  exists rec_cats. split; [done|]. split; [|split].
  - intros cats Hcats cat. rewrite Hcats in Hset. unfold py_set in Hset.
    change (default (VList []) (Some (VList (VStr <$> cats))))
      with (VList (VStr <$> cats)) in Hset. cbv iota in Hset.
    destruct (forallb hashable (VStr <$> cats)); [|done].
    injection Hset as <-. apply set_mem_strings.
  - intros i cat Hi Hlt. rewrite lookup_take_lt by lia.
    rewrite lookup_app_l by (rewrite length_app, length_fmap; cbn [length];
                             apply lookup_lt_Some in Hi; lia).
    change (3 + i)%nat with (length [rating; price_level; hybrid_score] + i)%nat.
    rewrite lookup_app_r by lia. rewrite Nat.add_comm, Nat.add_sub.
    by rewrite list_lookup_fmap, Hi.
  - intros i [Hlo Hhi]. rewrite lookup_take_lt by lia.
    rewrite lookup_app_r by (rewrite length_app, length_fmap; cbn [length]; lia).
    rewrite length_app, length_fmap. cbn [length].
    apply lookup_replicate. split; [done|]. lia.
Qed.

(** Property X11.  With the lexicon the application passes, [CATEGORY_KEYS] with its 16
    categories, the state vector has 35 entries of which the last 16 are 0
    for every restaurant. *)
Theorem extract_rl_features_unused_inputs (restaurant : pydict) (features : list pyfloat) :
  extract_rl_features restaurant CATEGORY_KEYS = Ok features ->
  length features = 35%nat
  ∧ ∀ i, (19 <= i < 35)%nat -> features !! i = Some (Fin 0).
Proof.
  intros Hrun. split; [by eapply extract_rl_features_length|].
  apply extract_rl_features_one_hot in Hrun as (rec_cats & _ & _ & _ & Hpad).
  intros i Hi. apply Hpad. rewrite CATEGORY_KEYS_sorted. cbn [length]. lia.
Qed.

Lemma except_value_type_is_ok {A} (body : result A) (fallback : A) :
  is_ok (except_value_type body fallback)
  = match body with
    | Raise OverflowError | Raise KeyError | Raise IndexError => false
    | _ => true
    end.
Proof. by destruct body as [a|[]]. Qed.


End Facts.
End ExtractorFacts.

Module MemoryFacts.
Import ReinforcementLearning Constants Views Spec Terms Policy PyFacts AgentFacts.

Section Facts.
Context `{Builtins} `{Keras} `{Runtime}.

Lemma call_on_memory agent c :
  (length (memory agent) <= 2000)%nat ->
  memory (call_on agent c)
  = drop (length (memory agent ++ remembered [c]) - 2000) (memory agent ++ remembered [c]).
Proof.
  intros Hlen. destruct c as [e|batch_size]; cbn [call_on].
  - change (remembered [Remember e]) with [e]. rewrite remember_memory. rewrite length_app. cbn [length].
    destruct (Nat.ltb_spec 2000 (length (memory agent) + 1)) as [Hlt|Hge].
    + by replace (length (memory agent) + 1 - 2000)%nat with 1%nat by lia.
    + by replace (length (memory agent) + 1 - 2000)%nat with 0%nat by lia.
  - change (remembered [Replay batch_size]) with (@nil experience).
    destruct (replay_fields agent batch_size) as (_ & _ & ->).
    rewrite app_nil_r. by replace (length (memory agent) - 2000)%nat with 0%nat by lia.
Qed.

Lemma remembered_app cs1 cs2 : remembered (cs1 ++ cs2) = remembered cs1 ++ remembered cs2.
Proof. unfold remembered. apply omap_app. Qed.

Lemma after_calls_memory agent calls :
  (length (memory agent) <= 2000)%nat ->
  memory (after_calls agent calls)
  = drop (length (memory agent ++ remembered calls) - 2000)
         (memory agent ++ remembered calls).
Proof.
  unfold after_calls. revert agent. induction calls as [|c calls IH]; intros agent Hlen.
  - cbn [fold_left]. change (remembered []) with (@nil experience). rewrite app_nil_r.
    by replace (length (memory agent) - 2000)%nat with 0%nat by lia.
  - cbn [fold_left]. rewrite IH.
    2:{ rewrite call_on_memory by done. rewrite length_drop. lia. }
    rewrite call_on_memory by done.
    change (c :: calls) with ([c] ++ calls). rewrite remembered_app.
    set (m := memory agent ++ remembered [c]).
    rewrite (app_assoc (memory agent)). fold m.
    rewrite <- (drop_app_le m (remembered calls)) by lia.
    rewrite drop_drop. f_equal. rewrite length_drop, !length_app.
    destruct (Nat.le_gt_cases (length m) 2000); lia.
Qed.

(** Property X13.  The replay memory of an agent is the window of the 2000 experiences
    remembered last, oldest first: whatever series of [remember] and
    [replay] calls a new agent receives, its memory holds the last 2000 of
    the remembered experiences, all of them while there are fewer, and
    [replay] never changes it. *)
Theorem agent_memory_window (rl_models : gmap string network) (n m : nat) (u : string)
    (calls : list call) :
  let agent := after_calls (__init__ rl_models n m u) calls in
  memory agent = drop (length (remembered calls) - 2000) (remembered calls)
  ∧ (length (memory agent) <= 2000)%nat.
Proof.
  intros agent. unfold agent.
  destruct (init_constants rl_models n m u) as (_ & _ & Hmem).
  rewrite after_calls_memory by (rewrite Hmem; cbn; lia).
  rewrite Hmem. cbn [app]. split; [done|]. rewrite length_drop. lia.
Qed.

Lemma call_on_epsilon agent c :
  constants_ok agent -> (0.01 * 0.995 < epsilon agent <= 1)%Q ->
  constants_ok (call_on agent c)
  ∧ (0.01 * 0.995 < epsilon (call_on agent c) <= epsilon agent)%Q.
Proof.
  intros Hc Hb. destruct c as [e|batch_size]; cbn [call_on].
  - destruct (remember_fields agent e) as (-> & Hmin & Hdec & _). split.
    + destruct Hc. unfold constants_ok. by rewrite Hmin, Hdec.
    + split; [apply Hb|apply Qle_refl].
  - destruct (replay_fields agent batch_size) as (Hmin & Hdec & _). split.
    + destruct Hc. unfold constants_ok. by rewrite Hmin, Hdec.
    + destruct (Nat.lt_ge_cases (length (memory agent)) batch_size) as [Hlt|Hge].
      * unfold replay. destruct (Nat.ltb_spec (length (memory agent)) batch_size); [|lia].
        split; [apply Hb|apply Qle_refl].
      * rewrite replay_epsilon by done. unfold decay_step.
        destruct (Qltb 0.01 (epsilon agent)) eqn:Hlt.
        -- apply Qltb_lt in Hlt. split; lra.
        -- split; [apply Hb|apply Qle_refl].
Qed.

(** Property X14.  The exploration rate of an agent starts at 1, never grows, and stays
    above [0.01 * 0.995] through every series of [remember] and [replay]
    calls; the constants [epsilon_min] and [epsilon_decay] keep the values
    of the constructor. *)
Theorem agent_epsilon_invariant (rl_models : gmap string network) (n m : nat) (u : string)
    (calls : list call) (c : call) :
  let agent := after_calls (__init__ rl_models n m u) calls in
  constants_ok agent
  ∧ (0.01 * 0.995 < epsilon agent <= 1)%Q
  ∧ (epsilon (call_on agent c) <= epsilon agent)%Q.
Proof.
  intros agent.
  assert (Hinv : constants_ok agent ∧ (0.01 * 0.995 < epsilon agent <= 1)%Q).
  { unfold agent, after_calls.
    destruct (init_constants rl_models n m u) as (Hc & He & _).
    assert (Hb : (0.01 * 0.995 < epsilon (__init__ rl_models n m u) <= 1)%Q)
      by (rewrite He; split; [reflexivity|discriminate]).
    revert Hc Hb. generalize (__init__ rl_models n m u).
    induction calls as [|c0 calls IH]; intros a Hc Hb; cbn [fold_left]; [done|].
    destruct (call_on_epsilon a c0 Hc Hb) as (Hc' & Hlo & Hhi).
    apply IH; [done|]. split; [done|]. destruct Hb. lra. }
  destruct Hinv as [Hc Hb]. split; [done|]. split; [done|].
  by destruct (call_on_epsilon agent c Hc Hb) as (_ & _ & ?).
Qed.


End Facts.
End MemoryFacts.

Module PolicyFacts.
Import ReinforcementLearning Constants Views Spec Terms Policy PyFacts AgentFacts.

Lemma flt_irrefl a : flt a a = false.
Proof. destruct a as [q| | |]; cbn; try done. apply Qltb_ge, Qle_refl. Qed.

Lemma flt_trans a b c : flt a b = true -> flt b c = true -> flt a c = true.
Proof.
  destruct a as [x| | |], b as [y| | |], c as [z| | |]; cbn; try done.
  rewrite !Qltb_lt. apply Qlt_trans.
Qed.

Lemma flt_asym a b : flt a b = true -> flt b a = false.
Proof.
  destruct a as [x| | |], b as [y| | |]; cbn; try done.
  rewrite Qltb_lt, Qltb_ge. apply Qlt_le_weak.
Qed.

Lemma flt_le_lt a b c :
  isnan a = false -> isnan b = false ->
  flt a b = false -> flt a c = true -> flt b c = true.
Proof.
  destruct a as [x| | |], b as [y| | |], c as [z| | |]; cbn; try done.
  intros _ _. rewrite Qltb_ge, !Qltb_lt. apply Qle_lt_trans.
Qed.

Lemma flt_nan_r a b : flt a b = true -> isnan a = false ∧ isnan b = false.
Proof. by destruct a, b. Qed.

Lemma argmax_from_cons mp max_ind i x ip :
  isnan mp = false -> isnan x = false ->
  argmax_from mp max_ind i (x :: ip)
  = if flt mp x then argmax_from x i (S i) ip else argmax_from mp max_ind (S i) ip.
Proof. intros Hmp Hx. cbn [argmax_from]. rewrite Hx. by destruct mp. Qed.

(** The search from position [i] on, with [mp] at [max_ind] the largest
    entry so far: the answer stays [max_ind] when nothing later is larger,
    and is otherwise the first position of the largest later entry. *)
Lemma argmax_from_spec mp max_ind i ip :
  isnan mp = false -> Forall (fun x => isnan x = false) ip ->
  (argmax_from mp max_ind i ip = max_ind ∧ ∀ y, y ∈ ip -> flt mp y = false)
  ∨ ∃ k m, argmax_from mp max_ind i ip = (i + k)%nat
      ∧ ip !! k = Some m ∧ flt mp m = true
      ∧ (∀ j y, ip !! j = Some y -> flt m y = false)
      ∧ (∀ j y, (j < k)%nat -> ip !! j = Some y -> flt y m = true).
Proof.
  intros Hmp Hall. revert mp max_ind i Hmp.
  induction Hall as [|x ip Hx Hall IH]; intros mp max_ind i Hmp.
  { left. split; [done|]. by intros y ?%elem_of_nil. }
  rewrite argmax_from_cons by done. destruct (flt mp x) eqn:Hlt.
  - right.
    destruct (IH x i (S i) Hx) as [[-> Hnone]|(k & m & -> & Hk & Hm & Hmax & Hfirst)].
    + exists 0%nat, x. split; [lia|]. split; [done|]. split; [done|]. split.
      * intros [|j] y Hy; cbn in Hy; [injection Hy as <-; apply flt_irrefl|].
        apply Hnone. by eapply list_elem_of_lookup_2.
      * intros j y Hj. lia.
    + exists (S k), m. split; [lia|]. split; [done|]. split; [by eapply flt_trans|]. split.
      * intros [|j] y Hy; cbn in Hy; [injection Hy as <-; by apply flt_asym|by eapply Hmax].
      * intros [|j] y Hj Hy; cbn in Hy; [by injection Hy as <-|].
        eapply Hfirst; [|exact Hy]. lia.
  - destruct (IH mp max_ind (S i) Hmp)
      as [[-> Hnone]|(k & m & -> & Hk & Hm & Hmax & Hfirst)].
    + left. split; [done|]. intros y [->|Hy]%elem_of_cons; [done|by apply Hnone].
    + right. exists (S k), m. split; [lia|]. split; [done|]. split; [done|]. split.
      * intros [|j] y Hy; cbn in Hy; [|by eapply Hmax].
        injection Hy as <-. apply flt_asym. by eapply flt_le_lt.
      * intros [|j] y Hj Hy; cbn in Hy; [injection Hy as <-; by eapply flt_le_lt|].
        eapply Hfirst; [|exact Hy]. lia.
Qed.

Lemma np_argmax_first_largest v :
  v ≠ [] -> Forall (fun x => isnan x = false) v ->
  ∃ a, np_argmax v = Ok a ∧ first_largest v a.
Proof.
  destruct v as [|x ip]; [done|]. intros _ [Hx Hall]%Forall_cons. cbn [np_argmax].
  eexists. split; [done|].
  destruct (argmax_from_spec x 0 1 ip Hx Hall)
    as [[-> Hnone]|(k & m & -> & Hk & Hm & Hmax & Hfirst)].
  - exists x. split; [done|]. split.
    + intros [|j] y Hy; cbn in Hy; [injection Hy as <-; apply flt_irrefl|].
      apply Hnone. by eapply list_elem_of_lookup_2.
    + intros j y Hj. lia.
  - exists m. split; [done|]. split.
    + intros [|j] y Hy; cbn in Hy; [injection Hy as <-; by apply flt_asym|by eapply Hmax].
    + intros [|j] y Hj Hy; cbn in Hy; [by injection Hy as <-|].
      eapply Hfirst; [|exact Hy]. lia.
Qed.

Section Facts.
Context `{Keras} `{Runtime} `{Random}.

(** Property X16.  A newly constructed agent explores on every call of [act]: its rate is
    1 and a draw of [np.random.rand()] is below 1, so the action is the
    random draw and the network is not consulted. *)
Theorem act_new_agent_explores (rl_models : gmap string network) (n m : nat) (u : string)
    (st : list pyfloat) :
  (np_random_rand < 1)%Q ->
  act (__init__ rl_models n (S m) u) st = Ok (random_randrange (S m)).
Proof.
  intros Hrand. unfold act.
  assert (Hfields : epsilon (__init__ rl_models n (S m) u) = 1.0%Q
                    ∧ action_size (__init__ rl_models n (S m) u) = S m).
  { unfold __init__, load_model_from_firestore.
    destruct firestore_bound; [|done]. simpl. by destruct (rl_models !! u). }
  destruct Hfields as [-> ->]. cbn [Nat.eqb].
  assert (Hle : Qle_bool np_random_rand 1.0 = true); [|by rewrite Hle].
  apply Qle_bool_iff. lra.
Qed.

(** Property X17.  When the draw is above the exploration rate, [act] returns the first
    position of the largest action value the network predicts. *)
Theorem act_exploits_best (agent : DQNAgent) (st : list pyfloat) :
  (epsilon agent < np_random_rand)%Q ->
  predict (model agent) st ≠ [] ->
  Forall (fun x => isnan x = false) (predict (model agent) st) ->
  ∃ a, act agent st = Ok a ∧ first_largest (predict (model agent) st) a.
Proof.
  intros Hrand Hne Hall. unfold act.
  assert (Hgt : Qle_bool np_random_rand (epsilon agent) = false).
  { apply not_true_is_false. rewrite Qle_bool_iff. by apply Qlt_not_le. }
  rewrite Hgt. cbv zeta. by apply np_argmax_first_largest.
Qed.

End Facts.
End PolicyFacts.

Module LogFacts.
Import Logs.

Lemma string_length_app (s1 s2 : string) :
  String.length (s1 +:+ s2) = (String.length s1 + String.length s2)%nat.
Proof. induction s1 as [|c s1 IH]; simpl; [done|]. by f_equal. Qed.

Lemma string_app_inj_r (s1 s2 t : string) : s1 +:+ t = s2 +:+ t -> s1 = s2.
Proof.
  revert s2. induction s1 as [|c s1 IH]; intros [|c2 s2] Heq; simpl in Heq.
  - done.
  - apply (f_equal String.length) in Heq. simpl in Heq.
    rewrite !string_length_app in Heq. simpl in Heq. lia.
  - apply (f_equal String.length) in Heq. simpl in Heq.
    rewrite !string_length_app in Heq. simpl in Heq. lia.
  - injection Heq as -> Heq. f_equal. by apply IH.
Qed.

Lemma numbered_inj base_filename : Inj (=) (=) (numbered base_filename).
Proof.
  intros n1 n2 Heq. unfold numbered in Heq.
  apply (inj (String.app base_filename)), (inj (String.app "_")) in Heq.
  apply string_app_inj_r in Heq. by apply (inj pretty) in Heq.
Qed.

Lemma numbered_starts_with_sep base_filename n1 n2 :
  starts_with_sep (numbered base_filename n1) = starts_with_sep (numbered base_filename n2).
Proof. unfold numbered. by destruct base_filename. Qed.

Lemma path_join_numbered_inj folder_name base_filename :
  Inj (=) (=) (fun n => path_join folder_name (numbered base_filename n)).
Proof.
  intros n1 n2. unfold path_join.
  rewrite (numbered_starts_with_sep base_filename n1 n2).
  destruct (starts_with_sep _); [apply numbered_inj|].
  destruct (_ || _).
  - intros Heq. by apply (inj (String.app folder_name)), numbered_inj in Heq.
  - intros Heq.
    by apply (inj (String.app folder_name)), (inj (String.app "/")), numbered_inj in Heq.
Qed.

(** What the loop returns: the first free number from [n] on. *)
Lemma next_free_Some fs name fuel n k :
  next_free fs name fuel n = Some k ->
  (n <= k)%nat ∧ path_exists fs (name k) = false
  ∧ ∀ j, (n <= j < k)%nat -> path_exists fs (name j) = true.
Proof.
  revert n. induction fuel as [|fuel IH]; intros n; cbn [next_free]; [done|].
  destruct (path_exists fs (name n)) eqn:Hn.
  - intros (Hle & Hfree & Hbelow)%IH. split; [lia|]. split; [done|].
    intros j Hj. destruct (decide (j = n)) as [->|]; [done|]. apply Hbelow. lia.
  - intros [= <-]. split; [done|]. split; [done|]. intros j Hj. lia.
Qed.

Lemma next_free_None fs name fuel n :
  next_free fs name fuel n = None ->
  ∀ j, (n <= j < n + fuel)%nat -> path_exists fs (name j) = true.
Proof.
  revert n. induction fuel as [|fuel IH]; intros n; cbn [next_free]; [intros _ j; lia|].
  destruct (path_exists fs (name n)) eqn:Hn; [|done].
  intros Hnone j Hj. destruct (decide (j = n)) as [->|]; [done|].
  apply (IH _ Hnone). lia.
Qed.

(** The loop ends: a finite file system cannot hold all of the names. *)
Lemma next_free_ends fs name n :
  Inj (=) (=) name -> ∃ k, next_free fs name (turns fs) n = Some k.
Proof.
  intros Hinj. destruct (next_free fs name (turns fs) n) as [k|] eqn:Hloop; [by eexists|].
  exfalso. pose proof (next_free_None _ _ _ _ Hloop) as Hall.
  set (names := name <$> seq n (turns fs)).
  set (entries := dirs fs ∪ dom (files fs)).
  assert (Hsub : (list_to_set names : gset string) ⊆ entries).
  { intros p [j [-> Hj%elem_of_seq]]%elem_of_list_to_set%list_elem_of_fmap.
    specialize (Hall j Hj). unfold path_exists in Hall. unfold entries.
    apply orb_true_iff in Hall as [Hd%bool_decide_eq_true|Hf%bool_decide_eq_true].
    - set_solver.
    - apply elem_of_union_r. by apply elem_of_dom. }
  apply subseteq_size in Hsub.
  rewrite size_list_to_set in Hsub by (apply (NoDup_fmap_2 name), NoDup_seq).
  unfold names in Hsub. rewrite length_fmap, length_seq in Hsub.
  pose proof (size_union_alt (dirs fs) (dom (files fs))) as Hunion.
  assert (size (dom (files fs) ∖ dirs fs) <= size (dom (files fs)))%nat
    by (apply subseteq_size; set_solver).
  unfold entries, turns in *. lia.
Qed.

Lemma path_exists_makedirs fs p q :
  path_exists (makedirs fs p) q = true -> path_exists fs q = true ∨ q = p.
Proof.
  unfold path_exists, makedirs. cbn [dirs files].
  intros [Hd%bool_decide_eq_true|Hf]%orb_true_iff.
  - apply elem_of_union in Hd as [->%elem_of_singleton|Hd]; [by right|].
    left. apply orb_true_iff. left. by apply bool_decide_eq_true.
  - left. apply orb_true_iff. by right.
Qed.

Lemma path_exists_makedirs_mono fs p q :
  path_exists fs q = true -> path_exists (makedirs fs p) q = true.
Proof.
  unfold path_exists, makedirs. cbn [dirs files].
  intros [Hd%bool_decide_eq_true|Hf]%orb_true_iff; apply orb_true_iff.
  - left. apply bool_decide_eq_true. set_solver.
  - by right.
Qed.

Lemma path_exists_file fs p :
  path_exists fs p = false -> files fs !! p = None.
Proof.
  unfold path_exists. intros [_ Hf%bool_decide_eq_false]%orb_false_iff.
  by apply eq_None_not_Some.
Qed.

Section Dump.
Context {document : Type} (json_dump : document -> string).

(** Property X18.  [save_to_json] always ends, and it writes a new file: the name it
    returns is [<folder>/<base>_<n>.json] for the smallest [n >= 1] whose
    name is not taken, nothing bore that name before, and every file that
    was there keeps its content. *)
Theorem save_to_json_fresh_file (fs : file_system) (data : document)
    (base_filename folder_name : string) :
  let name := fun n => path_join folder_name (numbered base_filename n) in
  ∃ fs' n,
    save_to_json json_dump fs data base_filename folder_name = Some (fs', name n)
    ∧ (1 <= n)%nat
    ∧ path_exists fs (name n) = false
    ∧ (∀ j, (1 <= j < n)%nat -> path_exists fs (name j) = true ∨ name j = folder_name)
    ∧ files fs' = <[name n := json_dump data]> (files fs)
    ∧ (∀ p content, files fs !! p = Some content -> files fs' !! p = Some content).
Proof.
  intros name. unfold save_to_json.
  set (fs1 := if path_exists fs folder_name then fs else makedirs fs folder_name).
  assert (Hfs1 : files fs1 = files fs
                 ∧ (∀ q, path_exists fs1 q = true -> path_exists fs q = true ∨ q = folder_name)
                 ∧ ∀ q, path_exists fs q = true -> path_exists fs1 q = true).
  { unfold fs1. destruct (path_exists fs folder_name); [by split; [|split; [left|]]|].
    split; [done|]. split; [apply path_exists_makedirs|].
    intros q. apply path_exists_makedirs_mono. }
  destruct Hfs1 as (Hfiles & Hexists & Hmono). clearbody fs1.
  destruct (next_free_ends fs1 name 1) as [n Hn];
    [apply path_join_numbered_inj|].
  fold name. rewrite Hn. cbn [mbind option_bind].
  apply next_free_Some in Hn as (Hle & Hfree & Hbelow).
  assert (Hnone : files fs !! name n = None).
  { rewrite <- Hfiles. by apply path_exists_file. }
  eexists _, n. split; [done|]. split; [done|]. split.
  { destruct (path_exists fs (name n)) eqn:Hold; [|done].
    apply Hmono in Hold. congruence. }
  split; [intros j Hj; by apply Hexists, Hbelow|].
  cbn [files write_file]. rewrite Hfiles. split; [done|].
  intros p content Hp. rewrite lookup_insert_ne; [done|].
  intros Heq. assert (files fs !! p = None) by (rewrite <- Heq; exact Hnone). congruence.
Qed.

(** Property X19.  A log function never raises, never ends in a loop, and never touches
    a file that is there: whatever goes wrong, the files afterwards are the
    files before, with at most one new file [<prefix>_<n>.json] in the log
    folder, [n >= 1] being the smallest number whose name was free; when
    nothing goes wrong that file holds the dumped document. *)
Theorem save_log_keeps_files (prefix : string) (fs : file_system) (base_dir : string)
    (log_data : document) (outcome : io) :
  let log_dir := path_join (path_join base_dir "assets") "restaurant_data" in
  let name := fun n => path_join log_dir (numbered prefix n) in
  ∃ fs',
    save_log json_dump prefix fs base_dir log_data outcome = Some fs'
    ∧ (∀ p content, files fs !! p = Some content -> files fs' !! p = Some content)
    ∧ (files fs' = files fs
       ∨ ∃ n content,
           (1 <= n)%nat
           ∧ files fs !! name n = None
           ∧ (∀ j, (1 <= j < n)%nat -> path_exists fs (name j) = true ∨ name j = log_dir)
           ∧ files fs' = <[name n := content]> (files fs)
           ∧ (outcome = Written -> content = json_dump log_data))
    ∧ (outcome = Written -> files fs' ≠ files fs).
Proof.
  intros log_dir name. unfold save_log. fold log_dir. fold name.
  destruct (next_free_ends (makedirs fs log_dir) name 1) as [n Hn];
    [apply path_join_numbered_inj|].
  pose proof Hn as (Hle & Hfree & Hbelow)%next_free_Some.
  assert (Hnone : files fs !! name n = None) by (by apply path_exists_file in Hfree).
  assert (Hleast : ∀ j, (1 <= j < n)%nat -> path_exists fs (name j) = true ∨ name j = log_dir).
  { intros j Hj. by apply path_exists_makedirs, Hbelow. }
  assert (Hkeep : ∀ content p c, files fs !! p = Some c ->
            <[name n := content]> (files fs) !! p = Some c).
  { intros content p c Hp. rewrite lookup_insert_ne; [done|].
    intros Heq. assert (files fs !! p = None) by (rewrite <- Heq; exact Hnone). congruence. }
  assert (Hnew : ∀ content, <[name n := content]> (files fs) ≠ files fs).
  { intros content Heq. apply (f_equal (fun m => m !! name n)) in Heq.
    rewrite lookup_insert_eq in Heq. congruence. }
  destruct outcome as [| | |partial]; rewrite ?Hn; cbn [mbind option_bind].
  - eexists. split; [done|]. cbn [files write_file makedirs]. split; [apply Hkeep|].
    split; [|intros _; apply Hnew]. right. by exists n, (json_dump log_data).
  - exists fs. split; [done|]. split; [done|]. split; [by left|done].
  - eexists. split; [done|]. cbn [files makedirs]. split; [done|]. split; [by left|done].
  - eexists. split; [done|]. cbn [files write_file makedirs]. split; [apply Hkeep|].
    split; [|done]. right. by exists n, partial.
Qed.

End Dump.
End LogFacts.

Module TextFacts.
Import Text Terms.

Lemma replace_char_printable old new text :
  printable old = false -> Forall (fun c => printable c = true) text ->
  replace_char old new text = text.
Proof.
  intros Hold Hall. unfold replace_char.
  induction Hall as [|c text Hc _ IH]; [done|]. cbn [fmap list_fmap].
  f_equal; [|exact IH].
  destruct (N.eqb_spec c old) as [->|]; [congruence|done].
Qed.

Lemma filter_all {A} (p : A -> bool) l :
  Forall (fun x => p x = true) l -> List.filter p l = l.
Proof. induction 1 as [|x l Hx _ IH]; [done|]. cbn [List.filter]. by rewrite Hx, IH. Qed.

Lemma filter_printable l : Forall (fun c => printable c = true) (List.filter printable l).
Proof.
  apply Forall_forall. intros c Hc%list_elem_of_In%filter_In. by destruct Hc.
Qed.

Lemma clean_text_cons c cs :
  clean_text (Some (c :: cs))
  = Some (List.filter printable
            (replace_char em_dash hyphen (replace_char en_dash hyphen (c :: cs)))).
Proof. reflexivity. Qed.

Lemma clean_text_printable_text (text : str) :
  Forall (fun c => printable c = true) text -> clean_text (Some text) = Some text.
Proof.
  intros Hall. destruct text as [|c cs]; [done|]. rewrite clean_text_cons.
  rewrite (replace_char_printable en_dash) by done.
  rewrite (replace_char_printable em_dash) by done.
  by rewrite filter_all.
Qed.

(** Property X20.  What [clean_text] returns holds printable ASCII, line breaks and tabs
    only, and cleaning it again changes nothing; [None] and the empty
    string come back as they are. *)
Theorem clean_text_idempotent (text : option str) :
  clean_text (clean_text text) = clean_text text
  ∧ (∀ out, clean_text text = Some out -> Forall (fun c => printable c = true) out)
  ∧ clean_text None = None ∧ clean_text (Some []) = Some [].
Proof.
  assert (Hout : ∀ out, clean_text text = Some out ->
            Forall (fun c => printable c = true) out).
  { destruct text as [[|c cs]|]; [| |done].
    - by intros out [= <-].
    - intros out Heq. rewrite clean_text_cons in Heq. apply (inj Some) in Heq.
      rewrite <- Heq. apply filter_printable. }
  split; [|done].
  destruct (clean_text text) as [out|] eqn:Hclean; [|done].
  apply clean_text_printable_text. by apply Hout.
Qed.

(** Property X21.  A text is left as it is exactly when it is clean already. *)
Theorem clean_text_keeps_clean_text (text : str) :
  clean_text (Some text) = Some text <-> Forall (fun c => printable c = true) text.
Proof.
  split; [|apply clean_text_printable_text].
  intros Heq. by destruct (clean_text_idempotent (Some text)) as (_ & Hout & _); apply Hout.
Qed.

Lemma count_one (x c : N) : count_occ N.eq_dec [x] c = if (x =? c)%N then 1%nat else 0%nat.
Proof.
  cbn [count_occ]. destruct (N.eq_dec x c) as [->|Hne].
  - by rewrite N.eqb_refl.
  - by destruct (N.eqb_spec x c).
Qed.

Lemma cleaned_char_count (x c : N) :
  printable c = true ->
  count_occ N.eq_dec (cleaned_char x) c
  = (count_occ N.eq_dec [x] c
     + if (c =? hyphen)%N
       then count_occ N.eq_dec [x] en_dash + count_occ N.eq_dec [x] em_dash
       else 0)%nat.
Proof.
  intros Hc. rewrite !count_one.
  assert (Hen : (en_dash =? c)%N = false).
  { destruct (N.eqb_spec en_dash c) as [<-|]; [discriminate Hc|done]. }
  assert (Hem : (em_dash =? c)%N = false).
  { destruct (N.eqb_spec em_dash c) as [<-|]; [discriminate Hc|done]. }
  destruct (N.eqb_spec x en_dash) as [->|Hx1].
  { change (cleaned_char en_dash) with [hyphen].
    rewrite count_one, Hen, (N.eqb_sym c hyphen).
    change (en_dash =? em_dash)%N with false. destruct (hyphen =? c)%N; lia. }
  destruct (N.eqb_spec x em_dash) as [->|Hx2].
  { change (cleaned_char em_dash) with [hyphen].
    rewrite count_one, Hem, (N.eqb_sym c hyphen).
    destruct (hyphen =? c)%N; lia. }
  assert (Hx : cleaned_char x = if printable x then [x] else []).
  { unfold cleaned_char. destruct (N.eqb_spec x en_dash); [done|]. cbv zeta.
    by destruct (N.eqb_spec x em_dash). }
  rewrite Hx. destruct (printable x) eqn:Hp.
  - rewrite count_one. destruct (c =? hyphen)%N; lia.
  - cbn [count_occ]. destruct (N.eqb_spec x c) as [->|_]; [congruence|].
    destruct (c =? hyphen)%N; lia.
Qed.

Lemma clean_text_chars (text : str) :
  List.filter printable (replace_char em_dash hyphen (replace_char en_dash hyphen text))
  = text ≫= cleaned_char.
Proof.
  unfold replace_char. induction text as [|x text IH]; [done|].
  change ((x :: text) ≫= cleaned_char) with (cleaned_char x ++ (text ≫= cleaned_char)).
  rewrite <- IH. cbn [fmap list_fmap List.filter]. unfold cleaned_char. cbv zeta.
  by destruct (printable _).
Qed.

Lemma count_filter_replace (c : N) (text : str) :
  printable c = true ->
  count_occ N.eq_dec
    (List.filter printable (replace_char em_dash hyphen (replace_char en_dash hyphen text))) c
  = (count_occ N.eq_dec text c
     + if (c =? hyphen)%N
       then count_occ N.eq_dec text en_dash + count_occ N.eq_dec text em_dash
       else 0)%nat.
Proof.
  intros Hc. rewrite clean_text_chars.
  induction text as [|x text IH]; [by destruct (c =? hyphen)%N|].
  change ((x :: text) ≫= cleaned_char) with (cleaned_char x ++ (text ≫= cleaned_char)).
  rewrite count_occ_app, IH, cleaned_char_count by done.
  change (x :: text) with ([x] ++ text). rewrite !count_occ_app.
  destruct (c =? hyphen)%N; lia.
Qed.

(** Property X22.  Cleaning drops no printable character and turns every en dash and em
    dash into a hyphen: a printable character other than the hyphen occurs
    in the result as often as in the text, and the hyphen as often as
    hyphens, en dashes and em dashes together. *)
Theorem clean_text_counts (text out : str) (c : N) :
  clean_text (Some text) = Some out -> printable c = true ->
  count_occ N.eq_dec out c
  = (count_occ N.eq_dec text c
     + if (c =? hyphen)%N
       then count_occ N.eq_dec text en_dash + count_occ N.eq_dec text em_dash
       else 0)%nat.
Proof.
  destruct text as [|x text]; [intros [= <-] Hc; by destruct (c =? hyphen)%N|].
  rewrite clean_text_cons. intros Heq%(inj Some) Hc. rewrite <- Heq.
  by apply count_filter_replace.
Qed.

End TextFacts.

Module CategoryFacts.
Import Text GetRestaurants Terms.

Lemma CATEGORY_DICT_keys_eq : CATEGORY_DICT.*1 = Constants.CATEGORY_DICT_keys.
Proof. reflexivity. Qed.

Lemma add_where_elem cond category_dict extracted c :
  c ∈ add_where cond category_dict extracted
  <-> c ∈ extracted ∨ ∃ keywords, (c, keywords) ∈ category_dict ∧ cond keywords = true.
Proof.
  unfold add_where. revert extracted.
  induction category_dict as [|[category keywords] category_dict IH]; intros extracted;
    cbn [fold_left].
  - split; [by left|]. intros [?|(? & []%elem_of_nil & _)]. done.
  - rewrite IH. cbn [fst snd]. split.
    + intros [Hc|(kws & Hin & Hcond)].
      * destruct (cond keywords) eqn:Hk; [|by left].
        apply elem_of_union in Hc as [->%elem_of_singleton|Hc]; [|by left].
        right. exists keywords. split; [by left|done].
      * right. exists kws. split; [by right|done].
    + intros [Hc|(kws & [[= <- <-]|Hin]%elem_of_cons & Hcond)].
      * left. destruct (cond keywords); [|done]. by apply elem_of_union_r.
      * left. rewrite Hcond. apply elem_of_union_l. by apply elem_of_singleton.
      * right. by exists kws.
Qed.

Lemma add_where_texts {A} (f : A -> list str -> bool) category_dict (texts : list A)
    extracted c :
  c ∈ fold_left (fun extracted text => add_where (f text) category_dict extracted)
        texts extracted
  <-> c ∈ extracted
      ∨ ∃ keywords text, (c, keywords) ∈ category_dict ∧ text ∈ texts
          ∧ f text keywords = true.
Proof.
  revert extracted. induction texts as [|text texts IH]; intros extracted; cbn [fold_left].
  - split; [by left|]. intros [?|(? & ? & _ & []%elem_of_nil & _)]. done.
  - rewrite IH, add_where_elem. split.
    + intros [[?|(kws & ? & ?)]|(kws & t & ? & ? & ?)]; [by left| |].
      * right. exists kws, text. split; [done|]. split; [by left|done].
      * right. exists kws, t. split; [done|]. split; [by right|done].
    + intros [?|(kws & t & ? & [->|?]%elem_of_cons & ?)]; [by left; left| |].
      * left. right. by exists kws.
      * right. by exists kws, t.
Qed.

Lemma add_where_two (v d : str) category_dict (e : gset string) c :
  c ∈ fold_left (fun (extracted : gset string) (item : string * list str) =>
        let extracted :=
          if any_keyword_in v item.2 then {[item.1]} ∪ extracted else extracted in
        if any_keyword_in d item.2 then {[item.1]} ∪ extracted else extracted)
      category_dict e
  <-> c ∈ e ∨ ∃ keywords, (c, keywords) ∈ category_dict
        ∧ (any_keyword_in v keywords = true ∨ any_keyword_in d keywords = true).
Proof.
  assert (Hstep : ∀ (e : gset string) category keywords,
    c ∈ (if any_keyword_in d keywords
         then {[category]} ∪ (if any_keyword_in v keywords
                              then {[category]} ∪ e else e)
         else (if any_keyword_in v keywords then {[category]} ∪ e else e))
    <-> c ∈ e ∨ (c = category
                 ∧ (any_keyword_in v keywords = true
                    ∨ any_keyword_in d keywords = true))).
  { intros e' category keywords.
    destruct (any_keyword_in v keywords), (any_keyword_in d keywords);
      rewrite ?elem_of_union, ?elem_of_singleton; naive_solver. }
  revert e. induction category_dict as [|[category keywords] dict IH]; intros e;
    cbn [fold_left].
  - split; [by left|]. intros [?|(? & []%elem_of_nil & _)]. done.
  - rewrite IH. cbv zeta. cbn [fst snd]. rewrite Hstep. split.
    + intros [[?|[-> Hor]]|(kws & ? & ?)].
      * by left.
      * right. exists keywords. split; [by left|done].
      * right. exists kws. split; [by right|done].
    + intros [?|(kws & [[= <- <-]|?]%elem_of_cons & Hor)].
      * by left; left.
      * left. by right.
      * right. by exists kws.
Qed.

Section Facts.
Context `{Strings} `{Fuzzy}.

(** Property X23.  The keyword search reports a category exactly when the search keyword,
    lower-cased, is one of its keywords, or one of its keywords occurs in
    the lower-cased name, a review text, a type, the vicinity or the
    description; so it reports keys of the category dictionary only. *)
Theorem keyword_categories_characterised (dt : details)
    (category_dict : list (string * list str)) (search_keyword : str) (c : string) :
  (c ∈ get_keyword_category dt category_dict search_keyword
   <-> ∃ keywords, (c, keywords) ∈ category_dict
         ∧ ((search_keyword ≠ [] ∧ lower search_keyword ∈ keywords)
            ∨ ∃ text, text ∈ searched_texts dt
                ∧ any_keyword_in (lower text) keywords = true))
  ∧ (c ∈ get_keyword_category dt category_dict search_keyword -> c ∈ category_dict.*1).
Proof.
  assert (Hchar : c ∈ get_keyword_category dt category_dict search_keyword
    <-> ∃ keywords, (c, keywords) ∈ category_dict
          ∧ ((search_keyword ≠ [] ∧ lower search_keyword ∈ keywords)
             ∨ ∃ text, text ∈ searched_texts dt
                 ∧ any_keyword_in (lower text) keywords = true)).
  { unfold get_keyword_category. cbv zeta.
    set (e0 := match search_keyword with [] => ∅ | _ => _ end).
    assert (Hkw : c ∈ e0 <-> ∃ keywords, (c, keywords) ∈ category_dict
                   ∧ search_keyword ≠ [] ∧ lower search_keyword ∈ keywords).
    { unfold e0. destruct search_keyword as [|k ks].
      - split; [by intros ?%elem_of_empty|]. by intros (? & _ & ? & _).
      - rewrite add_where_elem. unfold str_in. split.
        + intros [?%elem_of_empty|(kws & ? & ?%bool_decide_eq_true)]; [done|].
          by exists kws.
        + intros (kws & ? & _ & ?). right. exists kws. split; [done|].
          by apply bool_decide_eq_true. }
    clearbody e0.
    set (e1 := add_where _ category_dict e0).
    set (e2 := fold_left _ (dt_reviews dt) e1).
    set (e3 := fold_left _ (dt_types dt) e2).
    rewrite add_where_two. unfold e3.
    rewrite (add_where_texts (fun t => any_keyword_in (lower t))). unfold e2.
    rewrite (add_where_texts (fun rv => any_keyword_in (lower (default [] (rv_text rv))))).
    unfold e1. rewrite add_where_elem, Hkw. unfold searched_texts.
    clear. split.
    - intros [[[[(kws & ? & ? & ?)|(kws & ? & ?)]|(kws & rv & ? & Hrv & ?)]
              |(kws & t & ? & Ht & ?)]|(kws & ? & Hor)].
      + exists kws. split; [done|]. by left.
      + exists kws. split; [done|]. right. eexists. split; [|done]. set_solver.
      + exists kws. split; [done|]. right.
        eexists. split; [|done]. apply elem_of_app. right. apply elem_of_app. left.
        apply list_elem_of_fmap. by exists rv.
      + exists kws. split; [done|]. right. eexists. split; [|done]. set_solver.
      + exists kws. split; [done|]. right. destruct Hor.
        * eexists. split; [|done]. set_solver.
        * eexists. split; [|done]. set_solver.
    - intros (kws & Hin & [[? ?]|(text & Ht & Hany)]).
      { left. left. left. left. by exists kws. }
      apply elem_of_app in Ht as [->%list_elem_of_singleton|Ht].
      { left. left. left. right. by exists kws. }
      apply elem_of_app in Ht as [Ht|Ht].
      { left. left. right. apply list_elem_of_fmap in Ht as (rv & -> & Hrv).
        by exists kws, rv. }
      apply elem_of_app in Ht as [Ht|Ht].
      { left. right. by exists kws, text. }
      right. exists kws. split; [done|].
      apply elem_of_cons in Ht as [->|Ht]; [by left|].
      apply list_elem_of_singleton in Ht as ->. by right. }
  split; [exact Hchar|].
  intros (kws & Hin & _)%Hchar. apply list_elem_of_fmap. by exists (c, kws).
Qed.


Lemma fuzzy_step_elem (terms : list str) acc (c : string) (score : Z) :
  (c, score) ∈ fold_left (fun fuzzy term =>
        match strip term with
        | [] => fuzzy
        | _ =>
            if existsb isalnum term then
              match get_fuzzy_category term with
              | (Some matched_category, score) =>
                  if String.eqb matched_category "" then fuzzy
                  else fuzzy ++ [(matched_category, score)]
              | (None, _) => fuzzy
              end
            else fuzzy
        end) terms acc
  <-> (c, score) ∈ acc
      ∨ ∃ term, term ∈ terms ∧ strip term ≠ [] ∧ existsb isalnum term = true
          ∧ extractOne term CATEGORY_DICT.*1 = (c, score) ∧ (80 <= score)%Z ∧ c ≠ "".
Proof.
  revert acc. induction terms as [|term terms IH]; intros acc; cbn [fold_left].
  { split; [by left|]. intros [?|(? & []%elem_of_nil & _)]. done. }
  rewrite IH. clear IH.
  assert (Hstep : (c, score) ∈ match strip term with
        | [] => acc
        | _ =>
            if existsb isalnum term then
              match get_fuzzy_category term with
              | (Some matched_category, score) =>
                  if String.eqb matched_category "" then acc
                  else acc ++ [(matched_category, score)]
              | (None, _) => acc
              end
            else acc
        end
      <-> (c, score) ∈ acc
          ∨ (strip term ≠ [] ∧ existsb isalnum term = true
             ∧ extractOne term CATEGORY_DICT.*1 = (c, score) ∧ (80 <= score)%Z ∧ c ≠ "")).
  { unfold get_fuzzy_category.
    destruct (strip term) as [|x xs]; [naive_solver|].
    destruct (existsb isalnum term); [|naive_solver].
    destruct (extractOne term CATEGORY_DICT.*1) as [best s0].
    destruct (Z.leb_spec 80 s0) as [Hge|Hlt]; [|split; [by left|]; intros [?|?]; [done|];
      destruct_and!; simplify_eq; lia].
    destruct (String.eqb_spec best "") as [->|Hne].
    - split; [by left|]. intros [?|?]; [done|]. destruct_and!. simplify_eq.
    - rewrite elem_of_app, list_elem_of_singleton. split.
      + intros [?|[= -> ->]]; [by left|]. right. done.
      + intros [?|?]; [by left|]. destruct_and!. simplify_eq. by right. }
  rewrite Hstep. split.
  - intros [[?|?]|(t & ? & ?)]; [by left| |].
    + right. exists term. split; [by left|done].
    + right. exists t. split; [by right|done].
  - intros [?|(t & [->|?]%elem_of_cons & ?)]; [by left; left| |].
    + left. by right.
    + right. by exists t.
Qed.

Lemma final_step_elem (fuzzy : list (string * Z)) (acc : gset string) c :
  c ∈ fold_left (fun (final : gset string) (item : string * Z) =>
        if (80 <=? item.2)%Z then {[item.1]} ∪ final else final) fuzzy acc
  <-> c ∈ acc ∨ ∃ score, (c, score) ∈ fuzzy ∧ (80 <= score)%Z.
Proof.
  revert acc. induction fuzzy as [|[c0 s0] fuzzy IH]; intros acc; cbn [fold_left].
  { split; [by left|]. intros [?|(? & []%elem_of_nil & _)]. done. }
  rewrite IH. cbn [fst snd]. split.
  - intros [Hc|(score & ? & ?)]; [|right; exists score; split; [by right|done]].
    destruct (Z.leb_spec 80 s0); [|by left].
    apply elem_of_union in Hc as [->%elem_of_singleton|?]; [|by left].
    right. exists s0. split; [by left|done].
  - intros [?|(score & [[= <- <-]|?]%elem_of_cons & Hge)].
    + left. destruct (80 <=? s0)%Z; [by apply elem_of_union_r|done].
    + left. destruct (Z.leb_spec 80 score); [|lia]. apply elem_of_union_l.
      by apply elem_of_singleton.
    + right. by exists score.
Qed.

(** Property X24.  The final categories are the keyword categories together with the
    fuzzy matches: a category is added exactly when the matcher, asked
    about a word of the name, the vicinity, a review text or a type that
    has an alphanumeric character, answers with it and a score of at least
    80.  Nothing the keyword search found is dropped. *)
Theorem final_categories_characterised (dt : details) (keyword : str)
    (category_dict : list (string * list str)) (c : string) :
  c ∈ get_final_categories dt keyword category_dict
  <-> c ∈ get_keyword_category dt category_dict keyword
      ∨ ∃ term score, term ∈ terms_to_check dt ∧ strip term ≠ []
          ∧ existsb isalnum term = true
          ∧ extractOne term CATEGORY_DICT.*1 = (c, score) ∧ (80 <= score)%Z ∧ c ≠ "".
Proof.
  unfold get_final_categories. cbv zeta. rewrite final_step_elem. split.
  - intros [?|(score & Hin & ?)]; [by left|].
    apply fuzzy_step_elem in Hin as [[]%elem_of_nil|(term & ?)].
    right. by exists term, score.
  - intros [?|(term & score & ? & ? & ? & ? & ? & ?)]; [by left|].
    right. exists score. split; [|done]. apply fuzzy_step_elem. right. by exists term.
Qed.

End Facts.
End CategoryFacts.

Module NearbyFacts.
Import Text GetRestaurants Terms CategoryFacts.

Lemma clean_text_clean (text : option str) : clean (clean_text text).
Proof.
  destruct text as [[|c cs]|]; [by constructor| |done].
  unfold clean_text, clean. cbv zeta.
  apply (Forall_forall (fun c => printable c = true)).
  intros x Hx%list_elem_of_In%filter_In. by destruct Hx.
Qed.

Lemma length_omap_le {A B} (f : A -> option B) (l : list A) :
  (length (omap f l) <= length l)%nat.
Proof.
  induction l as [|x l IH]; [done|]. cbn [omap list_omap].
  fold (omap f l). destruct (f x); cbn [length]; lia.
Qed.

Lemma format_reviews_clean reviews_data :
  (length (format_reviews reviews_data) <= 3)%nat
  ∧ Forall (fun fr => clean (author fr) ∧ clean (fr_text fr)) (format_reviews reviews_data).
Proof.
  unfold format_reviews. split.
  - rewrite length_imap, length_take. lia.
  - apply Forall_forall. intros fr (i & rv & -> & _)%elem_of_lookup_imap.
    split; apply clean_text_clean.
Qed.

Lemma photo_references_spec photos_data :
  (length (photo_references photos_data) <= 3)%nat
  ∧ Forall (fun p => p ≠ [] ∧ Some p ∈ take 3 photos_data) (photo_references photos_data).
Proof.
  unfold photo_references. split.
  - etrans; [apply length_omap_le|]. rewrite length_take. lia.
  - apply Forall_forall. intros p (o & Ho & Hp)%list_elem_of_omap.
    destruct o as [[|c cs]|]; [done| |done]. by injection Hp as <-.
Qed.

Lemma bool_or_na_cases x : bool_or_na x = VStr "N/A" ∨ ∃ b, bool_or_na x = VBool b.
Proof. destruct x as [[]|]; cbn; eauto. Qed.

Lemma kept_spec `{Strings} (pl : place) :
  kept pl = true
  <-> upper (default [] (pl_business_status pl)) = codes "OPERATIONAL"
      ∧ ∀ excluded_type, excluded_type ∈ EXCLUDED_TYPES -> excluded_type ∉ pl_types pl.
Proof.
  unfold kept. cbv zeta. rewrite andb_true_iff, negb_true_iff, bool_decide_eq_true.
  rewrite <- not_true_iff_false, existsb_exists. unfold str_in. split.
  - intros [Hnone Hstatus]. split; [done|]. intros t Ht Hin. apply Hnone.
    exists t. split; [by apply list_elem_of_In|by apply bool_decide_eq_true].
  - intros [Hstatus Hnone]. split; [|done].
    intros (t & Ht%list_elem_of_In & Hin%bool_decide_eq_true). by apply (Hnone t).
Qed.

Section Facts.
Context `{Strings} `{Fuzzy} `{GoogleMaps}.

(** What [restaurant_of] needs to build a record, and what the record
    holds. *)
Lemma restaurant_of_Some keyword pl r :
  restaurant_of keyword pl = Some r ->
  ∃ dt,
    pl_place_id pl = Some (place_id r) ∧ place_id r ≠ []
    ∧ gmaps_place (place_id r) = Some (Some dt)
    ∧ dt_rating dt = Some (rating r)
    ∧ rating r ≠ VNone ∧ rating r ≠ VStr "N/A"
    ∧ categories r = get_final_categories dt keyword CATEGORY_DICT
    ∧ name r = clean_text (Some (default (codes "N/A") (pl_name pl)))
    ∧ address r = clean_text (Some (default (default (codes "N/A") (pl_vicinity pl))
                                      (dt_formatted_address dt)))
    ∧ editorial_summary r
      = clean_text (Some (default (codes "N/A") (dt_editorial_overview dt)))
    ∧ reviews r = format_reviews (dt_reviews dt)
    ∧ photos r = photo_references (dt_photos dt)
    ∧ opening_hours r = (fun hour => clean_text (Some hour)) <$> dt_weekday_text dt
    ∧ delivery r = bool_or_na (dt_delivery dt)
    ∧ takeout r = bool_or_na (dt_takeout dt).
Proof.
  unfold restaurant_of. cbv zeta.
  destruct (pl_place_id pl) as [[|c cs]|] eqn:Hid; [done| |done].
  destruct (gmaps_place (c :: cs)) as [[dt|]|] eqn:Hplace; [|done|done].
  destruct (dt_rating dt) as [rt|] eqn:Hrating; [|done].
  assert (Hne : key_eqb rt (VStr "N/A") = false -> rt ≠ VStr "N/A").
  { intros Hk ->. by cbn in Hk. }
  destruct rt as [| b | z | f | s | l]; [done| | | | |];
    (destruct (key_eqb _ (VStr "N/A")) eqn:Hna; [done|]; intros [= <-];
     specialize (Hne eq_refl); exists dt;
     cbn [place_id rating categories name address editorial_summary reviews photos
          opening_hours delivery takeout];
     repeat split; done).
Qed.

(** Property X25.  The nearby search returns one record for each place of the Google
    results that is operational, has none of the excluded types, has a
    place id, and whose details can be fetched and carry a rating; the
    records keep the order of the results; and when a nearby call fails the
    answer is the empty list. *)
Theorem nearby_results_filtered (lat lng radius : value) (keyword : str) :
  let out := get_nearby_recommend_restaurants_logic lat lng radius keyword in
  (places_nearby lat lng radius keyword = None -> out = [])
  ∧ (∀ results, places_nearby lat lng radius keyword = Some results ->
       place_id <$> out `sublist_of` omap pl_place_id results)
  ∧ (∀ r, r ∈ out ->
       ∃ results pl dt,
         places_nearby lat lng radius keyword = Some results ∧ pl ∈ results
         ∧ upper (default [] (pl_business_status pl)) = codes "OPERATIONAL"
         ∧ (∀ excluded_type, excluded_type ∈ EXCLUDED_TYPES ->
              excluded_type ∉ pl_types pl)
         ∧ pl_place_id pl = Some (place_id r) ∧ place_id r ≠ []
         ∧ gmaps_place (place_id r) = Some (Some dt)
         ∧ dt_rating dt = Some (rating r)
         ∧ rating r ≠ VNone ∧ rating r ≠ VStr "N/A").
Proof.
  intros out. unfold out, get_nearby_recommend_restaurants_logic.
  destruct (places_nearby lat lng radius keyword) as [results|]; cycle 1.
  { split; [done|]. split; [done|]. by intros r ?%elem_of_nil. }
  split; [done|]. split.
  - intros ? [= <-]. induction results as [|pl results IH]; [done|].
    cbn [List.filter]. destruct (kept pl); cbn [omap list_omap]; cycle 1.
    { destruct (pl_place_id pl); [by constructor|done]. }
    fold (omap (restaurant_of keyword) (List.filter kept results)).
    fold (omap pl_place_id results).
    destruct (restaurant_of keyword pl) as [r|] eqn:Hr.
    + apply restaurant_of_Some in Hr as (dt & -> & _). cbn [fmap list_fmap].
      by constructor.
    + destruct (pl_place_id pl); [by constructor|done].
  - intros r (pl & Hpl & Hr)%list_elem_of_omap.
    apply list_elem_of_In, filter_In in Hpl as [Hpl%list_elem_of_In Hkept].
    apply kept_spec in Hkept as [Hstatus Htypes].
    apply restaurant_of_Some in Hr as (dt & ? & ? & ? & ? & ? & ? & _).
    by exists results, pl, dt.
Qed.

(** Property X26.  Every record of the nearby search carries cleaned text only (name,
    address, summary, opening hours, review authors and texts), at most
    three reviews and at most three photo references, none of them empty,
    and [delivery] and [takeout] are a boolean or ['N/A']. *)
Theorem nearby_records_clean (lat lng radius : value) (keyword : str) (r : restaurant) :
  r ∈ get_nearby_recommend_restaurants_logic lat lng radius keyword ->
  clean (name r) ∧ clean (address r) ∧ clean (editorial_summary r)
  ∧ Forall clean (opening_hours r)
  ∧ (length (reviews r) <= 3)%nat
  ∧ Forall (fun fr => clean (author fr) ∧ clean (fr_text fr)) (reviews r)
  ∧ (length (photos r) <= 3)%nat
  ∧ Forall (fun p => p ≠ []) (photos r)
  ∧ (delivery r = VStr "N/A" ∨ ∃ b, delivery r = VBool b)
  ∧ (takeout r = VStr "N/A" ∨ ∃ b, takeout r = VBool b).
Proof.
  unfold get_nearby_recommend_restaurants_logic.
  destruct (places_nearby lat lng radius keyword) as [results|];
    [|by intros ?%elem_of_nil].
  intros (pl & _ & Hr)%list_elem_of_omap.
  apply restaurant_of_Some in Hr
    as (dt & _ & _ & _ & _ & _ & _ & _ & -> & -> & -> & -> & -> & -> & -> & ->).
  split; [apply clean_text_clean|]. split; [apply clean_text_clean|].
  split; [apply clean_text_clean|]. split.
  { apply Forall_fmap, Forall_forall. intros hour _. apply clean_text_clean. }
  destruct (format_reviews_clean (dt_reviews dt)) as [? ?].
  destruct (photo_references_spec (dt_photos dt)) as [? Hphotos].
  split; [done|]. split; [done|]. split; [done|]. split.
  { eapply Forall_impl; [exact Hphotos|]. by intros p [? _]. }
  split; apply bool_or_na_cases.
Qed.

(** Property X27.  When the fuzzy matcher answers with one of the choices it is given,
    every category of every record is one of the 16 categories of
    [CATEGORY_KEYS], so each has its position in the one-hot block of the
    RL state vector. *)
Theorem nearby_categories_known (lat lng radius : value) (keyword : str) (r : restaurant)
    (c : string) :
  (∀ term choices, choices ≠ [] -> (extractOne term choices).1 ∈ choices) ->
  r ∈ get_nearby_recommend_restaurants_logic lat lng radius keyword ->
  c ∈ categories r -> c ∈ Constants.CATEGORY_KEYS.
Proof.
  intros Hfuzzy. unfold get_nearby_recommend_restaurants_logic.
  destruct (places_nearby lat lng radius keyword) as [results|];
    [|by intros ?%elem_of_nil].
  intros (pl & _ & Hr)%list_elem_of_omap.
  apply restaurant_of_Some in Hr as (dt & _ & _ & _ & _ & _ & _ & -> & _).
  unfold Constants.CATEGORY_KEYS. rewrite merge_sort_Permutation, <- CATEGORY_DICT_keys_eq.
  intros [Hc|(term & score & _ & _ & _ & Hone & _)]%final_categories_characterised.
  - by apply (keyword_categories_characterised dt CATEGORY_DICT keyword c).
  - specialize (Hfuzzy term CATEGORY_DICT.*1). rewrite Hone in Hfuzzy.
    by apply Hfuzzy.
Qed.

End Facts.
End NearbyFacts.

(** * The further properties on the example data *)

Module MoreChecks.
Import ContentBased Collaborative ReinforcementLearning Constants Hybrid Views Spec Examples.
Import Policy Logs Text GetRestaurants Terms MoreExamples.
Import PyFacts CollaborativeFacts ContentFacts HybridFacts FeatureFacts.
Import NeighbourFacts ScorerFacts RankingFacts ExtractorFacts PolicyFacts TextFacts
  CategoryFacts NearbyFacts.

Lemma head_elem {A} (l : list A) x : head l = Some x -> x ∈ l.
Proof. destruct l; [done|]. intros [= ->]. by left. Qed.

(** The collaborative scorer on the example data: both candidates have a
    place id and come back in order, with scores between 0 and 1. *)
Lemma collaborative_output_in_order_witness :
  get_collaborative_filtering_recommendations (Ok demo_docs) demo_profile demo_restaurants
    = Ok demo_collab_out
  ∧ Forall2 (fun (r r' : pydict) => ∃ v, r' = <["score" := v]> r ∧ unit_score v)
      (List.filter (fun r => get_truthy r "place_id") demo_restaurants) demo_collab_out.
Proof.
  assert (Hrun : get_collaborative_filtering_recommendations (Ok demo_docs) demo_profile
                   demo_restaurants = Ok demo_collab_out)
    by (apply is_ok_eq; vm_compute; reflexivity).
  split; [exact Hrun|].
  exact (collaborative_output_in_order _ _ _ _ Hrun).
Defined.

(** The weighted vote on the example data, where [u1] has neighbours. *)
Lemma collaborative_score_weighted_vote_witness :
  get_collaborative_filtering_recommendations (Ok demo_docs) demo_profile demo_restaurants
    = Ok demo_collab_out
  ∧ top_neighbors (uid demo_profile) (favourite_place_ids (favourites demo_profile))
      (_get_all_user_favorites demo_docs) ≠ []
  ∧ Forall2 (fun (r r' : pydict) =>
        ∀ s, r !! "place_id" = Some (VStr s) ->
          s ∉ favourite_place_ids (favourites demo_profile) ->
          r' = <["score" :=
                  VFloat (Fin (Qsum (likers (_get_all_user_favorites demo_docs) s
                                       (top_neighbors (uid demo_profile)
                                          (favourite_place_ids (favourites demo_profile))
                                          (_get_all_user_favorites demo_docs))).*2
                               / Qsum (top_neighbors (uid demo_profile)
                                         (favourite_place_ids (favourites demo_profile))
                                         (_get_all_user_favorites demo_docs)).*2))]> r)
      (List.filter (fun r => get_truthy r "place_id") demo_restaurants) demo_collab_out.
Proof.
  assert (Hrun : get_collaborative_filtering_recommendations (Ok demo_docs) demo_profile
                   demo_restaurants = Ok demo_collab_out)
    by (apply is_ok_eq; vm_compute; reflexivity).
  assert (Hnb : top_neighbors (uid demo_profile)
                  (favourite_place_ids (favourites demo_profile))
                  (_get_all_user_favorites demo_docs) ≠ [])
    by (vm_compute; discriminate).
  split; [exact Hrun|]. split; [exact Hnb|].
  exact (collaborative_score_weighted_vote demo_docs demo_profile demo_restaurants
           demo_collab_out Hrun Hnb).
Defined.

(** A candidate list without an [editorial_summary] column. *)
Lemma content_scorer_missing_column_witness :
  [(∅ : pydict)] ≠ []
  ∧ get_content_based_recommendations (H := demo_sklearn) demo_profile [∅] = Raise KeyError.
Proof.
  assert (Hne : [(∅ : pydict)] ≠ []) by discriminate.
  split; [exact Hne|].
  apply (content_scorer_missing_column (H := demo_sklearn) demo_profile [∅] Hne).
  vm_compute. reflexivity.
Defined.

(** The content scorer for a user whose favourite is not a candidate. *)
Lemma content_score_without_favourites_witness :
  get_content_based_recommendations (H := demo_sklearn) stranger_profile demo_restaurants
    = Ok stranger_content_out
  ∧ ∀ rec, rec ∈ stranger_content_out ->
      ∃ cats rating score,
        rec !! "categories" = Some (VList (VStr <$> cats))
        ∧ rec !! "rating" = Some (VFloat rating)
        ∧ rec !! "score" = Some (VFloat score)
        ∧ ((list_to_set (restrictions stranger_profile) : gset string) ⊆ list_to_set cats ->
             same_float score
               (score_without_similarity (list_to_set (preferences stranger_profile))
                  (list_to_set cats) rating))
        ∧ (¬ (list_to_set (restrictions stranger_profile) : gset string) ⊆ list_to_set cats ->
             score = Fin 0.0).
Proof.
  assert (Hrun : get_content_based_recommendations (H := demo_sklearn) stranger_profile
                   demo_restaurants = Ok stranger_content_out)
    by (apply is_ok_eq; vm_compute; reflexivity).
  split; [exact Hrun|].
  apply (content_score_without_favourites (H := demo_sklearn) stranger_profile
           demo_restaurants stranger_content_out Hrun).
  unfold demo_restaurants. intros r Hr.
  apply elem_of_cons in Hr as [->|Hr]; [vm_compute; reflexivity|].
  apply list_elem_of_singleton in Hr as ->. vm_compute. reflexivity.
Defined.

(** The combiner on the example heap. *)
Lemma combiner_output_ranked_witness :
  _combine_and_rank_recommendations [0; 1]%nat [2; 3]%nat demo_weights scored_world
    = (Ok combined_out, combined_world)
  ∧ combined_out
    ≡ₚ List.filter (fun l => get_truthy (read scored_world l) "place_id") [0; 1]%nat
  ∧ (∀ l, l ∉ combined_out -> read combined_world l = read scored_world l).
Proof.
  assert (Hrun : _combine_and_rank_recommendations [0; 1]%nat [2; 3]%nat demo_weights
                   scored_world = (Ok combined_out, combined_world))
    by (apply is_ok_run; vm_compute; reflexivity).
  split; [exact Hrun|].
  destruct (combiner_output_ranked [0; 1]%nat [2; 3]%nat demo_weights scored_world
              combined_world combined_out) as (Hperm & _ & Hframe & _).
  - apply NoDup_cons. split; [|apply NoDup_singleton].
    intros Hin%list_elem_of_singleton. discriminate.
  - apply Forall_forall. intros l Hl. vm_compute.
    apply elem_of_cons in Hl as [->|Hl]; [lia|].
    apply list_elem_of_singleton in Hl as ->. lia.
  - exact Hrun.
  - split; [exact Hperm|exact Hframe].
Defined.

(** The whole pipeline on the example request. *)
Lemma pipeline_output_reranked_witness :
  get_hybrid_recommendations (H := demo_sklearn) (H0 := demo_builtins) (H1 := demo_keras)
    (H2 := demo_runtime false) (Ok demo_docs) ∅ [0; 1]%nat request_world
    = (Ok pipeline_out, pipeline_world)
  ∧ NoDup pipeline_out
  ∧ ∀ l, l ∈ pipeline_out ->
      (length (heap request_world) <= l < length (heap pipeline_world))%nat
      ∧ reranked (H := demo_builtins) (H0 := demo_keras) (H1 := demo_runtime false)
          (__init__ (H := demo_keras) (H0 := demo_runtime false) ∅ 35 4
             (default "unknown_user" (uid (caller_profile request_world))))
          (read pipeline_world l).
Proof.
  assert (Hrun : get_hybrid_recommendations (H := demo_sklearn) (H0 := demo_builtins)
                   (H1 := demo_keras) (H2 := demo_runtime false) (Ok demo_docs) ∅
                   [0; 1]%nat request_world = (Ok pipeline_out, pipeline_world))
    by (apply is_ok_run; vm_compute; reflexivity).
  split; [exact Hrun|].
  destruct (pipeline_output_reranked (H := demo_sklearn) (H0 := demo_builtins)
              (H1 := demo_keras) (H2 := demo_runtime false) (Ok demo_docs) ∅
              [0; 1]%nat request_world pipeline_world pipeline_out Hrun)
    as (Hnd & Hrr & _).
  split; [exact Hnd|exact Hrr].
Defined.

(** The state vector of the restaurant [A]. *)
Lemma extract_rl_features_one_hot_witness :
  extract_rl_features (H := demo_builtins) sushi_ya CATEGORY_KEYS = Ok sushi_features
  ∧ sushi_features !! 12%nat = Some (Fin 1)
  ∧ sushi_features !! 3%nat = Some (Fin 0).
Proof.
  assert (Hrun : extract_rl_features (H := demo_builtins) sushi_ya CATEGORY_KEYS
                 = Ok sushi_features)
    by (apply is_ok_eq; vm_compute; reflexivity).
  split; [exact Hrun|].
  destruct (extract_rl_features_one_hot (H := demo_builtins) sushi_ya CATEGORY_KEYS
              sushi_features Hrun) as (rec_cats & Hset & _ & Hhot & _).
  vm_compute in Hset. injection Hset as <-.
  split.
  - exact (Hhot 9%nat "japanese" eq_refl ltac:(lia)).
  - exact (Hhot 0%nat "bar" eq_refl ltac:(lia)).
Defined.

Lemma extract_rl_features_unused_inputs_witness :
  extract_rl_features (H := demo_builtins) sushi_ya CATEGORY_KEYS = Ok sushi_features
  ∧ length sushi_features = 35%nat
  ∧ ∀ i, (19 <= i < 35)%nat -> sushi_features !! i = Some (Fin 0).
Proof.
  assert (Hrun : extract_rl_features (H := demo_builtins) sushi_ya CATEGORY_KEYS
                 = Ok sushi_features)
    by (apply is_ok_eq; vm_compute; reflexivity).
  split; [exact Hrun|].
  exact (extract_rl_features_unused_inputs (H := demo_builtins) sushi_ya sushi_features Hrun).
Defined.

(** A new agent and a draw of [0.5]. *)
Lemma act_new_agent_explores_witness :
  (np_random_rand (Random := demo_random) < 1)%Q
  ∧ act (H := demo_keras) (H0 := demo_random)
      (__init__ (H := demo_keras) (H0 := demo_runtime false) ∅ 35 4 "u1") [] = Ok 3%nat.
Proof.
  assert (Hrand : (np_random_rand (Random := demo_random) < 1)%Q) by reflexivity.
  split; [exact Hrand|].
  exact (act_new_agent_explores (H := demo_keras) (H0 := demo_runtime false)
           (H1 := demo_random) ∅ 35 3 "u1" [] Hrand).
Defined.

(** The seasoned agent and a draw of [0.5]: all four action values are
    equal, so the first action is chosen. *)
Lemma act_exploits_best_witness :
  (epsilon seasoned_agent < np_random_rand (Random := demo_random))%Q
  ∧ ∃ a, act (H := demo_keras) (H0 := demo_random) seasoned_agent [] = Ok a
      ∧ first_largest (predict (Keras := demo_keras) (model seasoned_agent) []) a.
Proof.
  assert (Hrand : (epsilon seasoned_agent < np_random_rand (Random := demo_random))%Q)
    by reflexivity.
  split; [exact Hrand|].
  apply (act_exploits_best (H := demo_keras) (H1 := demo_random) seasoned_agent []
           Hrand).
  - discriminate.
  - repeat constructor.
Defined.

(** ["a–bé"] becomes ["a-b"]: one hyphen for the one dash. *)
Lemma clean_text_counts_witness :
  clean_text (Some dashed_text) = Some dashed_text_cleaned
  ∧ printable hyphen = true
  ∧ count_occ N.eq_dec dashed_text_cleaned hyphen = 1%nat.
Proof.
  assert (Hrun : clean_text (Some dashed_text) = Some dashed_text_cleaned) by reflexivity.
  assert (Hp : printable hyphen = true) by reflexivity.
  split; [exact Hrun|]. split; [exact Hp|].
  exact (clean_text_counts dashed_text dashed_text_cleaned hyphen Hrun Hp).
Defined.

(** The record of the example search. *)
Lemma nearby_records_clean_witness :
  match head demo_nearby_out with
  | Some r =>
      r ∈ demo_nearby_out
      ∧ clean (name r) ∧ clean (address r) ∧ clean (editorial_summary r)
      ∧ Forall clean (opening_hours r)
      ∧ (length (reviews r) <= 3)%nat
      ∧ Forall (fun fr => clean (author fr) ∧ clean (fr_text fr)) (reviews r)
      ∧ (length (photos r) <= 3)%nat
      ∧ Forall (fun p => p ≠ []) (photos r)
      ∧ (delivery r = VStr "N/A" ∨ ∃ b, delivery r = VBool b)
      ∧ (takeout r = VStr "N/A" ∨ ∃ b, takeout r = VBool b)
  | None => False
  end.
Proof.
  destruct (head demo_nearby_out) as [r|] eqn:Hhead.
  - assert (Hin : r ∈ demo_nearby_out) by (by apply head_elem).
    split; [exact Hin|].
    exact (nearby_records_clean (H := demo_strings) (H0 := demo_fuzzy) (H1 := demo_google)
             (VFloat (Fin 3.1)) (VFloat (Fin 101.7)) (VInt 500) [] r Hin).
  - vm_compute in Hhead. discriminate.
Defined.

Lemma demo_fuzzy_answers_with_a_choice term choices :
  choices ≠ [] -> (extractOne (Fuzzy := demo_fuzzy) term choices).1 ∈ choices.
Proof.
  intros Hne. cbn [extractOne demo_fuzzy].
  destruct (List.filter _ choices) as [|choice rest] eqn:Hfilter; cbn [fst].
  - destruct choices; [done|]. by left.
  - assert (Hin : choice ∈ List.filter
                    (fun choice => bool_decide (codes choice = ascii_lower <$> term)) choices)
      by (rewrite Hfilter; by left).
    by apply list_elem_of_In, filter_In in Hin as [?%list_elem_of_In _].
Qed.

(** The categories of the record of the example search. *)
Lemma nearby_categories_known_witness :
  match head demo_nearby_out with
  | Some r => r ∈ demo_nearby_out ∧ ∀ c, c ∈ categories r -> c ∈ CATEGORY_KEYS
  | None => False
  end.
Proof.
  destruct (head demo_nearby_out) as [r|] eqn:Hhead.
  - assert (Hin : r ∈ demo_nearby_out) by (by apply head_elem).
    split; [exact Hin|]. intros c.
    exact (nearby_categories_known (H := demo_strings) (H0 := demo_fuzzy)
             (H1 := demo_google) (VFloat (Fin 3.1)) (VFloat (Fin 101.7)) (VInt 500) [] r c
             demo_fuzzy_answers_with_a_choice Hin).
  - vm_compute in Hhead. discriminate.
Defined.

End MoreChecks.
